(** * ARC — orb lifecycle, shield reflection, scoring and state mirroring

    A shallow embedding of the gameplay core of the ARC arena game
    (main.js, physics.js, shield.js, strikeZone.js, network.js, config.js)
    and the properties its specification states about it.

    Conventions of the embedding.
    - JavaScript numbers are modelled as real numbers: arithmetic is exact,
      [Math.sqrt] is [sqrt], [Math.PI] is [PI].  Counters that only ever
      hold integers (scores, rounds) are [Z].
    - Mutable objects become records that are passed in and returned.
      [performance.now()] becomes an explicit argument [now].
    - Object identity of physics bodies ([event.orbBody !== orbBody]) is
      modelled by the body's numeric [id].
    - Presentation side effects (audio, particles, HUD, overlay) have no
      influence on the state modelled here and are left out. *)

From Stdlib Require Import Reals Lra Lia ZArith List String Bool.
From stdpp Require Import list gmap strings.
Import ListNotations.
Open Scope R_scope.

(** ** Number comparisons as JavaScript evaluates them (to a boolean) *)

Module JS.

Definition ltb (a b : R) : bool := if Rlt_dec a b then true else false.
Definition gtb (a b : R) : bool := if Rlt_dec b a then true else false.
Definition leb (a b : R) : bool := if Rle_dec a b then true else false.

(** [Math.sign] *)
Definition sign (a : R) : R :=
  if Rlt_dec 0 a then 1 else if Rlt_dec a 0 then -1 else 0.

End JS.

(** ** The vector operations of three.js / cannon-es used by the game *)

Module THREE.

Record Vector3 : Type := vec3 { x : R; y : R; z : R }.

Definition length (v : Vector3) : R :=
  sqrt (x v * x v + y v * y v + z v * z v).

Definition multiplyScalar (v : Vector3) (s : R) : Vector3 :=
  vec3 (x v * s) (y v * s) (z v * s).

(** [divideScalar(s)] is [multiplyScalar(1 / s)]. *)
Definition divideScalar (v : Vector3) (s : R) : Vector3 :=
  multiplyScalar v (1 / s).

(** [normalize()] is [divideScalar(this.length() || 1)]. *)
Definition normalize (v : Vector3) : Vector3 :=
  divideScalar v (if Req_dec_T (length v) 0 then 1 else length v).

Definition dot (v w : Vector3) : R :=
  x v * x w + y v * y w + z v * z w.

Definition add (v w : Vector3) : Vector3 :=
  vec3 (x v + x w) (y v + y w) (z v + z w).

(** [new Vector3(0, 0, -1).applyEuler(new Euler(pitch, yaw, 0, 'YXZ'))]:
    the rotation is Ry(yaw) after Rx(pitch). *)
Definition forward (pitch yaw : R) : Vector3 :=
  vec3 (- (sin yaw * cos pitch)) (sin pitch) (- (cos yaw * cos pitch)).

End THREE.

Abbreviation Vector3 := THREE.Vector3.
Abbreviation vec3 := THREE.vec3.

(** ** config.js *)

Module CONFIG.

Definition ARENA_LENGTH : R := 60.
Definition ARENA_WIDTH : R := 10.
Definition ARENA_HEIGHT : R := 5.5.

Definition THROW_SPEED : R := 45.
Definition AIR_DRAG : R := 0.9995.

Definition REFLECT_SPEED_MULT : R := 1.3.
Definition PARRY_SPEED_MULT : R := 1.6.
Definition PARRY_WINDOW_MS : R := 150.
Definition SHIELD_ENERGY_MAX : R := 1.0.
Definition SHIELD_DRAIN_RATE : R := 0.35.
Definition SHIELD_RECHARGE_RATE : R := 0.3.
Definition SHIELD_MIN_ACTIVATE : R := 0.15.

Definition STRIKE_ZONE_RADIUS : R := 1.0.
Definition STRIKE_ZONE_CENTER_Y : R := 1.0.
Definition STRIKE_ZONE_DEPTH : R := 2.0.
Definition STRIKE_SPEED_SCALE : R := 0.10.
Definition STRIKE_MIN_ORB_SPEED : R := 5.0.

Definition POINTS_TO_WIN : Z := 7.
Definition ROUNDS_TO_WIN : Z := 2.
Definition RESET_DELAY_S : R := 1.2.

Definition PLAYER_EYE_HEIGHT : R := 1.7.

Definition RETURN_INITIAL_SPEED : R := 22.

Definition FLICK_THRESHOLD_PX : R := 150.
Definition FLICK_CURVE_ACCEL : R := 8.0.
Definition FLICK_CURVE_DURATION_S : R := 0.3.

End CONFIG.

(** ** The orb: its logical state (orb.js, [createOrb]) and its physics body *)

Inductive Team : Type := player | opponent.

Module OrbState.
Record t : Type := mk {
  position : Vector3;
  velocity : Vector3;
  isHeld : bool;
  owner : Team;
  lastDeflectedBy : option Team;
  strikeStacks : R;
  throwTime : R;
  recalling : bool;
  stallTimer : R;
  returning : bool;
  returnTimer : R;
  curveAccel : Vector3;
  curveTimer : R
}.

Definition set_position (v : Vector3) (r : t) : t :=
  mk v (velocity r) (isHeld r) (owner r) (lastDeflectedBy r)
    (strikeStacks r) (throwTime r) (recalling r) (stallTimer r)
    (returning r) (returnTimer r) (curveAccel r) (curveTimer r).
Definition set_velocity (v : Vector3) (r : t) : t :=
  mk (position r) v (isHeld r) (owner r) (lastDeflectedBy r)
    (strikeStacks r) (throwTime r) (recalling r) (stallTimer r)
    (returning r) (returnTimer r) (curveAccel r) (curveTimer r).
Definition set_owner (v : Team) (r : t) : t :=
  mk (position r) (velocity r) (isHeld r) v (lastDeflectedBy r)
    (strikeStacks r) (throwTime r) (recalling r) (stallTimer r)
    (returning r) (returnTimer r) (curveAccel r) (curveTimer r).
Definition set_lastDeflectedBy (v : option Team) (r : t) : t :=
  mk (position r) (velocity r) (isHeld r) (owner r) v (strikeStacks r)
    (throwTime r) (recalling r) (stallTimer r) (returning r) (returnTimer r)
    (curveAccel r) (curveTimer r).
End OrbState.

Module Body.
Record t : Type := mk {
  id : nat;
  position : Vector3;
  velocity : Vector3;
  angularVelocity : Vector3;
  linearDamping : R
}.

Definition set_position (v : Vector3) (r : t) : t :=
  mk (id r) v (velocity r) (angularVelocity r) (linearDamping r).
Definition set_velocity (v : Vector3) (r : t) : t :=
  mk (id r) (position r) v (angularVelocity r) (linearDamping r).
End Body.

Module Orb.
Record t : Type := mk { state : OrbState.t; body : Body.t }.
End Orb.

(** [createOrb]: the initial state and body; the body's [id] is handed out
    by the physics engine. *)
Definition createOrb (team : Team) (id : nat) : Orb.t :=
  let spawnZ :=
    match team with
    | player => CONFIG.ARENA_LENGTH / 2 - 2
    | opponent => - CONFIG.ARENA_LENGTH / 2 + 3
    end in
  Orb.mk
    (OrbState.mk (vec3 0 0 0) (vec3 0 0 0) true team None 0 0 false 0 false 0
       (vec3 0 0 0) 0)
    (Body.mk id (vec3 0 CONFIG.PLAYER_EYE_HEIGHT spawnZ) (vec3 0 0 0) (vec3 0 0 0) 0.01).

(** ** physics.js *)

Module Bounce.
Record t : Type := mk { pos : Vector3; normal : Vector3; bodyId : nat }.
End Bounce.

Module Physics.

Section Stepping.

(** The rigid-body world and its [world.step(dt)] belong to the external
    engine; the game only calls it. *)
Variable World : Type.
Variable step : R -> World -> World.

Definition subStepsOf (maxSpeed : R) : nat :=
  if JS.gtb maxSpeed 30 then 3%nat
  else if JS.gtb maxSpeed 15 then 2%nat else 1%nat.

(** [for (let i = 0; i < subSteps; i++) world.step(subDt)] *)
Fixpoint stepLoop (n : nat) (subDt : R) (w : World) : World :=
  match n with
  | O => w
  | S k => stepLoop k subDt (step subDt w)
  end.

Definition stepPhysics (world : World) (maxSpeed dt : R) : World :=
  let subSteps := subStepsOf maxSpeed in
  let subDt := dt / INR subSteps in
  stepLoop subSteps subDt world.

End Stepping.

(** The engine seen as a recorder of the time steps it was asked to take,
    latest first. *)
Definition recordStep (dt : R) (taken : list R) : list R := dt :: taken.

Section Sync.

(** The bounce callback is a closure over the orb it is registered for;
    it is modelled as a transformer of that orb. *)
Variable onBounce : Vector3 -> Vector3 -> Orb.t -> Orb.t.

(** State of the drain loop: the local [bqLen], the queue, the orb, and
    the callback invocations made so far (event and the orb it was
    invoked on), latest first. *)
Record DrainState : Type := mkDrain {
  bqLen : nat;
  queue : list Bounce.t;
  orb : Orb.t;
  calls : list (Bounce.t * Orb.t)
}.

(** One iteration of [for (let i = bqLen - 1; i >= 0; i--)] at index [i]. *)
Definition drainAt (bodyId : nat) (i : nat) (s : DrainState) : DrainState :=
  match queue s !! i with
  | None => s
  | Some bounce =>
      if Nat.eqb (Bounce.bodyId bounce) bodyId then
        let fire := JS.gtb (THREE.length (OrbState.velocity (Orb.state (orb s)))) 2 in
        let orb1 :=
          if fire then onBounce (Bounce.pos bounce) (Bounce.normal bounce) (orb s)
          else orb s in
        let calls1 := if fire then (bounce, orb s) :: calls s else calls s in
        let bqLen1 := (bqLen s - 1)%nat in
        let queue1 :=
          if Nat.ltb i bqLen1 then
            match queue s !! bqLen1 with
            | Some last => <[ i := last ]> (queue s)
            | None => queue s
            end
          else queue s in
        mkDrain bqLen1 (take bqLen1 queue1) orb1 calls1
      else s
  end.

(** The loop visits [k - 1], [k - 2], ..., [0]. *)
Fixpoint drainFrom (bodyId : nat) (k : nat) (s : DrainState) : DrainState :=
  match k with
  | O => s
  | S i => drainFrom bodyId i (drainAt bodyId i s)
  end.

Definition clamp (lo hi v : R) : R := Rmax lo (Rmin hi v).

Definition syncOrbPhysics (bounceQueue : list Bounce.t) (o : Orb.t)
  : DrainState :=
  if OrbState.isHeld (Orb.state o) then
    mkDrain (List.length bounceQueue) bounceQueue o []
  else
    let bp := Body.position (Orb.body o) in
    let bv := Body.velocity (Orb.body o) in
    let margin := 0.3 in
    let bp' :=
      vec3
        (clamp (- CONFIG.ARENA_WIDTH / 2 + margin) (CONFIG.ARENA_WIDTH / 2 - margin) (THREE.x bp))
        (clamp margin (CONFIG.ARENA_HEIGHT - margin) (THREE.y bp))
        (clamp (- CONFIG.ARENA_LENGTH / 2 + margin) (CONFIG.ARENA_LENGTH / 2 - margin) (THREE.z bp)) in
    let st' :=
      OrbState.set_velocity bv (OrbState.set_position bp' (Orb.state o)) in
    let b' :=
      Body.set_velocity (THREE.multiplyScalar bv CONFIG.AIR_DRAG)
        (Body.set_position bp' (Orb.body o)) in
    let bodyId := Body.id b' in
    let bqLen0 := List.length bounceQueue in
    drainFrom bodyId bqLen0 (mkDrain bqLen0 bounceQueue (Orb.mk st' b') []).

End Sync.

(** The orb as [syncOrbPhysics] leaves it before it turns to the bounce
    queue: position clamped into the arena, state copied from the body,
    air drag applied to the body. *)
Definition syncedOrb (o : Orb.t) : Orb.t :=
  orb (syncOrbPhysics (fun _ _ o' => o') [] o).

(** Invariant of the drain loop for body [bodyId] over the initial queue
    [queue0], when the indices below [k] are still to be visited: the local
    length is the queue's; the part of the queue from [k] on holds no
    event of this body; the events of other bodies are those of the
    initial queue; every callback invocation so far was for an event of
    this body and was made at a speed above 2. *)
Definition drainInvariant (bodyId : nat) (queue0 : list Bounce.t) (k : nat)
    (s : DrainState) : Prop :=
  bqLen s = List.length (queue s) /\
  (exists front back : list Bounce.t,
     queue s = front ++ back /\ List.length front = k /\
     Forall (fun b => Bounce.bodyId b <> bodyId) back) /\
  filter (fun b => Bounce.bodyId b <> bodyId) (queue s)
    ≡ₚ filter (fun b => Bounce.bodyId b <> bodyId) queue0 /\
  Forall (fun c => Bounce.bodyId (fst c) = bodyId
                   /\ 2 < THREE.length (OrbState.velocity (Orb.state (snd c))))
    (calls s).

End Physics.

(** ** strikeZone.js *)

Module Zone.
Record t : Type := mk {
  centerX : R;
  centerY : R;
  zWall : R;
  radius : R;
  depth : R;
  lastTriggerTime : R;
  flashTimer : R
}.

Definition set_lastTriggerTime (v : R) (r : t) : t :=
  mk (centerX r) (centerY r) (zWall r) (radius r) (depth r) v (flashTimer r).
Definition set_flashTimer (v : R) (r : t) : t :=
  mk (centerX r) (centerY r) (zWall r) (radius r) (depth r)
    (lastTriggerTime r) v.
End Zone.

Module StrikeZone.

(** [zones] is a JS object indexed by the zone's name. *)
Definition createStrikeZones : gmap string Zone.t :=
  let halfZ := CONFIG.ARENA_LENGTH / 2 in
  let radius := CONFIG.STRIKE_ZONE_RADIUS in
  let centerY := CONFIG.STRIKE_ZONE_CENTER_Y in
  <[ "player"%string := Zone.mk 0 centerY halfZ radius CONFIG.STRIKE_ZONE_DEPTH 0 0 ]>
  (<[ "opponent"%string := Zone.mk 0 centerY (- halfZ) radius CONFIG.STRIKE_ZONE_DEPTH 0 0 ]>
   ∅).

Definition checkStrikeZone (zones : gmap string Zone.t) (zoneName : string)
    (orbState : OrbState.t) (now : R) : bool * gmap string Zone.t :=
  match zones !! zoneName with
  | None => (false, zones)
  | Some zone =>
      let pos := OrbState.position orbState in
      let speed := THREE.length (OrbState.velocity orbState) in
      if JS.ltb speed CONFIG.STRIKE_MIN_ORB_SPEED then (false, zones)
      else if OrbState.isHeld orbState || OrbState.recalling orbState then (false, zones)
      else if JS.ltb (now - Zone.lastTriggerTime zone) 1000 then (false, zones)
      else
        let zMin := if JS.ltb (Zone.zWall zone) 0 then Zone.zWall zone
                    else Zone.zWall zone - Zone.depth zone in
        let zMax := if JS.ltb (Zone.zWall zone) 0 then Zone.zWall zone + Zone.depth zone
                    else Zone.zWall zone in
        if JS.ltb (THREE.z pos) zMin || JS.gtb (THREE.z pos) zMax then (false, zones)
        else
          let dx := THREE.x pos - Zone.centerX zone in
          let dy := THREE.y pos - Zone.centerY zone in
          let distSq := dx * dx + dy * dy in
          if JS.leb distSq (Zone.radius zone * Zone.radius zone) then
            (true,
             <[ zoneName := Zone.set_flashTimer 0.3 (Zone.set_lastTriggerTime now zone) ]> zones)
          else (false, zones)
  end.

(** [_updateSingleZone]: only the flash timer is state; the rest is opacity. *)
Definition _updateSingleZone (zone : Zone.t) (dt : R) : Zone.t :=
  if JS.gtb (Zone.flashTimer zone) 0 then
    Zone.set_flashTimer (Zone.flashTimer zone - dt) zone
  else zone.

Definition updateStrikeZones (zones : gmap string Zone.t) (dt : R)
  : gmap string Zone.t :=
  let upd (name : string) (zs : gmap string Zone.t) :=
    match zs !! name with
    | Some zone => <[ name := _updateSingleZone zone dt ]> zs
    | None => zs
    end in
  upd "opponent"%string (upd "player"%string zones).

(** What the game does with the zones over time: strike checks (with the
    clock value read by that call) interleaved with visual updates. *)
Inductive ZoneOp : Type :=
| Check (zoneName : string) (orbState : OrbState.t) (now : R)
| Update (dt : R).

(** Runs the operations in order; returns the zones and, for every check
    that registered a trigger, the zone name and the clock value, in
    call order. *)
Fixpoint runZoneOps (zones : gmap string Zone.t) (ops : list ZoneOp)
  : list (string * R) * gmap string Zone.t :=
  match ops with
  | [] => ([], zones)
  | Check zoneName orbState now :: rest =>
      let '(hit, zones1) := checkStrikeZone zones zoneName orbState now in
      let '(triggers, zones2) := runZoneOps zones1 rest in
      ((if hit then [(zoneName, now)] else []) ++ triggers, zones2)
  | Update dt :: rest => runZoneOps (updateStrikeZones zones dt) rest
  end.

Definition triggerTimes (zoneName : string) (triggers : list (string * R)) : list R :=
  map snd (List.filter (fun t => String.eqb (fst t) zoneName) triggers).

End StrikeZone.

(** ** shield.js *)

Module ReflectionEvent.
(** [orbBody] is the identity of the body that touched the shield. *)
Record t : Type := mk { orbBody : nat; timestamp : R }.
End ReflectionEvent.

Module Shield.

(** [reflections], [state.active], [state.raiseTime], [state.flashTimer]
    and the two angles of [mesh.rotation] that [processReflection] reads. *)
Record t : Type := mk {
  reflections : list ReflectionEvent.t;
  active : bool;
  raiseTime : R;
  flashTimer : R;
  rotationX : R;
  rotationY : R
}.

Record Result : Type := mkResult { isParry : bool; speed : R }.

Definition set_reflections (q : list ReflectionEvent.t) (shield : t) : t :=
  mk q (active shield) (raiseTime shield) (flashTimer shield)
    (rotationX shield) (rotationY shield).

Definition set_active (a : bool) (shield : t) : t :=
  mk (reflections shield) a (raiseTime shield) (flashTimer shield)
    (rotationX shield) (rotationY shield).

Definition set_flashTimer (f : R) (shield : t) : t :=
  mk (reflections shield) (active shield) (raiseTime shield) f
    (rotationX shield) (rotationY shield).

Definition createShield : t := mk [] false 0 0 0 0.

(** Returns the reflection data (or [None] for [null]) and the three
    objects the call may have mutated. *)
Definition processReflection (shield : t) (orbState : OrbState.t)
    (orbBody : Body.t) (aimDirection : option Vector3)
  : option Result * t * OrbState.t * Body.t :=
  match reflections shield with
  | [] => (None, shield, orbState, orbBody)
  | event :: rest =>
      (* const event = shield.reflections.shift() *)
      let shield1 := set_reflections rest shield in
      if negb (Nat.eqb (ReflectionEvent.orbBody event) (Body.id orbBody)) then
        (None, shield1, orbState, orbBody)
      else
        let _reflectVel := Body.velocity orbBody in
        let speed := THREE.length _reflectVel in
        let timeSinceRaise := ReflectionEvent.timestamp event - raiseTime shield1 in
        let isParry := JS.leb timeSinceRaise CONFIG.PARRY_WINDOW_MS in
        let mult := if isParry then CONFIG.PARRY_SPEED_MULT
                    else CONFIG.REFLECT_SPEED_MULT in
        let _reflectResult :=
          match aimDirection with
          | Some aim =>
              THREE.multiplyScalar (THREE.normalize aim) (speed * mult)
          | None =>
              let yaw := rotationY shield1 in
              let pitch := rotationX shield1 in
              let _reflectNormal := THREE.forward pitch yaw in
              let dot := THREE.dot _reflectVel _reflectNormal in
              let mirrored :=
                THREE.add (THREE.multiplyScalar _reflectNormal (-2 * dot)) _reflectVel in
              THREE.multiplyScalar (THREE.normalize mirrored) (speed * mult)
          end in
        let orbBody1 := Body.set_velocity _reflectResult orbBody in
        let orbState1 := OrbState.set_velocity _reflectResult orbState in
        let shield2 := if isParry then set_flashTimer 0.3 shield1 else shield1 in
        (Some (mkResult isParry (speed * mult)), shield2, orbState1, orbBody1)
  end.

End Shield.

(** ** network.js *)

Module StateData.
Record t : Type := mk {
  px : R; py : R; pz : R;
  yaw : R; pitch : R;
  blocking : bool; crouching : bool; dashActive : bool; armed : bool;
  orbHeld : bool;
  orbX : R; orbY : R; orbZ : R;
  orbVx : R; orbVy : R; orbVz : R;
  orbReturning : bool;
  orbStrikeStacks : R
}.
End StateData.

Module Network.

Definition mirrorState (data : StateData.t) : StateData.t :=
  StateData.mk
    (StateData.px data)
    (StateData.py data)
    (- StateData.pz data)
    (StateData.yaw data + PI)
    (StateData.pitch data)
    (StateData.blocking data)
    (StateData.crouching data)
    (StateData.dashActive data)
    (StateData.armed data)
    (StateData.orbHeld data)
    (StateData.orbX data)
    (StateData.orbY data)
    (- StateData.orbZ data)
    (StateData.orbVx data)
    (StateData.orbVy data)
    (- StateData.orbVz data)
    (StateData.orbReturning data)
    (StateData.orbStrikeStacks data).

(** The snapshot a double mirroring is compared with: every field as it
    was, the yaw one full turn further. *)
Definition turnedOnce (data : StateData.t) : StateData.t :=
  StateData.mk
    (StateData.px data) (StateData.py data) (StateData.pz data)
    (StateData.yaw data + 2 * PI)
    (StateData.pitch data)
    (StateData.blocking data) (StateData.crouching data)
    (StateData.dashActive data) (StateData.armed data)
    (StateData.orbHeld data)
    (StateData.orbX data) (StateData.orbY data) (StateData.orbZ data)
    (StateData.orbVx data) (StateData.orbVy data) (StateData.orbVz data)
    (StateData.orbReturning data)
    (StateData.orbStrikeStacks data).

End Network.

(** ** main.js *)

Inductive Phase : Type :=
| title | countdown | goFlash | playing | scoring | betweenRounds | matchOver.

Module GameState.
Record t : Type := mk {
  playerScore : Z;
  opponentScore : Z;
  round : Z;
  playerRounds : Z;
  opponentRounds : Z;
  matchPhase : Phase;
  countdownTimer : R;
  countdownLast : R;
  resetTimer : R;
  playerPos : Vector3;
  playerArmed : bool;
  blocking : bool;
  cameraYaw : R;
  cameraPitch : R;
  dashActive : bool;
  throws : Z;
  throwTime : R;
  firstThrow : bool;
  playerStrikes : R;
  opponentStrikes : R;
  discRecalling : bool;
  onGround : bool;
  shieldEnergy : R;
  parryFlashTimer : R;
  multiplayerActive : bool
}.

Definition set_playerScore (v : Z) (r : t) : t :=
  mk v (opponentScore r) (round r) (playerRounds r) (opponentRounds r)
    (matchPhase r) (countdownTimer r) (countdownLast r) (resetTimer r)
    (playerPos r) (playerArmed r) (blocking r) (cameraYaw r) (cameraPitch r)
    (dashActive r) (throws r) (throwTime r) (firstThrow r) (playerStrikes r)
    (opponentStrikes r) (discRecalling r) (onGround r) (shieldEnergy r)
    (parryFlashTimer r) (multiplayerActive r).
Definition set_opponentScore (v : Z) (r : t) : t :=
  mk (playerScore r) v (round r) (playerRounds r) (opponentRounds r)
    (matchPhase r) (countdownTimer r) (countdownLast r) (resetTimer r)
    (playerPos r) (playerArmed r) (blocking r) (cameraYaw r) (cameraPitch r)
    (dashActive r) (throws r) (throwTime r) (firstThrow r) (playerStrikes r)
    (opponentStrikes r) (discRecalling r) (onGround r) (shieldEnergy r)
    (parryFlashTimer r) (multiplayerActive r).
Definition set_round (v : Z) (r : t) : t :=
  mk (playerScore r) (opponentScore r) v (playerRounds r) (opponentRounds r)
    (matchPhase r) (countdownTimer r) (countdownLast r) (resetTimer r)
    (playerPos r) (playerArmed r) (blocking r) (cameraYaw r) (cameraPitch r)
    (dashActive r) (throws r) (throwTime r) (firstThrow r) (playerStrikes r)
    (opponentStrikes r) (discRecalling r) (onGround r) (shieldEnergy r)
    (parryFlashTimer r) (multiplayerActive r).
Definition set_playerRounds (v : Z) (r : t) : t :=
  mk (playerScore r) (opponentScore r) (round r) v (opponentRounds r)
    (matchPhase r) (countdownTimer r) (countdownLast r) (resetTimer r)
    (playerPos r) (playerArmed r) (blocking r) (cameraYaw r) (cameraPitch r)
    (dashActive r) (throws r) (throwTime r) (firstThrow r) (playerStrikes r)
    (opponentStrikes r) (discRecalling r) (onGround r) (shieldEnergy r)
    (parryFlashTimer r) (multiplayerActive r).
Definition set_opponentRounds (v : Z) (r : t) : t :=
  mk (playerScore r) (opponentScore r) (round r) (playerRounds r) v
    (matchPhase r) (countdownTimer r) (countdownLast r) (resetTimer r)
    (playerPos r) (playerArmed r) (blocking r) (cameraYaw r) (cameraPitch r)
    (dashActive r) (throws r) (throwTime r) (firstThrow r) (playerStrikes r)
    (opponentStrikes r) (discRecalling r) (onGround r) (shieldEnergy r)
    (parryFlashTimer r) (multiplayerActive r).
Definition set_matchPhase (v : Phase) (r : t) : t :=
  mk (playerScore r) (opponentScore r) (round r) (playerRounds r)
    (opponentRounds r) v (countdownTimer r) (countdownLast r) (resetTimer r)
    (playerPos r) (playerArmed r) (blocking r) (cameraYaw r) (cameraPitch r)
    (dashActive r) (throws r) (throwTime r) (firstThrow r) (playerStrikes r)
    (opponentStrikes r) (discRecalling r) (onGround r) (shieldEnergy r)
    (parryFlashTimer r) (multiplayerActive r).
Definition set_countdownTimer (v : R) (r : t) : t :=
  mk (playerScore r) (opponentScore r) (round r) (playerRounds r)
    (opponentRounds r) (matchPhase r) v (countdownLast r) (resetTimer r)
    (playerPos r) (playerArmed r) (blocking r) (cameraYaw r) (cameraPitch r)
    (dashActive r) (throws r) (throwTime r) (firstThrow r) (playerStrikes r)
    (opponentStrikes r) (discRecalling r) (onGround r) (shieldEnergy r)
    (parryFlashTimer r) (multiplayerActive r).
Definition set_countdownLast (v : R) (r : t) : t :=
  mk (playerScore r) (opponentScore r) (round r) (playerRounds r)
    (opponentRounds r) (matchPhase r) (countdownTimer r) v (resetTimer r)
    (playerPos r) (playerArmed r) (blocking r) (cameraYaw r) (cameraPitch r)
    (dashActive r) (throws r) (throwTime r) (firstThrow r) (playerStrikes r)
    (opponentStrikes r) (discRecalling r) (onGround r) (shieldEnergy r)
    (parryFlashTimer r) (multiplayerActive r).
Definition set_resetTimer (v : R) (r : t) : t :=
  mk (playerScore r) (opponentScore r) (round r) (playerRounds r)
    (opponentRounds r) (matchPhase r) (countdownTimer r) (countdownLast r) v
    (playerPos r) (playerArmed r) (blocking r) (cameraYaw r) (cameraPitch r)
    (dashActive r) (throws r) (throwTime r) (firstThrow r) (playerStrikes r)
    (opponentStrikes r) (discRecalling r) (onGround r) (shieldEnergy r)
    (parryFlashTimer r) (multiplayerActive r).
Definition set_playerArmed (v : bool) (r : t) : t :=
  mk (playerScore r) (opponentScore r) (round r) (playerRounds r)
    (opponentRounds r) (matchPhase r) (countdownTimer r) (countdownLast r)
    (resetTimer r) (playerPos r) v (blocking r) (cameraYaw r)
    (cameraPitch r) (dashActive r) (throws r) (throwTime r) (firstThrow r)
    (playerStrikes r) (opponentStrikes r) (discRecalling r) (onGround r)
    (shieldEnergy r) (parryFlashTimer r) (multiplayerActive r).
Definition set_blocking (v : bool) (r : t) : t :=
  mk (playerScore r) (opponentScore r) (round r) (playerRounds r)
    (opponentRounds r) (matchPhase r) (countdownTimer r) (countdownLast r)
    (resetTimer r) (playerPos r) (playerArmed r) v (cameraYaw r)
    (cameraPitch r) (dashActive r) (throws r) (throwTime r) (firstThrow r)
    (playerStrikes r) (opponentStrikes r) (discRecalling r) (onGround r)
    (shieldEnergy r) (parryFlashTimer r) (multiplayerActive r).
Definition set_cameraYaw (v : R) (r : t) : t :=
  mk (playerScore r) (opponentScore r) (round r) (playerRounds r)
    (opponentRounds r) (matchPhase r) (countdownTimer r) (countdownLast r)
    (resetTimer r) (playerPos r) (playerArmed r) (blocking r) v
    (cameraPitch r) (dashActive r) (throws r) (throwTime r) (firstThrow r)
    (playerStrikes r) (opponentStrikes r) (discRecalling r) (onGround r)
    (shieldEnergy r) (parryFlashTimer r) (multiplayerActive r).
Definition set_cameraPitch (v : R) (r : t) : t :=
  mk (playerScore r) (opponentScore r) (round r) (playerRounds r)
    (opponentRounds r) (matchPhase r) (countdownTimer r) (countdownLast r)
    (resetTimer r) (playerPos r) (playerArmed r) (blocking r) (cameraYaw r)
    v (dashActive r) (throws r) (throwTime r) (firstThrow r)
    (playerStrikes r) (opponentStrikes r) (discRecalling r) (onGround r)
    (shieldEnergy r) (parryFlashTimer r) (multiplayerActive r).
Definition set_dashActive (v : bool) (r : t) : t :=
  mk (playerScore r) (opponentScore r) (round r) (playerRounds r)
    (opponentRounds r) (matchPhase r) (countdownTimer r) (countdownLast r)
    (resetTimer r) (playerPos r) (playerArmed r) (blocking r) (cameraYaw r)
    (cameraPitch r) v (throws r) (throwTime r) (firstThrow r)
    (playerStrikes r) (opponentStrikes r) (discRecalling r) (onGround r)
    (shieldEnergy r) (parryFlashTimer r) (multiplayerActive r).
Definition set_throws (v : Z) (r : t) : t :=
  mk (playerScore r) (opponentScore r) (round r) (playerRounds r)
    (opponentRounds r) (matchPhase r) (countdownTimer r) (countdownLast r)
    (resetTimer r) (playerPos r) (playerArmed r) (blocking r) (cameraYaw r)
    (cameraPitch r) (dashActive r) v (throwTime r) (firstThrow r)
    (playerStrikes r) (opponentStrikes r) (discRecalling r) (onGround r)
    (shieldEnergy r) (parryFlashTimer r) (multiplayerActive r).
Definition set_throwTime (v : R) (r : t) : t :=
  mk (playerScore r) (opponentScore r) (round r) (playerRounds r)
    (opponentRounds r) (matchPhase r) (countdownTimer r) (countdownLast r)
    (resetTimer r) (playerPos r) (playerArmed r) (blocking r) (cameraYaw r)
    (cameraPitch r) (dashActive r) (throws r) v (firstThrow r)
    (playerStrikes r) (opponentStrikes r) (discRecalling r) (onGround r)
    (shieldEnergy r) (parryFlashTimer r) (multiplayerActive r).
Definition set_firstThrow (v : bool) (r : t) : t :=
  mk (playerScore r) (opponentScore r) (round r) (playerRounds r)
    (opponentRounds r) (matchPhase r) (countdownTimer r) (countdownLast r)
    (resetTimer r) (playerPos r) (playerArmed r) (blocking r) (cameraYaw r)
    (cameraPitch r) (dashActive r) (throws r) (throwTime r) v
    (playerStrikes r) (opponentStrikes r) (discRecalling r) (onGround r)
    (shieldEnergy r) (parryFlashTimer r) (multiplayerActive r).
Definition set_discRecalling (v : bool) (r : t) : t :=
  mk (playerScore r) (opponentScore r) (round r) (playerRounds r)
    (opponentRounds r) (matchPhase r) (countdownTimer r) (countdownLast r)
    (resetTimer r) (playerPos r) (playerArmed r) (blocking r) (cameraYaw r)
    (cameraPitch r) (dashActive r) (throws r) (throwTime r) (firstThrow r)
    (playerStrikes r) (opponentStrikes r) v (onGround r) (shieldEnergy r)
    (parryFlashTimer r) (multiplayerActive r).
Definition set_onGround (v : bool) (r : t) : t :=
  mk (playerScore r) (opponentScore r) (round r) (playerRounds r)
    (opponentRounds r) (matchPhase r) (countdownTimer r) (countdownLast r)
    (resetTimer r) (playerPos r) (playerArmed r) (blocking r) (cameraYaw r)
    (cameraPitch r) (dashActive r) (throws r) (throwTime r) (firstThrow r)
    (playerStrikes r) (opponentStrikes r) (discRecalling r) v
    (shieldEnergy r) (parryFlashTimer r) (multiplayerActive r).
Definition set_shieldEnergy (v : R) (r : t) : t :=
  mk (playerScore r) (opponentScore r) (round r) (playerRounds r)
    (opponentRounds r) (matchPhase r) (countdownTimer r) (countdownLast r)
    (resetTimer r) (playerPos r) (playerArmed r) (blocking r) (cameraYaw r)
    (cameraPitch r) (dashActive r) (throws r) (throwTime r) (firstThrow r)
    (playerStrikes r) (opponentStrikes r) (discRecalling r) (onGround r) v
    (parryFlashTimer r) (multiplayerActive r).
Definition set_parryFlashTimer (v : R) (r : t) : t :=
  mk (playerScore r) (opponentScore r) (round r) (playerRounds r)
    (opponentRounds r) (matchPhase r) (countdownTimer r) (countdownLast r)
    (resetTimer r) (playerPos r) (playerArmed r) (blocking r) (cameraYaw r)
    (cameraPitch r) (dashActive r) (throws r) (throwTime r) (firstThrow r)
    (playerStrikes r) (opponentStrikes r) (discRecalling r) (onGround r)
    (shieldEnergy r) v (multiplayerActive r).
End GameState.

Module Input.
Record t : Type := mk { throwTriggered : bool; blocking : bool }.
End Input.

Module Main.

Definition PLAYER_SPAWN : Vector3 :=
  vec3 0 CONFIG.PLAYER_EYE_HEIGHT (CONFIG.ARENA_LENGTH / 2 - 2).

(** The module-level objects of main.js that the functions below mutate. *)
Record Globals : Type := mkGlobals {
  gameState : GameState.t;
  playerOrb : Orb.t;
  opponentOrb : Orb.t;
  playerShield : Shield.t;
  opponentShield : Shield.t
}.

(** The objects as main.js creates them; the two orb bodies follow the six
    wall bodies in the engine's numbering. *)
Definition initialGameState : GameState.t :=
  GameState.mk
    0%Z 0%Z                              (* playerScore, opponentScore *)
    1%Z                                  (* round *)
    0%Z 0%Z                              (* playerRounds, opponentRounds *)
    countdown                            (* matchPhase *)
    3.0 4 0                              (* countdownTimer, countdownLast, resetTimer *)
    PLAYER_SPAWN                         (* playerPos *)
    true false                           (* playerArmed, blocking *)
    0 0                                  (* cameraYaw, cameraPitch *)
    false                                (* dashActive *)
    0%Z 0 false                          (* throws, throwTime, firstThrow *)
    0 0                                  (* playerStrikes, opponentStrikes *)
    false true                           (* discRecalling, onGround *)
    1.0                                  (* shieldEnergy *)
    0 false.                             (* parryFlashTimer, multiplayerActive *)

Definition initialGlobals : Globals :=
  mkGlobals initialGameState (createOrb player 6) (createOrb opponent 7)
    Shield.createShield Shield.createShield.

(** The playable volume enclosed by the six static colliders of
    [createPhysicsWorld]. *)
Definition insideArena (p : Vector3) : Prop :=
  - CONFIG.ARENA_WIDTH / 2 <= THREE.x p <= CONFIG.ARENA_WIDTH / 2 /\
  0 <= THREE.y p <= CONFIG.ARENA_HEIGHT /\
  - CONFIG.ARENA_LENGTH / 2 <= THREE.z p <= CONFIG.ARENA_LENGTH / 2.

(** *** Match flow *)

Definition startCountdown (g : GameState.t) : GameState.t :=
  GameState.set_countdownLast 4
    (GameState.set_countdownTimer 3.0
      (GameState.set_matchPhase countdown g)).

Definition beginPlaying (g : GameState.t) : GameState.t :=
  GameState.set_matchPhase playing g.

Definition scorePoint (scorer : Team) (g : GameState.t) : GameState.t :=
  let g1 :=
    match scorer with
    | player => GameState.set_playerScore (GameState.playerScore g + 1)%Z g
    | opponent => GameState.set_opponentScore (GameState.opponentScore g + 1)%Z g
    end in
  if (CONFIG.POINTS_TO_WIN <=? GameState.playerScore g1)%Z
     || (CONFIG.POINTS_TO_WIN <=? GameState.opponentScore g1)%Z
  then
    let roundWinner :=
      if (CONFIG.POINTS_TO_WIN <=? GameState.playerScore g1)%Z
      then player else opponent in
    let g2 :=
      match roundWinner with
      | player => GameState.set_playerRounds (GameState.playerRounds g1 + 1)%Z g1
      | opponent => GameState.set_opponentRounds (GameState.opponentRounds g1 + 1)%Z g1
      end in
    if (CONFIG.ROUNDS_TO_WIN <=? GameState.playerRounds g2)%Z
       || (CONFIG.ROUNDS_TO_WIN <=? GameState.opponentRounds g2)%Z
    then GameState.set_matchPhase matchOver g2
    else GameState.set_resetTimer 2.5 (GameState.set_matchPhase betweenRounds g2)
  else
    GameState.set_resetTimer CONFIG.RESET_DELAY_S
      (GameState.set_matchPhase scoring g1).

Definition resetOrb (team : Team) (spawn : Vector3) (o : Orb.t) : Orb.t :=
  Orb.mk
    (OrbState.mk spawn (vec3 0 0 0) true team None 0
       (OrbState.throwTime (Orb.state o)) false 0 false 0 (vec3 0 0 0) 0)
    (Body.mk (Body.id (Orb.body o)) spawn (vec3 0 0 0) (vec3 0 0 0) 0.01).

Definition resetShield (s : Shield.t) : Shield.t :=
  Shield.set_reflections [] (Shield.set_active false s).

Definition resetPositions (w : Globals) : Globals :=
  let g := gameState w in
  let g' :=
    GameState.mk
      (GameState.playerScore g) (GameState.opponentScore g)
      (GameState.round g)
      (GameState.playerRounds g) (GameState.opponentRounds g)
      (GameState.matchPhase g)
      (GameState.countdownTimer g) (GameState.countdownLast g)
      (GameState.resetTimer g)
      PLAYER_SPAWN                       (* playerPos *)
      true                               (* playerArmed *)
      false                              (* blocking *)
      0 0                                (* cameraYaw, cameraPitch *)
      false                              (* dashActive *)
      (GameState.throws g) (GameState.throwTime g) (GameState.firstThrow g)
      0 0                                (* playerStrikes, opponentStrikes *)
      false                              (* discRecalling *)
      true                               (* onGround *)
      CONFIG.SHIELD_ENERGY_MAX           (* shieldEnergy *)
      (GameState.parryFlashTimer g)
      (GameState.multiplayerActive g) in
  let opponentPosition :=
    vec3 0 CONFIG.PLAYER_EYE_HEIGHT (- CONFIG.ARENA_LENGTH / 2 + 3) in
  mkGlobals g'
    (resetOrb player PLAYER_SPAWN (playerOrb w))
    (resetOrb opponent opponentPosition (opponentOrb w))
    (resetShield (playerShield w))
    (resetShield (opponentShield w)).

Definition set_gameState (g : GameState.t) (w : Globals) : Globals :=
  mkGlobals g (playerOrb w) (opponentOrb w) (playerShield w) (opponentShield w).

Definition nextRound (w : Globals) : Globals :=
  let g := gameState w in
  let g1 :=
    GameState.set_opponentScore 0%Z
      (GameState.set_playerScore 0%Z
        (GameState.set_round (GameState.round g + 1)%Z g)) in
  let w1 := resetPositions (set_gameState g1 w) in
  set_gameState (startCountdown (gameState w1)) w1.

Definition updateScoringPhase (dt : R) (w : Globals) : Globals :=
  let g := gameState w in
  let g1 := GameState.set_resetTimer (GameState.resetTimer g - dt) g in
  let w1 := set_gameState g1 w in
  if JS.leb (GameState.resetTimer g1) 0 then
    let w2 := resetPositions w1 in
    set_gameState (GameState.set_matchPhase playing (gameState w2)) w2
  else w1.

Definition updateBetweenRounds (dt : R) (w : Globals) : Globals :=
  let g := gameState w in
  let g1 := GameState.set_resetTimer (GameState.resetTimer g - dt) g in
  let w1 := set_gameState g1 w in
  if JS.leb (GameState.resetTimer g1) 0 then nextRound w1 else w1.

(** The round is over once [scorePoint] has left the scoring cycle. *)
Definition roundOver (g : GameState.t) : bool :=
  match GameState.matchPhase g with
  | betweenRounds | matchOver => true
  | _ => false
  end.

Definition isPlayer (t : Team) : bool :=
  match t with player => true | opponent => false end.

(** *** Throw *)

(** [flickDx] is the value of [getFlickDelta()], [now] and [now'] the two
    readings of [performance.now()], [playerVelocity] the module-level
    velocity of the thrower. *)
Definition handleThrow (input : Input.t) (flickDx now now' : R)
    (playerVelocity : Vector3) (g : GameState.t) (playerOrb : Orb.t)
  : GameState.t * Orb.t :=
  if negb (GameState.playerArmed g) || GameState.blocking g then (g, playerOrb)
  else if negb (Input.throwTriggered input) then (g, playerOrb)
  else if GameState.dashActive g then (g, playerOrb)
  else
    let g1 := if negb (GameState.firstThrow g)
              then GameState.set_firstThrow true g else g in
    let ds := Orb.state playerOrb in
    let throwSpeed :=
      CONFIG.THROW_SPEED * (1 + OrbState.strikeStacks ds * CONFIG.STRIKE_SPEED_SCALE) in
    let _tmpVec :=
      THREE.normalize (THREE.forward (GameState.cameraPitch g1) (GameState.cameraYaw g1)) in
    let scaled := THREE.multiplyScalar _tmpVec 1.5 in
    let _tmpVec2 := vec3 (THREE.x scaled) (THREE.y scaled - 0.2) (THREE.z scaled) in
    let position := THREE.add (GameState.playerPos g1) _tmpVec2 in
    let thrown := THREE.multiplyScalar _tmpVec throwSpeed in
    let velocity :=
      vec3 (THREE.x thrown + THREE.x playerVelocity * 0.5)
           (THREE.y thrown + THREE.y playerVelocity * 0.5)
           (THREE.z thrown + THREE.z playerVelocity * 0.5) in
    let flick := JS.gtb (Rabs flickDx) CONFIG.FLICK_THRESHOLD_PX in
    let curveAccel :=
      if flick then
        let _tmpVec3 :=
          vec3 (- sin (GameState.cameraYaw g1 + PI / 2)) 0
               (- cos (GameState.cameraYaw g1 + PI / 2)) in
        let curveMag := JS.sign flickDx * CONFIG.FLICK_CURVE_ACCEL in
        THREE.multiplyScalar _tmpVec3 curveMag
      else vec3 0 0 0 in
    let curveTimer := if flick then CONFIG.FLICK_CURVE_DURATION_S else 0 in
    let ds' :=
      OrbState.mk position velocity
        false                            (* isHeld *)
        (OrbState.owner ds) (OrbState.lastDeflectedBy ds)
        (OrbState.strikeStacks ds)
        now                              (* throwTime *)
        false 0                          (* recalling, stallTimer *)
        false 0                          (* returning, returnTimer *)
        curveAccel curveTimer in
    let body' :=
      Body.mk (Body.id (Orb.body playerOrb)) position velocity
        (vec3 0 (throwSpeed * 0.5) 0) 0.01 in
    let g2 :=
      GameState.set_throws (GameState.throws g1 + 1)%Z
        (GameState.set_throwTime now'
          (GameState.set_discRecalling false
            (GameState.set_playerArmed false g1))) in
    (g2, Orb.mk ds' body').

(** Whether [handleThrow] goes past its three guards. *)
Definition throwAccepted (input : Input.t) (g : GameState.t) : bool :=
  GameState.playerArmed g && negb (GameState.blocking g)
  && Input.throwTriggered input && negb (GameState.dashActive g).

(** *** Block / shield energy *)

Definition wantsBlock (input : Input.t) (g : GameState.t) : bool :=
  Input.blocking input && GameState.playerArmed g && GameState.onGround g.

Definition handleBlock (input : Input.t) (dt : R) (g : GameState.t)
  : GameState.t :=
  if GameState.dashActive g then GameState.set_blocking false g
  else
    let g1 :=
      if wantsBlock input g
         && JS.gtb (GameState.shieldEnergy g) CONFIG.SHIELD_MIN_ACTIVATE
      then
        let g2 :=
          GameState.set_shieldEnergy
            (GameState.shieldEnergy g - CONFIG.SHIELD_DRAIN_RATE * dt)
            (GameState.set_blocking true g) in
        if JS.leb (GameState.shieldEnergy g2) 0 then
          GameState.set_blocking false (GameState.set_shieldEnergy 0 g2)
        else g2
      else GameState.set_blocking false g in
    if negb (GameState.blocking g1) then
      GameState.set_shieldEnergy
        (Rmin CONFIG.SHIELD_ENERGY_MAX
           (GameState.shieldEnergy g1 + CONFIG.SHIELD_RECHARGE_RATE * dt))
        g1
    else g1.

(** *** Shield reflections *)

(** What one pass of a drain loop works on: the game state, the shield
    whose queue is drained and the orb it reflects. *)
Record Reflecting : Type := mkReflecting {
  rGame : GameState.t;
  rShield : Shield.t;
  rOrb : Orb.t
}.

(** Body of the [while] loop of [handleShieldReflections]. *)
Definition playerReflectionStep (_aimDir : Vector3) (s : Reflecting) : Reflecting :=
  let '(result, shield', orbState', orbBody') :=
    Shield.processReflection (rShield s) (Orb.state (rOrb s)) (Orb.body (rOrb s))
      (Some _aimDir) in
  match result with
  | Some r =>
      let orbState'' :=
        OrbState.set_lastDeflectedBy (Some player)
          (OrbState.set_owner player orbState') in
      let g := rGame s in
      let g' :=
        if Shield.isParry r then
          GameState.set_parryFlashTimer 0.1
            (GameState.set_cameraPitch (GameState.cameraPitch g + 0.02) g)
        else g in
      mkReflecting g' shield' (Orb.mk orbState'' orbBody')
  | None => mkReflecting (rGame s) shield' (Orb.mk orbState' orbBody')
  end.

(** Body of the [while] loop of [handleOpponentShieldReflections]. *)
Definition opponentReflectionStep (s : Reflecting) : Reflecting :=
  let '(result, shield', orbState', orbBody') :=
    Shield.processReflection (rShield s) (Orb.state (rOrb s)) (Orb.body (rOrb s))
      None in
  match result with
  | Some r =>
      let orbState'' :=
        OrbState.set_lastDeflectedBy (Some opponent)
          (OrbState.set_owner opponent orbState') in
      mkReflecting (rGame s) shield' (Orb.mk orbState'' orbBody')
  | None => mkReflecting (rGame s) shield' (Orb.mk orbState' orbBody')
  end.

(** [while (shield.reflections.length > 0) body]: [None] when the fuel runs
    out before the queue is empty, otherwise the number of passes made and
    the final state. *)
Fixpoint drainReflections (step : Reflecting -> Reflecting) (fuel : nat)
    (s : Reflecting) : option (nat * Reflecting) :=
  match Shield.reflections (rShield s) with
  | [] => Some (O, s)
  | _ :: _ =>
      match fuel with
      | O => None
      | S fuel' =>
          match drainReflections step fuel' (step s) with
          | Some (n, s') => Some (S n, s')
          | None => None
          end
      end
  end.

Definition handleShieldReflections (fuel : nat) (s : Reflecting)
  : option (nat * Reflecting) :=
  let _aimDir :=
    THREE.forward (GameState.cameraPitch (rGame s)) (GameState.cameraYaw (rGame s)) in
  drainReflections (playerReflectionStep _aimDir) fuel s.

Definition handleOpponentShieldReflections (fuel : nat) (s : Reflecting)
  : option (nat * Reflecting) :=
  drainReflections opponentReflectionStep fuel s.

(** *** Bounce handlers *)

Definition startReturn (o : Orb.t) : Orb.t :=
  let st := Orb.state o in
  let speed := THREE.length (OrbState.velocity st) in
  let velocity :=
    if JS.gtb speed 0.01 then
      THREE.multiplyScalar (OrbState.velocity st) (CONFIG.RETURN_INITIAL_SPEED / speed)
    else OrbState.velocity st in
  Orb.mk
    (OrbState.mk (OrbState.position st) velocity (OrbState.isHeld st)
       (OrbState.owner st) (OrbState.lastDeflectedBy st)
       (OrbState.strikeStacks st) (OrbState.throwTime st)
       (OrbState.recalling st) (OrbState.stallTimer st)
       true 0                            (* returning, returnTimer *)
       (vec3 0 0 0) 0)                   (* curveAccel, curveTimer *)
    (Body.set_velocity (vec3 0 0 0)
       (Body.set_position (vec3 0 (-50) 0) (Orb.body o))).

Definition onPlayerOrbBounce (pos normal : Vector3) (playerOrb : Orb.t) : Orb.t :=
  if JS.ltb (THREE.z normal) (-0.5)
     && negb (OrbState.returning (Orb.state playerOrb))
     && negb (OrbState.isHeld (Orb.state playerOrb))
  then startReturn playerOrb
  else playerOrb.

Definition onOpponentOrbBounce (pos normal : Vector3) (opponentOrb : Orb.t) : Orb.t :=
  if JS.gtb (THREE.z normal) 0.5
     && negb (OrbState.returning (Orb.state opponentOrb))
     && negb (OrbState.isHeld (Orb.state opponentOrb))
  then startReturn opponentOrb
  else opponentOrb.

(** The far back wall as each handler tells it from the contact normal. *)
Definition playerFarWall (normal : Vector3) : bool := JS.ltb (THREE.z normal) (-0.5).
Definition opponentFarWall (normal : Vector3) : bool := JS.gtb (THREE.z normal) 0.5.

(** A queued bounce event of the body [bodyId] off the far back wall. *)
Definition farWallEvent (far : Vector3 -> bool) (bodyId : nat) (b : Bounce.t) : bool :=
  Nat.eqb (Bounce.bodyId b) bodyId && far (Bounce.normal b).

(** The orb [o] once the handler has been called, at a speed above 2, for
    each of the [events] that are of its body: returning if one of them
    was off the far back wall, as it was otherwise. *)
Definition afterBounces (far : Vector3 -> bool) (bodyId : nat)
    (events : list Bounce.t) (o : Orb.t) : Orb.t :=
  if existsb (farWallEvent far bodyId) events then startReturn o else o.

(** What the InFlight → Returning transition is to establish, between
    the orb before the bounce and the orb after it. *)
Definition returnStarted (before after : Orb.t) : Prop :=
  OrbState.returning (Orb.state after) = true /\
  THREE.length (OrbState.velocity (Orb.state after)) = CONFIG.RETURN_INITIAL_SPEED /\
  (exists k : R, 0 < k /\
     OrbState.velocity (Orb.state after)
     = THREE.multiplyScalar (OrbState.velocity (Orb.state before)) k) /\
  OrbState.curveAccel (Orb.state after) = vec3 0 0 0 /\
  OrbState.curveTimer (Orb.state after) = 0 /\
  ~ insideArena (Body.position (Orb.body after)).

End Main.

(** ** The wire format of discrete events (network.js, main.js) *)

Module NetEvent.
(** An event object: its [name] and the optional fields the game puts into
    events ([None] when the key is absent). *)
Record t : Type := mk {
  name : string;
  orbX : option R; orbY : option R; orbZ : option R;
  orbVx : option R; orbVy : option R; orbVz : option R;
  isParry : option bool
}.
End NetEvent.

(** ** server.js — matchmaking, room phases and score arbitration

    Sockets are identified by a number; [ws.readyState === 1] is membership
    in the set of open sockets.  Room objects live in a heap indexed by
    their [id], so that the closures of deferred callbacks and the two
    entries of [playerToRoom] all refer to one shared room.  [setTimeout]
    hands out a fresh timer number and parks the callback until the
    environment fires it; [clearTimeout] drops it. *)

Module Server.

Definition POINTS_TO_WIN : Z := 7.
Definition ROUNDS_TO_WIN : Z := 2.
Definition RESET_DELAY : Z := 1200.
Definition BETWEEN_ROUNDS_DELAY : Z := 2500.

Inductive RoomPhase : Type :=
| phWaiting | phCountdown | phPlaying | phScoring | phMatchOver.

Inductive Side : Type := p1 | p2.

Inductive Msg : Type :=
| matched (slot : Z)
| queued (position total : Z)
| countdownMsg (timer : Z)
| go
| resume
| opponent_state (data : StateData.t)
| opponent_event (event : option NetEvent.t)
| score_update (sp1 sp2 rounds_p1 rounds_p2 round : Z)
| round_end (winner : Side) (rounds_p1 rounds_p2 : Z)
| match_end (winner : Side) (rounds_p1 rounds_p2 : Z)
| reset_positions
| opponent_disconnected.

(** A parsed client message; anything with another [type] is [otherType]. *)
Inductive ClientMsg : Type :=
| stateMsg (data : StateData.t)
| eventMsg (event : option NetEvent.t)
| pongMsg
| otherType.

Record Room : Type := mkRoom {
  id : nat;
  players : option nat * option nat;
  scores : Z * Z;
  rounds : Z * Z;
  round : Z;
  phase : RoomPhase;
  timers : list nat
}.

Definition set_players (v : option nat * option nat) (r : Room) : Room :=
  mkRoom (id r) v (scores r) (rounds r) (round r) (phase r) (timers r).
Definition set_scores (v : Z * Z) (r : Room) : Room :=
  mkRoom (id r) (players r) v (rounds r) (round r) (phase r) (timers r).
Definition set_rounds (v : Z * Z) (r : Room) : Room :=
  mkRoom (id r) (players r) (scores r) v (round r) (phase r) (timers r).
Definition set_round (v : Z) (r : Room) : Room :=
  mkRoom (id r) (players r) (scores r) (rounds r) v (phase r) (timers r).
Definition set_phase (v : RoomPhase) (r : Room) : Room :=
  mkRoom (id r) (players r) (scores r) (rounds r) (round r) v (timers r).
Definition set_timers (v : list nat) (r : Room) : Room :=
  mkRoom (id r) (players r) (scores r) (rounds r) (round r) (phase r) v.

(** The deferred callbacks of the server, by what they close over. *)
Inductive Callback : Type :=
| StartCountdown (room : nat)
| Tick (room : nat) (timer : Z)
| NextRound (room : nat)
| Resume (room : nat)
| MatchEnd (room : nat).

Record State : Type := mkState {
  queue : list nat;
  playerToRoom : gmap nat nat;
  rooms : gmap nat Room;
  nextRoomId : nat;
  openSockets : gset nat;
  pending : gmap nat (Z * Callback);
  nextTimer : nat;
  outbox : list (nat * Msg)
}.

Definition set_queue (v : list nat) (s : State) : State :=
  mkState v (playerToRoom s) (rooms s) (nextRoomId s) (openSockets s)
    (pending s) (nextTimer s) (outbox s).
Definition set_playerToRoom (v : gmap nat nat) (s : State) : State :=
  mkState (queue s) v (rooms s) (nextRoomId s) (openSockets s)
    (pending s) (nextTimer s) (outbox s).
Definition set_rooms (v : gmap nat Room) (s : State) : State :=
  mkState (queue s) (playerToRoom s) v (nextRoomId s) (openSockets s)
    (pending s) (nextTimer s) (outbox s).
Definition set_nextRoomId (v : nat) (s : State) : State :=
  mkState (queue s) (playerToRoom s) (rooms s) v (openSockets s)
    (pending s) (nextTimer s) (outbox s).
Definition set_openSockets (v : gset nat) (s : State) : State :=
  mkState (queue s) (playerToRoom s) (rooms s) (nextRoomId s) v
    (pending s) (nextTimer s) (outbox s).
Definition set_pending (v : gmap nat (Z * Callback)) (s : State) : State :=
  mkState (queue s) (playerToRoom s) (rooms s) (nextRoomId s) (openSockets s)
    v (nextTimer s) (outbox s).
Definition set_nextTimer (v : nat) (s : State) : State :=
  mkState (queue s) (playerToRoom s) (rooms s) (nextRoomId s) (openSockets s)
    (pending s) v (outbox s).
Definition set_outbox (v : list (nat * Msg)) (s : State) : State :=
  mkState (queue s) (playerToRoom s) (rooms s) (nextRoomId s) (openSockets s)
    (pending s) (nextTimer s) v.

Definition initial : State := mkState [] ∅ ∅ 1 ∅ ∅ 0 [].

Definition isOpen (ws : nat) (s : State) : bool :=
  bool_decide (ws ∈ openSockets s).

(** [send(ws, msg)]: only to a socket that is there and open. *)
Definition send (ws : option nat) (msg : Msg) (s : State) : State :=
  match ws with
  | Some w => if isOpen w s then set_outbox (outbox s ++ [(w, msg)]) s else s
  | None => s
  end.

Definition broadcast (room : Room) (msg : Msg) (s : State) : State :=
  send (snd (players room)) msg (send (fst (players room)) msg s).

Definition getSlot (room : Room) (ws : nat) : Z :=
  if bool_decide (fst (players room) = Some ws) then 0%Z
  else if bool_decide (snd (players room) = Some ws) then 1%Z
  else (-1)%Z.

(** Mutation of the room object with identity [rid]. *)
Definition updateRoom (rid : nat) (f : Room -> Room) (s : State) : State :=
  set_rooms (alter f rid (rooms s)) s.

(** [setTimeout(callback, delay)]: returns the timer and the new state. *)
Definition setTimeout (cb : Callback) (delay : Z) (s : State) : nat * State :=
  (nextTimer s,
   set_nextTimer (S (nextTimer s))
     (set_pending (<[ nextTimer s := (delay, cb) ]> (pending s)) s)).

(** [room.timers.push(setTimeout(callback, delay))] *)
Definition pushTimeout (rid : nat) (cb : Callback) (delay : Z) (s : State) : State :=
  let '(t, s1) := setTimeout cb delay s in
  updateRoom rid (fun r => set_timers (timers r ++ [t]) r) s1.

Definition sendQueued (total : nat) (s : State) (entry : nat * nat) : State :=
  send (Some (snd entry))
    (queued (Z.of_nat (fst entry) + 1) (Z.of_nat total)) s.

Definition updateQueuePositions (s : State) : State :=
  fold_left (sendQueued (List.length (queue s))) (imap pair (queue s)) s.

Definition createRoom (ws1 ws2 : nat) (s : State) : State :=
  let rid := nextRoomId s in
  let room := mkRoom rid (Some ws1, Some ws2) (0, 0)%Z (0, 0)%Z 1%Z phWaiting [] in
  let s1 := set_nextRoomId (S rid) s in
  let s2 := set_rooms (<[ rid := room ]> (rooms s1)) s1 in
  let s3 := set_playerToRoom (<[ ws2 := rid ]> (<[ ws1 := rid ]> (playerToRoom s2))) s2 in
  let s4 := send (Some ws1) (matched 0) s3 in
  let s5 := send (Some ws2) (matched 1) s4 in
  snd (setTimeout (StartCountdown rid) 500 s5).

Definition deletePlayer (ws : option nat) (m : gmap nat nat) : gmap nat nat :=
  match ws with
  | Some w => delete w m
  | None => m
  end.

Definition destroyRoom (rid : nat) (s : State) : State :=
  match rooms s !! rid with
  | None => s
  | Some room =>
      let s1 := set_pending (fold_left (fun p t => delete t p) (timers room) (pending s)) s in
      let s2 :=
        set_playerToRoom
          (deletePlayer (snd (players room))
             (deletePlayer (fst (players room)) (playerToRoom s1))) s1 in
      updateRoom rid (fun r => set_players (None, None) (set_timers [] r)) s2
  end.

(** [for (let i = queue.length - 1; i >= 0; i--)
       if (queue[i].readyState !== 1) queue.splice(i, 1)] *)
Fixpoint pruneFrom (k : nat) (s : State) (q : list nat) : list nat :=
  match k with
  | O => q
  | S i =>
      pruneFrom i s
        match q !! i with
        | Some ws => if isOpen ws s then q else delete i q
        | None => q
        end
  end.

(** [while (queue.length >= 2)]: takes the queue and gives the queue left
    when the loop ends, with the state after the rooms it created. *)
Fixpoint matchLoop (q : list nat) (s : State) : list nat * State :=
  match q with
  | ws1 :: ws2 :: rest =>
      if isOpen ws1 s && isOpen ws2 s then matchLoop rest (createRoom ws1 ws2 s)
      else
        let q1 := if isOpen ws1 s then ws1 :: rest else rest in
        let q2 := if isOpen ws2 s then ws2 :: q1 else q1 in
        (q2, s)
  | _ => (q, s)
  end.

Definition tryMatch (s : State) : State :=
  let pruned := pruneFrom (List.length (queue s)) s (queue s) in
  let '(remaining, s1) := matchLoop pruned s in
  updateQueuePositions (set_queue remaining s1).

Definition bothPresent (room : Room) : bool :=
  match players room with
  | (Some _, Some _) => true
  | _ => false
  end.

Definition startCountdown (rid : nat) (s : State) : State :=
  match rooms s !! rid with
  | None => s
  | Some room =>
      if negb (bothPresent room) then s
      else
        let s1 := updateRoom rid (set_phase phCountdown) s in
        let s2 := broadcast room (countdownMsg 3) s1 in
        pushTimeout rid (Tick rid 3) 1000 s2
  end.

(** The [tick] closure; [timer] is the closure's variable before this run. *)
Definition tick (rid : nat) (timer : Z) (s : State) : State :=
  match rooms s !! rid with
  | None => s
  | Some room =>
      let timer' := (timer - 1)%Z in
      if (0 <? timer')%Z then
        pushTimeout rid (Tick rid timer') 1000 (broadcast room (countdownMsg timer') s)
      else
        broadcast room go (updateRoom rid (set_phase phPlaying) s)
  end.

Definition bump (slot : Z) (pair : Z * Z) : Z * Z :=
  if (slot =? 0)%Z then (fst pair + 1, snd pair)%Z else (fst pair, snd pair + 1)%Z.

Definition handleHitReport (rid : nat) (reporterSlot : Z) (s : State) : State :=
  match rooms s !! rid with
  | None => s
  | Some room =>
      match phase room with
      | phPlaying =>
          let scorerSlot := if (reporterSlot =? 0)%Z then 1%Z else 0%Z in
          let sc := bump scorerSlot (scores room) in
          let s1 := updateRoom rid (fun r => set_phase phScoring (set_scores sc r)) s in
          let s2 :=
            broadcast room
              (score_update (fst sc) (snd sc) (fst (rounds room)) (snd (rounds room))
                 (round room)) s1 in
          if (POINTS_TO_WIN <=? fst sc)%Z || (POINTS_TO_WIN <=? snd sc)%Z then
            let roundWinner := if (POINTS_TO_WIN <=? fst sc)%Z then 0%Z else 1%Z in
            let rn := bump roundWinner (rounds room) in
            let s3 := updateRoom rid (set_rounds rn) s2 in
            if (ROUNDS_TO_WIN <=? fst rn)%Z || (ROUNDS_TO_WIN <=? snd rn)%Z then
              let s4 := updateRoom rid (set_phase phMatchOver) s3 in
              let s5 :=
                broadcast room
                  (match_end (if (ROUNDS_TO_WIN <=? fst rn)%Z then p1 else p2)
                     (fst rn) (snd rn)) s4 in
              pushTimeout rid (MatchEnd rid) 3000 s5
            else
              let s4 :=
                broadcast room
                  (round_end (if (roundWinner =? 0)%Z then p1 else p2)
                     (fst rn) (snd rn)) s3 in
              pushTimeout rid (NextRound rid) BETWEEN_ROUNDS_DELAY s4
          else
            pushTimeout rid (Resume rid) RESET_DELAY (broadcast room reset_positions s2)
      | _ => s
      end
  end.

Definition handleMatchEnd (rid : nat) (s : State) : State :=
  match rooms s !! rid with
  | None => s
  | Some room =>
      let winnerFirst := (ROUNDS_TO_WIN <=? fst (rounds room))%Z in
      let winnerWs := if winnerFirst then fst (players room) else snd (players room) in
      let loserWs := if winnerFirst then snd (players room) else fst (players room) in
      let s1 := destroyRoom rid s in
      let s2 :=
        match loserWs with
        | Some l => if isOpen l s1 then set_queue (queue s1 ++ [l]) s1 else s1
        | None => s1
        end in
      let s3 :=
        match winnerWs with
        | Some w =>
            if isOpen w s2 then
              match queue s2 with
              | nextOpponent :: rest =>
                  if bool_decide (nextOpponent <> w)
                  then createRoom w nextOpponent (set_queue rest s2)
                  else set_queue (queue s2 ++ [w]) s2
              | [] => set_queue (queue s2 ++ [w]) s2
              end
            else s2
        | None => s2
        end in
      updateQueuePositions s3
  end.

(** The body of the callback the timer carries. *)
Definition runCallback (cb : Callback) (s : State) : State :=
  match cb with
  | StartCountdown rid => startCountdown rid s
  | Tick rid timer => tick rid timer s
  | NextRound rid =>
      match rooms s !! rid with
      | None => s
      | Some room =>
          let s1 :=
            updateRoom rid (fun r => set_scores (0, 0)%Z (set_round (round r + 1)%Z r)) s in
          pushTimeout rid (StartCountdown rid) 500 (broadcast room reset_positions s1)
      end
  | Resume rid =>
      match rooms s !! rid with
      | None => s
      | Some room => broadcast room resume (updateRoom rid (set_phase phPlaying) s)
      end
  | MatchEnd rid => handleMatchEnd rid s
  end.

(** What reaches the server from outside. *)
Inductive Event : Type :=
| Connect (ws : nat)
| Message (ws : nat) (msg : option ClientMsg)
| Close (ws : nat)
| Fire (timer : nat).

Definition onConnection (ws : nat) (s : State) : State :=
  let s1 := set_openSockets ({[ ws ]} ∪ openSockets s) s in
  tryMatch (set_queue (queue s1 ++ [ws]) s1).

Definition isHitReport (event : option NetEvent.t) : bool :=
  match event with
  | Some e => String.eqb (NetEvent.name e) "i_got_hit"
  | None => false
  end.

(** [msg = None] is a payload that [JSON.parse] rejects. *)
Definition onMessage (ws : nat) (msg : option ClientMsg) (s : State) : State :=
  match msg with
  | None => s
  | Some m =>
      match playerToRoom s !! ws with
      | None => s
      | Some rid =>
          match rooms s !! rid with
          | None => s
          | Some room =>
              let slot := getSlot room ws in
              if (slot =? -1)%Z then s
              else
                let otherWs := if (slot =? 0)%Z then snd (players room)
                               else fst (players room) in
                match m with
                | stateMsg data => send otherWs (opponent_state data) s
                | eventMsg event =>
                    if isHitReport event then
                      send otherWs (opponent_event event) (handleHitReport rid slot s)
                    else send otherWs (opponent_event event) s
                | pongMsg => s
                | otherType => s
                end
          end
      end
  end.

(** [queue.indexOf(ws)] and [queue.splice(qIdx, 1)] *)
Fixpoint removeFirst (ws : nat) (q : list nat) : list nat :=
  match q with
  | [] => []
  | x :: rest => if Nat.eqb x ws then rest else x :: removeFirst ws rest
  end.

Definition onClose (ws : nat) (s : State) : State :=
  let s0 := set_openSockets (openSockets s ∖ {[ ws ]}) s in
  let s1 := set_queue (removeFirst ws (queue s0)) s0 in
  let s2 :=
    match playerToRoom s1 !! ws with
    | None => s1
    | Some rid =>
        match rooms s1 !! rid with
        | None => s1
        | Some room =>
            let slot := getSlot room ws in
            let otherWs := if (slot =? 0)%Z then snd (players room)
                           else fst (players room) in
            let s3 := destroyRoom rid (send otherWs opponent_disconnected s1) in
            match otherWs with
            | Some o =>
                if isOpen o s3 then tryMatch (set_queue (queue s3 ++ [o]) s3) else s3
            | None => s3
            end
        end
    end in
  updateQueuePositions s2.

Definition fire (t : nat) (s : State) : State :=
  match pending s !! t with
  | None => s
  | Some (_, cb) => runCallback cb (set_pending (delete t (pending s)) s)
  end.

Definition step (s : State) (e : Event) : State :=
  match e with
  | Connect ws => onConnection ws s
  | Message ws msg => onMessage ws msg s
  | Close ws => onClose ws s
  | Fire t => fire t s
  end.

Definition run (events : list Event) (s : State) : State :=
  fold_left step events s.

(** Two clients connect, are paired into room 1, and the setup delay and
    the three countdown ticks elapse: the room is in the playing phase. *)
Definition openingEvents : list Event :=
  [Connect 10; Connect 20; Fire 0; Fire 1; Fire 2; Fire 3].

Definition hitReport : option ClientMsg :=
  Some (eventMsg (Some (NetEvent.mk "i_got_hit" None None None None None None None))).

Definition roomOf (cb : Callback) : nat :=
  match cb with
  | StartCountdown r | Tick r _ | NextRound r | Resume r | MatchEnd r => r
  end.

(** Bookkeeping the server relies on.  Every parked callback other than a
    [StartCountdown] is listed in the [timers] of the room it closes over; room numbers from [nextRoomId] on
    are unused; and a socket mapped to a room is one of that room's two
    players. *)
Definition timersTracked (s : State) : Prop :=
  forall t d cb, pending s !! t = Some (d, cb) ->
    (exists r, cb = StartCountdown r) \/
    exists room, rooms s !! roomOf cb = Some room /\ t ∈ timers room.

Definition roomsBelowNext (s : State) : Prop :=
  forall rid, (nextRoomId s <= rid)%nat -> rooms s !! rid = None.

Definition mappedToOwnRoom (s : State) : Prop :=
  forall ws rid, playerToRoom s !! ws = Some rid ->
    exists room, rooms s !! rid = Some room /\
      (fst (players room) = Some ws \/ snd (players room) = Some ws).

Definition wellFormed (s : State) : Prop :=
  timersTracked s /\ roomsBelowNext s /\ mappedToOwnRoom s.

End Server.

(** ** config.js — the further tuning constants used below *)

Module Config.

Definition ORB_RADIUS : R := 0.3.
Definition GRAVITY : R := 3.0.

Definition MOVE_ACCEL : R := 40.
Definition MOVE_DECEL : R := 25.
Definition MOVE_MAX_SPEED : R := 7.
Definition PLAYER_BOUNDS_DEPTH : R := 8.0.

Definition CATCH_RADIUS : R := 2.2.
Definition CATCH_FACING_DOT : R := 0.6.
Definition CATCH_GRACE_PERIOD_MS : R := 500.
Definition CLEAN_CATCH_SPEED_BOOST : R := 0.10.
Definition CLEAN_CATCH_BOOST_DURATION : R := 0.4.

Definition SHIELD_OFFSET : R := 1.0.
Definition BLOCK_SPEED_PENALTY : R := 0.4.

Definition STRIKE_MAX_STACKS : R := 3.

Definition DASH_DISTANCE : R := 3.0.
Definition DASH_DURATION_S : R := 0.15.
Definition DASH_COOLDOWN_S : R := 1.5.

Definition CROUCH_EYE_HEIGHT : R := 0.9.
Definition CROUCH_TRANSITION_SPEED : R := 12.0.
Definition CROUCH_MOVE_PENALTY : R := 0.6.

Definition JUMP_VELOCITY : R := 7.0.
Definition DOUBLE_JUMP_VELOCITY : R := 5.5.
Definition PLAYER_GRAVITY : R := 18.0.
Definition AIR_MOVE_PENALTY : R := 0.65.
Definition MAX_JUMPS : Z := 2.

Definition SCORE_MIN_SPEED : R := 3.0.
Definition SCORE_DEBOUNCE_MS : R := 1000.
Definition HIT_GRACE_PERIOD_MS : R := 500.

Definition RECALL_DELAY : R := 1.0.
Definition RECALL_MAX_TIME : R := 6.0.
Definition RECALL_SPEED : R := 16.
Definition STALL_SPEED : R := 2.5.

Definition RETURN_STEER_BASE : R := 35.
Definition RETURN_STEER_RAMP : R := 50.
Definition RETURN_STEER_MAX : R := 90.
Definition RETURN_SPEED_MIN : R := 18.
Definition RETURN_SPEED_MAX : R := 30.
Definition RETURN_GRAVITY_COUNTER : R := 0.95.
Definition RETURN_CATCH_DIST : R := 3.0.

Definition FLICK_SAMPLE_MS : R := 100.

Definition OPP_HIT_RADIUS : R := 1.5.

End Config.

(** ** Further vector methods of three.js *)

Module Vec3.

Definition sub (v w : Vector3) : Vector3 :=
  vec3 (THREE.x v - THREE.x w) (THREE.y v - THREE.y w) (THREE.z v - THREE.z w).

Definition distanceTo (v w : Vector3) : R := THREE.length (sub v w).

Definition zero : Vector3 := vec3 0 0 0.

End Vec3.

(** ** Field updates of the orb's state and body *)

Module OrbUpdate.

Definition set_isHeld (v : bool) (r : OrbState.t) : OrbState.t :=
  OrbState.mk (OrbState.position r) (OrbState.velocity r) v (OrbState.owner r)
    (OrbState.lastDeflectedBy r) (OrbState.strikeStacks r) (OrbState.throwTime r)
    (OrbState.recalling r) (OrbState.stallTimer r) (OrbState.returning r)
    (OrbState.returnTimer r) (OrbState.curveAccel r) (OrbState.curveTimer r).
Definition set_strikeStacks (v : R) (r : OrbState.t) : OrbState.t :=
  OrbState.mk (OrbState.position r) (OrbState.velocity r) (OrbState.isHeld r)
    (OrbState.owner r) (OrbState.lastDeflectedBy r) v (OrbState.throwTime r)
    (OrbState.recalling r) (OrbState.stallTimer r) (OrbState.returning r)
    (OrbState.returnTimer r) (OrbState.curveAccel r) (OrbState.curveTimer r).
Definition set_recalling (v : bool) (r : OrbState.t) : OrbState.t :=
  OrbState.mk (OrbState.position r) (OrbState.velocity r) (OrbState.isHeld r)
    (OrbState.owner r) (OrbState.lastDeflectedBy r) (OrbState.strikeStacks r)
    (OrbState.throwTime r) v (OrbState.stallTimer r) (OrbState.returning r)
    (OrbState.returnTimer r) (OrbState.curveAccel r) (OrbState.curveTimer r).
Definition set_stallTimer (v : R) (r : OrbState.t) : OrbState.t :=
  OrbState.mk (OrbState.position r) (OrbState.velocity r) (OrbState.isHeld r)
    (OrbState.owner r) (OrbState.lastDeflectedBy r) (OrbState.strikeStacks r)
    (OrbState.throwTime r) (OrbState.recalling r) v (OrbState.returning r)
    (OrbState.returnTimer r) (OrbState.curveAccel r) (OrbState.curveTimer r).
Definition set_returning (v : bool) (r : OrbState.t) : OrbState.t :=
  OrbState.mk (OrbState.position r) (OrbState.velocity r) (OrbState.isHeld r)
    (OrbState.owner r) (OrbState.lastDeflectedBy r) (OrbState.strikeStacks r)
    (OrbState.throwTime r) (OrbState.recalling r) (OrbState.stallTimer r) v
    (OrbState.returnTimer r) (OrbState.curveAccel r) (OrbState.curveTimer r).
Definition set_returnTimer (v : R) (r : OrbState.t) : OrbState.t :=
  OrbState.mk (OrbState.position r) (OrbState.velocity r) (OrbState.isHeld r)
    (OrbState.owner r) (OrbState.lastDeflectedBy r) (OrbState.strikeStacks r)
    (OrbState.throwTime r) (OrbState.recalling r) (OrbState.stallTimer r)
    (OrbState.returning r) v (OrbState.curveAccel r) (OrbState.curveTimer r).
Definition set_curveTimer (v : R) (r : OrbState.t) : OrbState.t :=
  OrbState.mk (OrbState.position r) (OrbState.velocity r) (OrbState.isHeld r)
    (OrbState.owner r) (OrbState.lastDeflectedBy r) (OrbState.strikeStacks r)
    (OrbState.throwTime r) (OrbState.recalling r) (OrbState.stallTimer r)
    (OrbState.returning r) (OrbState.returnTimer r) (OrbState.curveAccel r) v.

Definition set_angularVelocity (v : Vector3) (b : Body.t) : Body.t :=
  Body.mk (Body.id b) (Body.position b) (Body.velocity b) v (Body.linearDamping b).
Definition set_linearDamping (v : R) (b : Body.t) : Body.t :=
  Body.mk (Body.id b) (Body.position b) (Body.velocity b) (Body.angularVelocity b) v.

Definition set_state (st : OrbState.t) (o : Orb.t) : Orb.t := Orb.mk st (Orb.body o).
Definition set_body (b : Body.t) (o : Orb.t) : Orb.t := Orb.mk (Orb.state o) b.

End OrbUpdate.

(** The fields of [gameState] that the functions below use beyond those of
    [GameState.t]. *)
Module GameStateRest.
Record t : Type := mk {
  catches : Z;
  cleanCatchBoostTimer : R;
  lastPlayerHitTime : R;
  lastOppHitTime : R;
  hitFlashTimer : R;
  shakeTimer : R
}.

Definition initial : t := mk 0%Z 0 0 0 0 0.

Definition set_catches (v : Z) (r : t) : t :=
  mk v (cleanCatchBoostTimer r) (lastPlayerHitTime r) (lastOppHitTime r)
    (hitFlashTimer r) (shakeTimer r).
Definition set_cleanCatchBoostTimer (v : R) (r : t) : t :=
  mk (catches r) v (lastPlayerHitTime r) (lastOppHitTime r)
    (hitFlashTimer r) (shakeTimer r).
Definition set_lastPlayerHitTime (v : R) (r : t) : t :=
  mk (catches r) (cleanCatchBoostTimer r) v (lastOppHitTime r)
    (hitFlashTimer r) (shakeTimer r).
Definition set_lastOppHitTime (v : R) (r : t) : t :=
  mk (catches r) (cleanCatchBoostTimer r) (lastPlayerHitTime r) v
    (hitFlashTimer r) (shakeTimer r).
Definition set_hitFlashTimer (v : R) (r : t) : t :=
  mk (catches r) (cleanCatchBoostTimer r) (lastPlayerHitTime r) (lastOppHitTime r)
    v (shakeTimer r).
Definition set_shakeTimer (v : R) (r : t) : t :=
  mk (catches r) (cleanCatchBoostTimer r) (lastPlayerHitTime r) (lastOppHitTime r)
    (hitFlashTimer r) v.
End GameStateRest.

(** ** main.js — the orb between throw and catch *)

Module Flight.

(** One iteration of [for (let i = bq.length - 1; i >= 0; i--)] of
    [flushBounceQueue], at index [i]. *)
Definition flushAt (bodyId : nat) (i : nat) (bq : list Bounce.t) : list Bounce.t :=
  match bq !! i with
  | None => bq
  | Some bounce =>
      if Nat.eqb (Bounce.bodyId bounce) bodyId then
        let last := (List.length bq - 1)%nat in
        let bq1 :=
          if Nat.ltb i last then
            match bq !! last with
            | Some l => <[ i := l ]> bq
            | None => bq
            end
          else bq in
        take last bq1
      else bq
  end.

Fixpoint flushFrom (bodyId : nat) (k : nat) (bq : list Bounce.t) : list Bounce.t :=
  match k with
  | O => bq
  | S i => flushFrom bodyId i (flushAt bodyId i bq)
  end.

Definition flushBounceQueue (bounceQueue : list Bounce.t) (orb : Orb.t)
  : list Bounce.t :=
  flushFrom (Body.id (Orb.body orb)) (List.length bounceQueue) bounceQueue.

(** *** Recall *)

Definition startRecall (orb : Orb.t) : Orb.t :=
  Orb.mk
    (OrbUpdate.set_returnTimer 0
       (OrbUpdate.set_returning false
          (OrbUpdate.set_recalling true (Orb.state orb))))
    (OrbUpdate.set_linearDamping 0.99 (Orb.body orb)).

(** [now] is the value of [performance.now()]. *)
Definition handleRecall (orb : Orb.t) (holderPos : Vector3) (dt now : R) : Orb.t :=
  let ds := Orb.state orb in
  if OrbState.isHeld ds then
    OrbUpdate.set_state
      (OrbUpdate.set_recalling false (OrbUpdate.set_stallTimer 0 ds)) orb
  else
    let timeSinceThrow := (now - OrbState.throwTime ds) / 1000 in
    let orb1 :=
      if negb (OrbState.recalling ds) && JS.gtb timeSinceThrow Config.RECALL_MAX_TIME
      then startRecall orb else orb in
    let ds1 := Orb.state orb1 in
    if OrbState.recalling ds1 then
      let _tmpVec := Vec3.sub holderPos (OrbState.position ds1) in
      let dist := THREE.length _tmpVec in
      if JS.ltb dist 0.3 then orb1
      else
        let dir := THREE.normalize _tmpVec in
        let speed :=
          Rmin Config.RECALL_SPEED (Config.RECALL_SPEED * (dist / 5) + 4) in
        let px := THREE.x (OrbState.position ds1) + THREE.x dir * speed * dt in
        let py := THREE.y (OrbState.position ds1) + THREE.y dir * speed * dt in
        let pz := THREE.z (OrbState.position ds1) + THREE.z dir * speed * dt in
        let py' := py + (THREE.y holderPos - py) * 4 * dt in
        let position := vec3 px py' pz in
        let velocity :=
          vec3 (THREE.x dir * speed) (THREE.y dir * speed) (THREE.z dir * speed) in
        Orb.mk
          (OrbState.set_velocity velocity (OrbState.set_position position ds1))
          (Body.set_velocity Vec3.zero (Body.set_position position (Orb.body orb1)))
    else
      let speed := THREE.length (OrbState.velocity ds1) in
      if JS.ltb speed Config.STALL_SPEED then
        let orb2 :=
          OrbUpdate.set_state
            (OrbUpdate.set_stallTimer (OrbState.stallTimer ds1 + dt) ds1) orb1 in
        if JS.leb Config.RECALL_DELAY (OrbState.stallTimer (Orb.state orb2))
        then startRecall orb2 else orb2
      else OrbUpdate.set_state (OrbUpdate.set_stallTimer 0 ds1) orb1.

(** One frame as [handleRecall] sees it: the velocity the physics
    synchronisation has left in the orb's state, the holder's position, the
    frame time and the clock. *)
Record RecallFrame : Type := mkRecallFrame {
  fVelocity : Vector3;
  fHolderPos : Vector3;
  fDt : R;
  fNow : R
}.

Definition recallFrame (orb : Orb.t) (frame : RecallFrame) : Orb.t :=
  handleRecall
    (OrbUpdate.set_state (OrbState.set_velocity (fVelocity frame) (Orb.state orb)) orb)
    (fHolderPos frame) (fDt frame) (fNow frame).

Definition recallFrames (frames : list RecallFrame) (orb : Orb.t) : Orb.t :=
  fold_left recallFrame frames orb.

Definition frameTime (frames : list RecallFrame) : R :=
  fold_right Rplus 0 (map fDt frames).

(** *** Auto-return arc *)

(** [if (p < lo) { p = lo; v = Math.abs(v) }
     if (p > hi) { p = hi; v = -Math.abs(v) }] *)
Definition bounceAxis (lo hi p v : R) : R * R :=
  let '(p1, v1) := if JS.ltb p lo then (lo, Rabs v) else (p, v) in
  if JS.gtb p1 hi then (hi, - Rabs v1) else (p1, v1).

Definition handleOrbReturn (orb : Orb.t) (ownerPos : Vector3) (dt : R)
  : bool * Orb.t :=
  let ds := Orb.state orb in
  if negb (OrbState.returning ds) || OrbState.isHeld ds then (false, orb)
  else
    let ds1 := OrbUpdate.set_returnTimer (OrbState.returnTimer ds + dt) ds in
    let dx := THREE.x ownerPos - THREE.x (OrbState.position ds1) in
    let dy := THREE.y ownerPos - THREE.y (OrbState.position ds1) in
    let dz := THREE.z ownerPos - THREE.z (OrbState.position ds1) in
    let dist := sqrt (dx * dx + dy * dy + dz * dz) in
    if JS.ltb dist Config.RETURN_CATCH_DIST then (true, OrbUpdate.set_state ds1 orb)
    else
      let invDist := 1 / Rmax dist 0.01 in
      let steer :=
        Rmin Config.RETURN_STEER_MAX
          (Config.RETURN_STEER_BASE + OrbState.returnTimer ds1 * Config.RETURN_STEER_RAMP) in
      let v0 := OrbState.velocity ds1 in
      let vx := THREE.x v0 + dx * invDist * steer * dt in
      let vy := THREE.y v0 + dy * invDist * steer * dt in
      let vz := THREE.z v0 + dz * invDist * steer * dt in
      let vy' := vy + Config.GRAVITY * Config.RETURN_GRAVITY_COUNTER * dt in
      let v1 := vec3 vx vy' vz in
      let speed := THREE.length v1 in
      let v2 :=
        if JS.gtb speed Config.RETURN_SPEED_MAX then
          THREE.multiplyScalar v1 (Config.RETURN_SPEED_MAX / speed)
        else if JS.ltb speed Config.RETURN_SPEED_MIN && JS.gtb speed 0.01 then
          THREE.multiplyScalar v1 (Config.RETURN_SPEED_MIN / speed)
        else v1 in
      let p0 := OrbState.position ds1 in
      let halfW := CONFIG.ARENA_WIDTH / 2 - 0.3 in
      let halfZ := CONFIG.ARENA_LENGTH / 2 - 0.3 in
      let minY := 0.3 in
      let maxY := CONFIG.ARENA_HEIGHT - 0.3 in
      let bx := bounceAxis (- halfW) halfW (THREE.x p0 + THREE.x v2 * dt) (THREE.x v2) in
      let by_ := bounceAxis minY maxY (THREE.y p0 + THREE.y v2 * dt) (THREE.y v2) in
      let bz := bounceAxis (- halfZ) halfZ (THREE.z p0 + THREE.z v2 * dt) (THREE.z v2) in
      (false,
       OrbUpdate.set_state
         (OrbState.set_velocity (vec3 (snd bx) (snd by_) (snd bz))
            (OrbState.set_position (vec3 (fst bx) (fst by_) (fst bz)) ds1))
         orb).

(** *** Catch *)

(** The module-level objects [catchPlayerOrb] works on. *)
Record Catching : Type := mkCatching {
  cGame : GameState.t;
  cRest : GameStateRest.t;
  cOrb : Orb.t;
  cBounceQueue : list Bounce.t
}.

Definition catchPlayerOrb (isClean : bool) (c : Catching) : Catching :=
  let playerOrb := cOrb c in
  let g := cGame c in
  let ds := Orb.state playerOrb in
  let ds' :=
    OrbState.mk (OrbState.position ds) Vec3.zero
      true                               (* isHeld *)
      player None                        (* owner, lastDeflectedBy *)
      (OrbState.strikeStacks ds) (OrbState.throwTime ds)
      false 0                            (* recalling, stallTimer *)
      false 0                            (* returning, returnTimer *)
      (OrbState.curveAccel ds) (OrbState.curveTimer ds) in
  let body' :=
    Body.mk (Body.id (Orb.body playerOrb)) (GameState.playerPos g)
      Vec3.zero Vec3.zero 0.01 in
  let playerOrb' := Orb.mk ds' body' in
  let bq' := flushBounceQueue (cBounceQueue c) playerOrb' in
  let g' := GameState.set_discRecalling false (GameState.set_playerArmed true g) in
  let rest1 :=
    GameStateRest.set_catches (GameStateRest.catches (cRest c) + 1)%Z (cRest c) in
  let rest' :=
    if isClean
    then GameStateRest.set_cleanCatchBoostTimer Config.CLEAN_CATCH_BOOST_DURATION rest1
    else rest1 in
  mkCatching g' rest' playerOrb' bq'.

(** [cleanCatchTriggered] is the input flag of that name, [now] the value
    of [performance.now()]. *)
Definition handlePlayerCatch (cleanCatchTriggered : bool) (now : R) (c : Catching)
  : Catching :=
  let g := cGame c in
  if GameState.playerArmed g then c
  else
    let ds := Orb.state (cOrb c) in
    let timeSinceThrow := now - OrbState.throwTime ds in
    if JS.ltb timeSinceThrow Config.CATCH_GRACE_PERIOD_MS then c
    else
      let dist := Vec3.distanceTo (OrbState.position ds) (GameState.playerPos g) in
      if JS.gtb dist Config.CATCH_RADIUS then c
      else
        let _tmpVec := THREE.forward (GameState.cameraPitch g) (GameState.cameraYaw g) in
        let _tmpVec2 :=
          THREE.normalize (Vec3.sub (OrbState.position ds) (GameState.playerPos g)) in
        let facingDot := THREE.dot _tmpVec _tmpVec2 in
        if JS.ltb facingDot Config.CATCH_FACING_DOT && negb (OrbState.recalling ds)
        then c
        else if GameState.blocking g then c
        else catchPlayerOrb cleanCatchTriggered c.

End Flight.

(** ** opponent.js — the part of the opponent's state the game reads *)

Module OpponentState.
Record t : Type := mk {
  position : Vector3;
  yaw : R;
  alive : bool;
  dissolving : bool;
  dissolveTimer : R;
  armed : bool;
  blocking : bool;
  dashActive : bool
}.

Definition set_position (v : Vector3) (r : t) : t :=
  mk v (yaw r) (alive r) (dissolving r) (dissolveTimer r) (armed r) (blocking r)
    (dashActive r).
Definition set_yaw (v : R) (r : t) : t :=
  mk (position r) v (alive r) (dissolving r) (dissolveTimer r) (armed r) (blocking r)
    (dashActive r).
Definition set_dissolving (v : bool) (r : t) : t :=
  mk (position r) (yaw r) (alive r) v (dissolveTimer r) (armed r) (blocking r)
    (dashActive r).
Definition set_dissolveTimer (v : R) (r : t) : t :=
  mk (position r) (yaw r) (alive r) (dissolving r) v (armed r) (blocking r)
    (dashActive r).
Definition set_armed (v : bool) (r : t) : t :=
  mk (position r) (yaw r) (alive r) (dissolving r) (dissolveTimer r) v (blocking r)
    (dashActive r).
Definition set_blocking (v : bool) (r : t) : t :=
  mk (position r) (yaw r) (alive r) (dissolving r) (dissolveTimer r) (armed r) v
    (dashActive r).
Definition set_dashActive (v : bool) (r : t) : t :=
  mk (position r) (yaw r) (alive r) (dissolving r) (dissolveTimer r) (armed r)
    (blocking r) v.

(** [createOpponent] *)
Definition initial : t :=
  mk (vec3 0 CONFIG.PLAYER_EYE_HEIGHT (- (CONFIG.ARENA_LENGTH / 2) + 3)) 0
    true false 0 true false false.
End OpponentState.

Definition dissolveOpponent (state : OpponentState.t) : OpponentState.t :=
  if negb (OpponentState.alive state) || OpponentState.dissolving state then state
  else OpponentState.set_dissolveTimer 0 (OpponentState.set_dissolving true state).

(** Further field updates of [gameState]. *)
Module GameUpdate.

Definition set_playerStrikes (v : R) (r : GameState.t) : GameState.t :=
  GameState.mk (GameState.playerScore r) (GameState.opponentScore r) (GameState.round r)
    (GameState.playerRounds r) (GameState.opponentRounds r) (GameState.matchPhase r)
    (GameState.countdownTimer r) (GameState.countdownLast r) (GameState.resetTimer r)
    (GameState.playerPos r) (GameState.playerArmed r) (GameState.blocking r)
    (GameState.cameraYaw r) (GameState.cameraPitch r) (GameState.dashActive r)
    (GameState.throws r) (GameState.throwTime r) (GameState.firstThrow r) v
    (GameState.opponentStrikes r) (GameState.discRecalling r) (GameState.onGround r)
    (GameState.shieldEnergy r) (GameState.parryFlashTimer r)
    (GameState.multiplayerActive r).
Definition set_opponentStrikes (v : R) (r : GameState.t) : GameState.t :=
  GameState.mk (GameState.playerScore r) (GameState.opponentScore r) (GameState.round r)
    (GameState.playerRounds r) (GameState.opponentRounds r) (GameState.matchPhase r)
    (GameState.countdownTimer r) (GameState.countdownLast r) (GameState.resetTimer r)
    (GameState.playerPos r) (GameState.playerArmed r) (GameState.blocking r)
    (GameState.cameraYaw r) (GameState.cameraPitch r) (GameState.dashActive r)
    (GameState.throws r) (GameState.throwTime r) (GameState.firstThrow r)
    (GameState.playerStrikes r) v (GameState.discRecalling r) (GameState.onGround r)
    (GameState.shieldEnergy r) (GameState.parryFlashTimer r)
    (GameState.multiplayerActive r).
Definition set_multiplayerActive (v : bool) (r : GameState.t) : GameState.t :=
  GameState.mk (GameState.playerScore r) (GameState.opponentScore r) (GameState.round r)
    (GameState.playerRounds r) (GameState.opponentRounds r) (GameState.matchPhase r)
    (GameState.countdownTimer r) (GameState.countdownLast r) (GameState.resetTimer r)
    (GameState.playerPos r) (GameState.playerArmed r) (GameState.blocking r)
    (GameState.cameraYaw r) (GameState.cameraPitch r) (GameState.dashActive r)
    (GameState.throws r) (GameState.throwTime r) (GameState.firstThrow r)
    (GameState.playerStrikes r) (GameState.opponentStrikes r) (GameState.discRecalling
    r) (GameState.onGround r) (GameState.shieldEnergy r) (GameState.parryFlashTimer r)
    v.
Definition set_playerPos (v : Vector3) (r : GameState.t) : GameState.t :=
  GameState.mk (GameState.playerScore r) (GameState.opponentScore r) (GameState.round r)
    (GameState.playerRounds r) (GameState.opponentRounds r) (GameState.matchPhase r)
    (GameState.countdownTimer r) (GameState.countdownLast r) (GameState.resetTimer r) v
    (GameState.playerArmed r) (GameState.blocking r) (GameState.cameraYaw r)
    (GameState.cameraPitch r) (GameState.dashActive r) (GameState.throws r)
    (GameState.throwTime r) (GameState.firstThrow r) (GameState.playerStrikes r)
    (GameState.opponentStrikes r) (GameState.discRecalling r) (GameState.onGround r)
    (GameState.shieldEnergy r) (GameState.parryFlashTimer r)
    (GameState.multiplayerActive r).

End GameUpdate.

(** ** main.js — hits and strike zones *)

Module Hits.

(** The module-level objects of main.js these two functions work on;
    [network] tells whether the network object exists, [sent] collects what
    [network.sendEvent] was given. *)
Record World : Type := mkWorld {
  game : GameState.t;
  rest : GameStateRest.t;
  playerOrb : Orb.t;
  opponentOrb : Orb.t;
  opponentState : OpponentState.t;
  strikeZones : gmap string Zone.t;
  network : bool;
  sent : list NetEvent.t
}.

Definition set_game (v : GameState.t) (w : World) : World :=
  mkWorld v (rest w) (playerOrb w) (opponentOrb w) (opponentState w) (strikeZones w)
    (network w) (sent w).
Definition set_rest (v : GameStateRest.t) (w : World) : World :=
  mkWorld (game w) v (playerOrb w) (opponentOrb w) (opponentState w) (strikeZones w)
    (network w) (sent w).
Definition set_playerOrb (v : Orb.t) (w : World) : World :=
  mkWorld (game w) (rest w) v (opponentOrb w) (opponentState w) (strikeZones w)
    (network w) (sent w).
Definition set_opponentOrb (v : Orb.t) (w : World) : World :=
  mkWorld (game w) (rest w) (playerOrb w) v (opponentState w) (strikeZones w)
    (network w) (sent w).
Definition set_opponentState (v : OpponentState.t) (w : World) : World :=
  mkWorld (game w) (rest w) (playerOrb w) (opponentOrb w) v (strikeZones w)
    (network w) (sent w).
Definition set_strikeZones (v : gmap string Zone.t) (w : World) : World :=
  mkWorld (game w) (rest w) (playerOrb w) (opponentOrb w) (opponentState w) v
    (network w) (sent w).
Definition set_sent (v : list NetEvent.t) (w : World) : World :=
  mkWorld (game w) (rest w) (playerOrb w) (opponentOrb w) (opponentState w)
    (strikeZones w) (network w) v.

(** [!orb.state.isHeld && !orb.state.recalling && !orb.state.returning] *)
Definition inFlight (o : Orb.t) : bool :=
  negb (OrbState.isHeld (Orb.state o))
  && negb (OrbState.recalling (Orb.state o))
  && negb (OrbState.returning (Orb.state o)).

Definition clearStacks (o : Orb.t) : Orb.t :=
  OrbUpdate.set_state (OrbUpdate.set_strikeStacks 0 (Orb.state o)) o.

Definition iGotHit : NetEvent.t :=
  NetEvent.mk "i_got_hit" None None None None None None None.

(** The player's orb reaching the opponent (single player only). *)
Definition playerOrbHit (now : R) (w : World) : World :=
  let po := playerOrb w in
  if inFlight po
     && (OpponentState.alive (opponentState w) && negb (OpponentState.dissolving (opponentState w)))
     && JS.gtb (now - OrbState.throwTime (Orb.state po)) Config.HIT_GRACE_PERIOD_MS
     && JS.gtb (now - GameStateRest.lastOppHitTime (rest w)) Config.SCORE_DEBOUNCE_MS
     && JS.gtb (THREE.length (OrbState.velocity (Orb.state po))) Config.SCORE_MIN_SPEED
     && JS.ltb (Vec3.distanceTo (OrbState.position (Orb.state po))
                  (OpponentState.position (opponentState w)))
          Config.OPP_HIT_RADIUS
  then
    let scorer := OrbState.owner (Orb.state po) in
    mkWorld
      (Main.scorePoint scorer (game w))
      (GameStateRest.set_shakeTimer 0.15
         (GameStateRest.set_lastOppHitTime now (rest w)))
      (Flight.startRecall (clearStacks po))
      (opponentOrb w)
      (dissolveOpponent (opponentState w))
      (strikeZones w) (network w) (sent w)
  else w.

(** The opponent's orb, turned round by a parry, reaching the opponent
    (single player only). *)
Definition reflectedOrbHit (now : R) (w : World) : World :=
  let oo := opponentOrb w in
  if inFlight oo
     && (OpponentState.alive (opponentState w) && negb (OpponentState.dissolving (opponentState w)))
     && Main.isPlayer (OrbState.owner (Orb.state oo))
     && JS.gtb (now - GameStateRest.lastOppHitTime (rest w)) Config.SCORE_DEBOUNCE_MS
     && JS.gtb (THREE.length (OrbState.velocity (Orb.state oo))) Config.SCORE_MIN_SPEED
     && JS.ltb (Vec3.distanceTo (OrbState.position (Orb.state oo))
                  (OpponentState.position (opponentState w)))
          Config.OPP_HIT_RADIUS
  then
    mkWorld
      (Main.scorePoint player (game w))
      (GameStateRest.set_shakeTimer 0.15
         (GameStateRest.set_lastOppHitTime now (rest w)))
      (playerOrb w)
      (clearStacks oo)
      (dissolveOpponent (opponentState w))
      (strikeZones w) (network w) (sent w)
  else w.

(** The opponent's orb reaching the player (both modes). *)
Definition opponentOrbHit (now : R) (w : World) : World :=
  let oo := opponentOrb w in
  let multi := GameState.multiplayerActive (game w) in
  if inFlight oo
     && (multi || JS.gtb (now - OrbState.throwTime (Orb.state oo))
                    Config.HIT_GRACE_PERIOD_MS)
     && JS.gtb (now - GameStateRest.lastPlayerHitTime (rest w)) Config.SCORE_DEBOUNCE_MS
     && (multi || negb (Main.isPlayer (OrbState.owner (Orb.state oo))))
     && JS.gtb (THREE.length (OrbState.velocity (Orb.state oo))) Config.SCORE_MIN_SPEED
     && JS.ltb (Vec3.distanceTo (OrbState.position (Orb.state oo))
                  (GameState.playerPos (game w)))
          Config.OPP_HIT_RADIUS
  then
    let rest' :=
      GameStateRest.set_shakeTimer 0.2
        (GameStateRest.set_hitFlashTimer 0.2
           (GameStateRest.set_lastPlayerHitTime now (rest w))) in
    if multi && network w then
      mkWorld (game w) rest' (playerOrb w) (clearStacks oo) (opponentState w)
        (strikeZones w) (network w) (sent w ++ [iGotHit])
    else
      mkWorld (Main.scorePoint opponent (game w)) rest' (playerOrb w)
        (Flight.startRecall (clearStacks oo)) (opponentState w)
        (strikeZones w) (network w) (sent w)
  else w.

(** [now] is the value of [performance.now()] at the head of the call. *)
Definition handleHits (now : R) (w : World) : World :=
  let w1 :=
    if negb (GameState.multiplayerActive (game w))
    then reflectedOrbHit now (playerOrbHit now w)
    else w in
  opponentOrbHit now w1.

(** The player's orb in the opponent's zone; [now] is the clock value the
    strike check reads. *)
Definition playerStrike (now : R) (w : World) : World :=
  if inFlight (playerOrb w) then
    let checked :=
      StrikeZone.checkStrikeZone (strikeZones w) "opponent" (Orb.state (playerOrb w)) now in
    let w' := set_strikeZones (snd checked) w in
    if fst checked
       && JS.ltb (GameState.playerStrikes (game w')) Config.STRIKE_MAX_STACKS then
      let n := GameState.playerStrikes (game w') + 1 in
      set_playerOrb
        (OrbUpdate.set_state (OrbUpdate.set_strikeStacks n (Orb.state (playerOrb w')))
           (playerOrb w'))
        (set_game (GameUpdate.set_playerStrikes n (game w')) w')
    else w'
  else w.

(** The opponent's orb in the player's zone (single player only). *)
Definition opponentStrike (now : R) (w : World) : World :=
  if inFlight (opponentOrb w)
     && negb (Main.isPlayer (OrbState.owner (Orb.state (opponentOrb w)))) then
    let checked :=
      StrikeZone.checkStrikeZone (strikeZones w) "player" (Orb.state (opponentOrb w)) now in
    let w' := set_strikeZones (snd checked) w in
    if fst checked
       && JS.ltb (GameState.opponentStrikes (game w')) Config.STRIKE_MAX_STACKS then
      let n := GameState.opponentStrikes (game w') + 1 in
      set_opponentOrb
        (OrbUpdate.set_state (OrbUpdate.set_strikeStacks n (Orb.state (opponentOrb w')))
           (opponentOrb w'))
        (set_game (GameUpdate.set_opponentStrikes n (game w')) w')
    else w'
  else w.

Definition handleStrikeZones (now : R) (w : World) : World :=
  let w1 := playerStrike now w in
  if negb (GameState.multiplayerActive (game w1)) then opponentStrike now w1 else w1.

(** The strike counter holds a whole number of stacks up to the maximum. *)
Definition stacksValid (n : R) : Prop := n = 0 \/ n = 1 \/ n = 2 \/ n = 3.

Definition stacksOk (w : World) : Prop :=
  stacksValid (GameState.playerStrikes (game w)) /\
  stacksValid (GameState.opponentStrikes (game w)) /\
  stacksValid (OrbState.strikeStacks (Orb.state (playerOrb w))) /\
  stacksValid (OrbState.strikeStacks (Orb.state (opponentOrb w))).

End Hits.

(** ** shield.js — [updateShield] *)

Module ShieldUpdate.

(** The shield together with the position of its kinematic body. *)
Record Placed : Type := mkPlaced {
  core : Shield.t;
  bodyPosition : Vector3
}.

(** [createShield]: a new CANNON body sits at the origin. *)
Definition createShield : Placed := mkPlaced Shield.createShield Vec3.zero.

(** [now] is the value of [performance.now()]. *)
Definition updateShield (shield : Placed) (holderPos : Vector3) (yaw pitch : R)
    (isBlocking isArmed : bool) (now : R) : Placed :=
  let state := core shield in
  let shouldBeActive := isBlocking && isArmed in
  let raiseTime :=
    if shouldBeActive && negb (Shield.active state) then now
    else Shield.raiseTime state in
  if shouldBeActive then
    let _shieldForward := THREE.forward pitch yaw in
    let _shieldPos :=
      THREE.add holderPos (THREE.multiplyScalar _shieldForward Config.SHIELD_OFFSET) in
    let flashTimer :=
      if JS.gtb (Shield.flashTimer state) 0 then Shield.flashTimer state - 1 / 60
      else Shield.flashTimer state in
    mkPlaced
      (Shield.mk (Shield.reflections state) true raiseTime flashTimer pitch yaw)
      _shieldPos
  else
    mkPlaced
      (Shield.mk (Shield.reflections state) false raiseTime (Shield.flashTimer state)
         (Shield.rotationX state) (Shield.rotationY state))
      (vec3 0 (-100) 0).

(** One frame's call of [updateShield]. *)
Record Frame : Type := mkFrame {
  holderPos : Vector3;
  yaw : R;
  pitch : R;
  isBlocking : bool;
  isArmed : bool;
  now : R
}.

Definition frame (shield : Placed) (f : Frame) : Placed :=
  updateShield shield (holderPos f) (yaw f) (pitch f) (isBlocking f) (isArmed f) (now f).

Definition frames (fs : list Frame) (shield : Placed) : Placed :=
  fold_left frame fs shield.

(** The collide listener: a contact is queued with its time stamp. *)
Definition onCollide (orbBody : nat) (now : R) (shield : Placed) : Placed :=
  mkPlaced
    (Shield.set_reflections
       (Shield.reflections (core shield) ++ [ReflectionEvent.mk orbBody now])
       (core shield))
    (bodyPosition shield).

End ShieldUpdate.

(** ** network.js and the network callbacks of main.js — the client side *)

Module Client.

(** The connection object of [createNetwork]: [wsOpen] is
    [ws && ws.readyState === 1], [outgoing] what was handed to [ws.send]. *)
Record Net : Type := mkNet {
  connected : bool;
  wsOpen : bool;
  mySlot : Z;
  lastSendTime : R;
  outgoing : list Server.ClientMsg
}.

Definition createNetwork : Net := mkNet false false (-1) 0 [].

Definition SEND_INTERVAL_MS : R := 50.

(** [{ ...event }] with [orbVz] and [orbZ] negated where present. *)
Definition mirrorEvent (event : NetEvent.t) : NetEvent.t :=
  NetEvent.mk (NetEvent.name event)
    (NetEvent.orbX event) (NetEvent.orbY event)
    (option_map Ropp (NetEvent.orbZ event))
    (NetEvent.orbVx event) (NetEvent.orbVy event)
    (option_map Ropp (NetEvent.orbVz event))
    (NetEvent.isParry event).

(** [now] is the value of [performance.now()]. *)
Definition sendState (data : StateData.t) (now : R) (n : Net) : Net :=
  if negb (connected n) || negb (wsOpen n) then n
  else if JS.ltb (now - lastSendTime n) SEND_INTERVAL_MS then n
  else
    mkNet (connected n) (wsOpen n) (mySlot n) now
      (outgoing n ++ [Server.stateMsg data]).

Definition sendEvent (event : NetEvent.t) (n : Net) : Net :=
  if negb (connected n) || negb (wsOpen n) then n
  else
    mkNet (connected n) (wsOpen n) (mySlot n) (lastSendTime n)
      (outgoing n ++ [Server.eventMsg (Some event)]).

(** The periodic state calls of a session, each with its clock value. *)
Definition sendStates (calls : list (StateData.t * R)) (n : Net) : Net :=
  fold_left (fun n c => sendState (fst c) (snd c) n) calls n.

(** The clock values of the calls of [sendStates] that sent a message. *)
Fixpoint sendTimes (calls : list (StateData.t * R)) (n : Net) : list R :=
  match calls with
  | [] => []
  | c :: rest =>
      let n' := sendState (fst c) (snd c) n in
      (if Nat.ltb (List.length (outgoing n)) (List.length (outgoing n'))
       then [snd c] else [])
      ++ sendTimes rest n'
  end.

(** Each time of the list is at least the send interval after the one
    before it, the first one after [last]. *)
Fixpoint spacedFrom (last : R) (times : list R) : Prop :=
  match times with
  | [] => True
  | t :: rest => SEND_INTERVAL_MS <= t - last /\ spacedFrom t rest
  end.

(** The callback [ws.onmessage] invokes, with its arguments. *)
Inductive Call : Type :=
| onMatchFound (slot : Z)
| onQueueUpdate (position total : Z)
| onCountdown (timer : Z)
| onGo
| onResume
| onOpponentState (mirrored : StateData.t)
| onOpponentEvent (mirrored : option NetEvent.t)
| onScoreUpdate (p1 p2 rounds_p1 rounds_p2 round : Z)
| onRoundEnd (winner : Server.Side) (rounds_p1 rounds_p2 : Z)
| onMatchEnd (winner : Server.Side) (rounds_p1 rounds_p2 : Z)
| onResetPositions
| onOpponentDisconnected.

(** [ws.onmessage] for a message of the server. *)
Definition onmessage (msg : Server.Msg) (n : Net) : Net * Call :=
  match msg with
  | Server.matched slot =>
      (mkNet (connected n) (wsOpen n) slot (lastSendTime n) (outgoing n),
       onMatchFound slot)
  | Server.queued position total => (n, onQueueUpdate position total)
  | Server.countdownMsg timer => (n, onCountdown timer)
  | Server.go => (n, onGo)
  | Server.resume => (n, onResume)
  | Server.opponent_state data => (n, onOpponentState (Network.mirrorState data))
  | Server.opponent_event event => (n, onOpponentEvent (option_map mirrorEvent event))
  | Server.score_update p1 p2 r1 r2 round => (n, onScoreUpdate p1 p2 r1 r2 round)
  | Server.round_end winner r1 r2 => (n, onRoundEnd winner r1 r2)
  | Server.match_end winner r1 r2 => (n, onMatchEnd winner r1 r2)
  | Server.reset_positions => (n, onResetPositions)
  | Server.opponent_disconnected => (n, onOpponentDisconnected)
  end.

(** *** main.js: what the callbacks do to the game *)

(** [network.callbacks.onScoreUpdate] *)
Definition scoreUpdate (mySlot p1 p2 rounds_p1 rounds_p2 round : Z) (g : GameState.t)
  : GameState.t :=
  let mine (a b : Z) := if (mySlot =? 0)%Z then a else b in
  GameState.set_round round
    (GameState.set_opponentRounds (mine rounds_p2 rounds_p1)
       (GameState.set_playerRounds (mine rounds_p1 rounds_p2)
          (GameState.set_opponentScore (mine p2 p1)
             (GameState.set_playerScore (mine p1 p2) g)))).

(** [network.callbacks.onRoundEnd] and [onMatchEnd], which differ in the
    phase they set. *)
Definition roundsUpdate (phase : Phase) (mySlot rounds_p1 rounds_p2 : Z)
    (g : GameState.t) : GameState.t :=
  let mine (a b : Z) := if (mySlot =? 0)%Z then a else b in
  GameState.set_matchPhase phase
    (GameState.set_opponentRounds (mine rounds_p2 rounds_p1)
       (GameState.set_playerRounds (mine rounds_p1 rounds_p2) g)).

(** [iWon] of [onRoundEnd] and [onMatchEnd] *)
Definition iWon (mySlot : Z) (winner : Server.Side) : bool :=
  match winner with
  | Server.p1 => (mySlot =? 0)%Z
  | Server.p2 => (mySlot =? 1)%Z
  end.

Definition deflectionName : string := "my_shield_deflected_your_orb".

(** The event [handleShieldReflections] sends after a deflection. *)
Definition deflectionEvent (velocity : Vector3) (isParry : bool) : NetEvent.t :=
  NetEvent.mk deflectionName None None None
    (Some (THREE.x velocity)) (Some (THREE.y velocity)) (Some (THREE.z velocity))
    (Some isParry).

(** [network.callbacks.onOpponentEvent]; [None] when the deflection event
    lacks a velocity component, which leaves the orb without a number. *)
Definition opponentEvent (event : option NetEvent.t) (w : Hits.World)
  : option Hits.World :=
  match event with
  | None => Some w
  | Some e =>
      if String.eqb (NetEvent.name e) "i_got_hit" then
        Some
          (Hits.set_rest (GameStateRest.set_shakeTimer 0.15 (Hits.rest w))
             (Hits.set_playerOrb (Flight.startRecall (Hits.playerOrb w))
                (Hits.set_opponentState (dissolveOpponent (Hits.opponentState w)) w)))
      else if String.eqb (NetEvent.name e) deflectionName then
        match NetEvent.orbVx e, NetEvent.orbVy e, NetEvent.orbVz e with
        | Some vx, Some vy, Some vz =>
            let v := vec3 vx vy vz in
            let po := Hits.playerOrb w in
            Some
              (Hits.set_playerOrb
                 (Orb.mk
                    (OrbState.set_lastDeflectedBy (Some opponent)
                       (OrbState.set_owner opponent
                          (OrbState.set_velocity v (Orb.state po))))
                    (Body.set_velocity v (Orb.body po)))
                 w)
        | _, _, _ => None
        end
      else Some w
  end.

End Client.

(** * Properties *)

(** ** Comparisons and vector algebra *)

Lemma ltb_true (a b : R) : JS.ltb a b = true <-> a < b.
Proof. unfold JS.ltb; destruct (Rlt_dec a b); split; intros; try easy; lra. Qed.

Lemma ltb_false (a b : R) : JS.ltb a b = false <-> b <= a.
Proof. unfold JS.ltb; destruct (Rlt_dec a b); split; intros; try easy; lra. Qed.

Lemma gtb_true (a b : R) : JS.gtb a b = true <-> b < a.
Proof. unfold JS.gtb; destruct (Rlt_dec b a); split; intros; try easy; lra. Qed.

Lemma gtb_false (a b : R) : JS.gtb a b = false <-> a <= b.
Proof. unfold JS.gtb; destruct (Rlt_dec b a); split; intros; try easy; lra. Qed.

Lemma leb_true (a b : R) : JS.leb a b = true <-> a <= b.
Proof. unfold JS.leb; destruct (Rle_dec a b); split; intros; try easy; lra. Qed.

Lemma leb_false (a b : R) : JS.leb a b = false <-> b < a.
Proof. unfold JS.leb; destruct (Rle_dec a b); split; intros; try easy; lra. Qed.

(** Settles every comparison in the goal whose outcome follows from the
    linear facts at hand. *)
Ltac js_decide :=
  repeat match goal with
  | |- context [JS.ltb ?a ?b] =>
      first [ rewrite (proj2 (ltb_true a b)) by lra
            | rewrite (proj2 (ltb_false a b)) by lra ]
  | |- context [JS.gtb ?a ?b] =>
      first [ rewrite (proj2 (gtb_true a b)) by lra
            | rewrite (proj2 (gtb_false a b)) by lra ]
  | |- context [JS.leb ?a ?b] =>
      first [ rewrite (proj2 (leb_true a b)) by lra
            | rewrite (proj2 (leb_false a b)) by lra ]
  end.

(** Splits on which argument a [Math.min] / [Math.max] returns. *)
Ltac rmin_cases :=
  unfold Rmin, Rmax in *;
  repeat match goal with
  | |- context [Rle_dec ?a ?b] => destruct (Rle_dec a b)
  end.

Lemma sumsq_nonneg (a b c : R) : 0 <= a * a + b * b + c * c.
Proof. nra. Qed.

Lemma length_nonneg (v : Vector3) : 0 <= THREE.length v.
Proof. apply sqrt_pos. Qed.

Lemma length_sqr (v : Vector3) :
  THREE.length v * THREE.length v
  = THREE.x v * THREE.x v + THREE.y v * THREE.y v + THREE.z v * THREE.z v.
Proof. apply sqrt_sqrt, sumsq_nonneg. Qed.

Lemma length_of_sqr (v : Vector3) (l : R) :
  0 <= l ->
  THREE.x v * THREE.x v + THREE.y v * THREE.y v + THREE.z v * THREE.z v = l * l ->
  THREE.length v = l.
Proof.
  intros Hl H. unfold THREE.length. rewrite H. now apply sqrt_square.
Qed.

Lemma length_multiplyScalar (v : Vector3) (s : R) :
  0 <= s -> THREE.length (THREE.multiplyScalar v s) = s * THREE.length v.
Proof.
  intros Hs. apply length_of_sqr.
  - apply Rmult_le_pos; [exact Hs | apply length_nonneg].
  - simpl. pose proof (length_sqr v) as E. nra.
Qed.

Lemma length_zero_vector (v : Vector3) :
  THREE.length v = 0 -> v = vec3 0 0 0.
Proof.
  intros H. pose proof (length_sqr v) as E. rewrite H in E.
  destruct v as [a b c]; simpl in E.
  assert (a = 0) by nra. assert (b = 0) by nra. assert (c = 0) by nra.
  now subst.
Qed.

Lemma length_normalize (v : Vector3) :
  THREE.length v <> 0 -> THREE.length (THREE.normalize v) = 1.
Proof.
  intros Hv. unfold THREE.normalize, THREE.divideScalar.
  destruct (Req_dec_T (THREE.length v) 0) as [E | _]; [contradiction |].
  pose proof (length_nonneg v) as Hpos.
  rewrite length_multiplyScalar.
  - field. exact Hv.
  - apply Rlt_le. apply Rdiv_lt_0_compat; lra.
Qed.

Lemma length_forward (pitch yaw : R) : THREE.length (THREE.forward pitch yaw) = 1.
Proof.
  apply length_of_sqr; [lra |]. simpl.
  pose proof (sin2_cos2 pitch) as Hp. pose proof (sin2_cos2 yaw) as Hy.
  unfold Rsqr in *. nra.
Qed.

Lemma normalize_unit (v : Vector3) : THREE.length v = 1 -> THREE.normalize v = v.
Proof.
  intros Hv. unfold THREE.normalize, THREE.divideScalar, THREE.multiplyScalar.
  destruct (Req_dec_T (THREE.length v) 0) as [E | _]; [lra |].
  rewrite Hv. destruct v; simpl. f_equal; field.
Qed.

(** ** physics.js: sub-stepping *)

(** C8. In one logical physics step with fastest-orb speed [maxSpeed], the
    engine is stepped exactly three times when [maxSpeed > 30], exactly
    twice when [15 < maxSpeed <= 30] and exactly once otherwise, each time
    by the logical time step divided by that count. *)
Theorem stepPhysics_substeps (World : Type) (step : R -> World -> World)
    (world : World) (maxSpeed dt : R) :
  (30 < maxSpeed ->
     Physics.stepPhysics World step world maxSpeed dt
     = step (dt / 3) (step (dt / 3) (step (dt / 3) world))) /\
  (15 < maxSpeed <= 30 ->
     Physics.stepPhysics World step world maxSpeed dt
     = step (dt / 2) (step (dt / 2) world)) /\
  (maxSpeed <= 15 ->
     Physics.stepPhysics World step world maxSpeed dt = step (dt / 1) world).
Proof.
  unfold Physics.stepPhysics, Physics.subStepsOf.
  repeat split; intros H; js_decide; simpl;
    repeat (f_equal; try lra).
Qed.

Lemma stepPhysics_substeps_witness :
  Physics.stepPhysics (list R) Physics.recordStep [] 45 (1 / 60)
  = [1 / 60 / 3; 1 / 60 / 3; 1 / 60 / 3].
Proof.
  apply (proj1 (stepPhysics_substeps (list R) Physics.recordStep [] 45 (1 / 60))).
  lra.
Defined.

(** ** network.js: mirroring *)

(** C5. Mirroring a snapshot twice gives the snapshot back: the depth
    fields are negated twice and so unchanged, every other field is
    untouched, and the yaw has gained one full turn, so it is the same
    angle modulo 2π. *)
Theorem mirrorState_involution (data : StateData.t) :
  Network.mirrorState (Network.mirrorState data) = Network.turnedOnce data /\
  sin (StateData.yaw (Network.mirrorState (Network.mirrorState data)))
  = sin (StateData.yaw data) /\
  cos (StateData.yaw (Network.mirrorState (Network.mirrorState data)))
  = cos (StateData.yaw data).
Proof.
  destruct data; unfold Network.mirrorState, Network.turnedOnce; simpl.
  split; [f_equal; lra |].
  replace (yaw + PI + PI) with (yaw + 2 * PI) by lra.
  rewrite sin_plus, cos_plus, sin_2PI, cos_2PI. split; ring.
Qed.

(** ** main.js: rounds and matches *)

Lemma roundOver_scorePoint (scorer : Team) (g : GameState.t) :
  Main.roundOver (Main.scorePoint scorer g) = true <->
  (7 <= GameState.playerScore (Main.scorePoint scorer g)
   \/ 7 <= GameState.opponentScore (Main.scorePoint scorer g))%Z.
Proof.
  unfold Main.scorePoint, Main.roundOver, CONFIG.POINTS_TO_WIN, CONFIG.ROUNDS_TO_WIN.
  destruct scorer; simpl;
    repeat match goal with
    | |- context [(?a <=? ?b)%Z] => destruct (Z.leb_spec a b); simpl
    end; split; intros; try easy; try lia.
Qed.

Lemma matchOver_scorePoint (scorer : Team) (g : GameState.t) :
  GameState.matchPhase (Main.scorePoint scorer g) = matchOver <->
  Main.roundOver (Main.scorePoint scorer g) = true /\
  (2 <= GameState.playerRounds (Main.scorePoint scorer g)
   \/ 2 <= GameState.opponentRounds (Main.scorePoint scorer g))%Z.
Proof.
  unfold Main.scorePoint, Main.roundOver, CONFIG.POINTS_TO_WIN, CONFIG.ROUNDS_TO_WIN.
  destruct scorer; simpl;
    repeat match goal with
    | |- context [(?a <=? ?b)%Z] => destruct (Z.leb_spec a b); simpl
    end; split; intros; try easy; try lia; try (split; [reflexivity | lia]).
Qed.

(** One score event in a round that is still open. *)
Lemma scorePoint_open (scorer : Team) (g : GameState.t) :
  (GameState.playerScore g < 7)%Z -> (GameState.opponentScore g < 7)%Z ->
  (GameState.playerRounds g < 2)%Z -> (GameState.opponentRounds g < 2)%Z ->
  let g' := Main.scorePoint scorer g in
  GameState.playerScore g'
    = (GameState.playerScore g + (if Main.isPlayer scorer then 1 else 0))%Z /\
  GameState.opponentScore g'
    = (GameState.opponentScore g + (if Main.isPlayer scorer then 0 else 1))%Z /\
  (Main.roundOver g' = true <->
     (GameState.playerScore g' = 7 \/ GameState.opponentScore g' = 7)%Z) /\
  (Main.roundOver g' = false ->
     GameState.playerRounds g' = GameState.playerRounds g /\
     GameState.opponentRounds g' = GameState.opponentRounds g) /\
  (GameState.playerRounds g' <= 2)%Z /\ (GameState.opponentRounds g' <= 2)%Z /\
  (GameState.matchPhase g' = matchOver <->
     (GameState.playerRounds g' = 2 \/ GameState.opponentRounds g' = 2)%Z).
Proof.
  intros Hp Ho Hpr Hor.
  unfold Main.scorePoint, Main.roundOver, CONFIG.POINTS_TO_WIN, CONFIG.ROUNDS_TO_WIN.
  destruct scorer; simpl;
    repeat match goal with
    | |- context [(?a <=? ?b)%Z] => destruct (Z.leb_spec a b); simpl
    end; repeat split; intros; try easy; try lia.
Qed.

Lemma nextRound_scores (w : Main.Globals) :
  let g' := Main.gameState (Main.nextRound w) in
  GameState.playerScore g' = 0%Z /\ GameState.opponentScore g' = 0%Z /\
  GameState.playerRounds g' = GameState.playerRounds (Main.gameState w) /\
  GameState.opponentRounds g' = GameState.opponentRounds (Main.gameState w) /\
  GameState.round g' = (GameState.round (Main.gameState w) + 1)%Z /\
  GameState.matchPhase g' = countdown.
Proof. repeat split; reflexivity. Qed.

(** The reset that follows an ordinary point gives play back without
    touching scores or rounds won; once the pause between two rounds has
    run out, the next round is started. *)
Lemma updateScoringPhase_keeps_scores (dt : R) (w : Main.Globals) :
  let g' := Main.gameState (Main.updateScoringPhase dt w) in
  GameState.playerScore g' = GameState.playerScore (Main.gameState w) /\
  GameState.opponentScore g' = GameState.opponentScore (Main.gameState w) /\
  GameState.playerRounds g' = GameState.playerRounds (Main.gameState w) /\
  GameState.opponentRounds g' = GameState.opponentRounds (Main.gameState w) /\
  (GameState.resetTimer (Main.gameState w) - dt <= 0 ->
     GameState.matchPhase g' = playing).
Proof.
  unfold Main.updateScoringPhase. cbv zeta.
  destruct (JS.leb _ 0) eqn:Hdone; simpl; repeat split; intros Hle;
    try reflexivity.
  simpl in Hdone. apply leb_false in Hdone. lra.
Qed.

Lemma updateBetweenRounds_elapsed (dt : R) (w : Main.Globals) :
  GameState.resetTimer (Main.gameState w) - dt <= 0 ->
  let g' := Main.gameState (Main.updateBetweenRounds dt w) in
  GameState.playerScore g' = 0%Z /\ GameState.opponentScore g' = 0%Z /\
  GameState.playerRounds g' = GameState.playerRounds (Main.gameState w) /\
  GameState.opponentRounds g' = GameState.opponentRounds (Main.gameState w) /\
  GameState.matchPhase g' = countdown.
Proof.
  intros Hle. unfold Main.updateBetweenRounds. cbv zeta. simpl.
  rewrite (proj2 (leb_true _ _) Hle). repeat split; reflexivity.
Qed.

(** ** main.js: shield energy *)

(** C6, as the specification states it, does not hold during a dash: the
    shield is idle before and after the frame, yet the energy is not
    recharged (and not because it is full). *)
Lemma handleBlock_dash_no_recharge :
  let g := GameState.set_shieldEnergy 0.5
             (GameState.set_dashActive true Main.initialGameState) in
  let g' := Main.handleBlock (Input.mk false false) (1 / 60) g in
  GameState.blocking g = false /\ GameState.blocking g' = false /\
  GameState.shieldEnergy g + CONFIG.SHIELD_RECHARGE_RATE * (1 / 60)
    <= CONFIG.SHIELD_ENERGY_MAX /\
  GameState.shieldEnergy g'
    <> GameState.shieldEnergy g + CONFIG.SHIELD_RECHARGE_RATE * (1 / 60).
Proof.
  simpl. unfold CONFIG.SHIELD_RECHARGE_RATE, CONFIG.SHIELD_ENERGY_MAX.
  repeat split; lra.
Qed.

(** C6 (amended). In a frame in which the player is not dashing, with a
    non-negative frame time and the energy within [0, SHIELD_ENERGY_MAX]:
    a lowered shield goes up only if a block is wanted and the energy
    exceeds SHIELD_MIN_ACTIVATE; whenever the shield is up after the frame
    the energy has drained by SHIELD_DRAIN_RATE × dt and is still above
    zero, so a drain that takes the energy to zero or below always ends in
    the force-drop; when a block is wanted in a frame that starts above the
    activation threshold, the shield is force-dropped exactly in that case
    and not before, the energy being put to 0 before it recharges; whenever
    the shield is down after the frame without a force-drop the energy has
    recharged by SHIELD_RECHARGE_RATE × dt, capped at SHIELD_ENERGY_MAX; and
    the energy stays within [0, SHIELD_ENERGY_MAX].  In a dash frame the
    shield is dropped and the energy is left as it is.  Nothing is said of
    whether a shield that is already up stays up when a frame starts with
    the energy at or below the activation threshold. *)
Theorem handleBlock_frame (input : Input.t) (dt : R) (g : GameState.t) :
  0 <= dt ->
  0 <= GameState.shieldEnergy g <= CONFIG.SHIELD_ENERGY_MAX ->
  let e := GameState.shieldEnergy g in
  let g' := Main.handleBlock input dt g in
  let e' := GameState.shieldEnergy g' in
  let drained := e - CONFIG.SHIELD_DRAIN_RATE * dt in
  let raisable :=
    Main.wantsBlock input g = true /\ CONFIG.SHIELD_MIN_ACTIVATE < e in
  (GameState.dashActive g = true ->
     GameState.blocking g' = false /\ e' = e) /\
  (GameState.dashActive g = false ->
     (GameState.blocking g = false -> GameState.blocking g' = true -> raisable) /\
     (GameState.blocking g' = true -> e' = drained /\ 0 < e') /\
     (drained <= 0 -> GameState.blocking g' = false) /\
     (raisable ->
        (GameState.blocking g' = true <-> 0 < drained) /\
        (drained <= 0 ->
           e' = Rmin CONFIG.SHIELD_ENERGY_MAX (0 + CONFIG.SHIELD_RECHARGE_RATE * dt))) /\
     (GameState.blocking g' = false -> ~ raisable ->
        e' = Rmin CONFIG.SHIELD_ENERGY_MAX (e + CONFIG.SHIELD_RECHARGE_RATE * dt))) /\
  0 <= e' <= CONFIG.SHIELD_ENERGY_MAX.
Proof.
  intros Hdt He. cbv zeta. unfold Main.handleBlock.
  unfold CONFIG.SHIELD_ENERGY_MAX, CONFIG.SHIELD_MIN_ACTIVATE,
    CONFIG.SHIELD_DRAIN_RATE, CONFIG.SHIELD_RECHARGE_RATE in *.
  destruct (GameState.dashActive g) eqn:Hdash.
  - simpl. repeat split; try lra; intros; discriminate.
  - destruct (Main.wantsBlock input g) eqn:Hw; simpl.
    + destruct (Rlt_dec 0.15 (GameState.shieldEnergy g)) as [Hmin | Hmin].
      * rewrite (proj2 (gtb_true _ _) Hmin). simpl.
        destruct (Rle_dec (GameState.shieldEnergy g - 0.35 * dt) 0) as [Hz | Hz].
        -- rewrite (proj2 (leb_true _ _) Hz). simpl.
           rmin_cases;
             repeat split; intros; try discriminate; try lra; try tauto.
        -- rewrite (proj2 (leb_false _ _)) by lra. simpl.
           repeat split; intros; try discriminate; try lra; try tauto.
      * rewrite (proj2 (gtb_false _ _)) by lra. simpl.
        rmin_cases;
          repeat split; intros; try discriminate; try lra; try tauto.
    + rmin_cases;
        repeat split; intros; try discriminate; try lra; try tauto.
Qed.

Lemma handleBlock_frame_witness :
  let g := Main.beginPlaying Main.initialGameState in
  let g' := Main.handleBlock (Input.mk false true) (1 / 60) g in
  GameState.blocking g' = true /\
  GameState.shieldEnergy g' = 1.0 - CONFIG.SHIELD_DRAIN_RATE * (1 / 60).
Proof.
  intros g g'.
  destruct (handleBlock_frame (Input.mk false true) (1 / 60) g)
    as (_ & H & _).
  - lra.
  - simpl. unfold CONFIG.SHIELD_ENERGY_MAX. lra.
  - destruct (H eq_refl) as (_ & HA & _ & HB & _).
    assert (Hr : Main.wantsBlock (Input.mk false true) g = true
                 /\ CONFIG.SHIELD_MIN_ACTIVATE < GameState.shieldEnergy g).
    { split; [reflexivity |]. simpl. unfold CONFIG.SHIELD_MIN_ACTIVATE. lra. }
    destruct (HB Hr) as (Hup & _).
    assert (Hb : GameState.blocking g' = true).
    { apply Hup. simpl. unfold CONFIG.SHIELD_DRAIN_RATE. lra. }
    split; [exact Hb |].
    destruct (HA Hb) as (He & _). exact He.
Defined.

(** What the amended statement leaves open.  The activation threshold is
    tested in every frame, not only when the shield goes up: a raised shield
    comes down as soon as a frame starts with the energy at or below
    SHIELD_MIN_ACTIVATE, although the energy is well above zero. *)
Lemma handleBlock_drops_at_threshold :
  let g := GameState.set_shieldEnergy 0.15
             (GameState.set_blocking true
               (Main.beginPlaying Main.initialGameState)) in
  let g' := Main.handleBlock (Input.mk false true) (1 / 60) g in
  Main.wantsBlock (Input.mk false true) g = true /\
  GameState.blocking g = true /\ GameState.blocking g' = false /\
  0 < GameState.shieldEnergy g /\ 0 < GameState.shieldEnergy g'.
Proof.
  simpl. unfold Main.handleBlock; simpl.
  unfold CONFIG.SHIELD_MIN_ACTIVATE, CONFIG.SHIELD_ENERGY_MAX,
    CONFIG.SHIELD_RECHARGE_RATE.
  rewrite (proj2 (gtb_false 0.15 0.15)) by lra. simpl.
  repeat split; try lra. rmin_cases; lra.
Qed.

(** With the frame time the game loop allows (at most 0.1 s) a frame that
    starts above the threshold cannot drain the energy to zero, so the
    force-drop at zero is never taken. *)
Lemma handleBlock_force_drop_out_of_reach (input : Input.t) (dt : R)
    (g : GameState.t) :
  0 <= dt <= 0.1 ->
  GameState.dashActive g = false ->
  Main.wantsBlock input g = true ->
  CONFIG.SHIELD_MIN_ACTIVATE < GameState.shieldEnergy g ->
  GameState.blocking (Main.handleBlock input dt g) = true /\
  0.115 <= GameState.shieldEnergy (Main.handleBlock input dt g).
Proof.
  unfold CONFIG.SHIELD_MIN_ACTIVATE. intros Hdt Hdash Hw He.
  unfold Main.handleBlock. rewrite Hdash, Hw. simpl.
  rewrite (proj2 (gtb_true _ _)) by (unfold CONFIG.SHIELD_MIN_ACTIVATE; lra).
  unfold CONFIG.SHIELD_DRAIN_RATE. simpl.
  rewrite (proj2 (leb_false _ _)) by lra. simpl. split; [reflexivity | lra].
Qed.

(** ** main.js: throwing *)

Lemma throwAccepted_guards (input : Input.t) (g : GameState.t) :
  Main.throwAccepted input g = true ->
  GameState.playerArmed g = true /\ GameState.blocking g = false /\
  Input.throwTriggered input = true /\ GameState.dashActive g = false.
Proof.
  unfold Main.throwAccepted. intros H.
  apply andb_prop in H as [H Hdash].
  apply andb_prop in H as [H Htrig].
  apply andb_prop in H as [Harmed Hblock].
  apply negb_true_iff in Hdash, Hblock. auto.
Qed.

(** The velocity an accepted throw gives the orb. *)
Lemma handleThrow_velocity (input : Input.t) (flickDx now now' : R)
    (playerVelocity : Vector3) (g : GameState.t) (playerOrb : Orb.t) :
  Main.throwAccepted input g = true ->
  OrbState.velocity
    (Orb.state (snd (Main.handleThrow input flickDx now now' playerVelocity g playerOrb)))
  = THREE.add
      (THREE.multiplyScalar
         (THREE.forward (GameState.cameraPitch g) (GameState.cameraYaw g))
         (CONFIG.THROW_SPEED
          * (1 + OrbState.strikeStacks (Orb.state playerOrb) * CONFIG.STRIKE_SPEED_SCALE)))
      (THREE.multiplyScalar playerVelocity 0.5).
Proof.
  intros Hacc. destruct (throwAccepted_guards input g Hacc) as (Ha & Hb & Ht & Hd).
  unfold Main.handleThrow. rewrite Ha, Hb, Ht, Hd.
  cbn -[THREE.normalize THREE.forward THREE.multiplyScalar THREE.add].
  destruct (GameState.firstThrow g);
    cbn -[THREE.normalize THREE.forward THREE.multiplyScalar THREE.add];
    rewrite normalize_unit by apply length_forward; reflexivity.
Qed.

(** C2, as the specification states it, does not hold for a thrower in
    motion: walking forward at 2 units/s and throwing straight ahead with
    no strike stacks releases the orb at 46 units/s, not at THROW_SPEED. *)
Lemma handleThrow_moving_thrower :
  let g := Main.beginPlaying Main.initialGameState in
  let playerOrb := createOrb player 6 in
  let thrown :=
    Main.handleThrow (Input.mk true false) 0 1000 1000 (vec3 0 0 (-2)) g playerOrb in
  Main.throwAccepted (Input.mk true false) g = true /\
  THREE.length (OrbState.velocity (Orb.state (snd thrown))) = 46 /\
  THREE.length (OrbState.velocity (Orb.state (snd thrown)))
  <> CONFIG.THROW_SPEED
     * (1 + OrbState.strikeStacks (Orb.state playerOrb) * CONFIG.STRIKE_SPEED_SCALE).
Proof.
  cbv zeta.
  assert (E : THREE.length
                (OrbState.velocity
                   (Orb.state
                      (snd (Main.handleThrow (Input.mk true false) 0 1000 1000
                              (vec3 0 0 (-2))
                              (Main.beginPlaying Main.initialGameState)
                              (createOrb player 6))))) = 46).
  { rewrite handleThrow_velocity by reflexivity.
    apply length_of_sqr; [lra |]. simpl. rewrite sin_0, cos_0.
    unfold CONFIG.THROW_SPEED, CONFIG.STRIKE_SPEED_SCALE. lra. }
  split; [reflexivity |]. split; [exact E |].
  rewrite E. simpl. unfold CONFIG.THROW_SPEED, CONFIG.STRIKE_SPEED_SCALE. lra.
Qed.

(** C2 (amended). For every throw that [handleThrow] accepts (thrower armed,
    not blocking, not dashing, throw triggered; strike stacks not negative),
    the release velocity is the aim direction — a unit vector — scaled by
    THROW_SPEED × (1 + strikeStacks × STRIKE_SPEED_SCALE), plus half the
    thrower's own velocity.  For a thrower at rest the release speed is
    therefore exactly that scaled throw speed and the release direction the
    aim direction.  In the same step the orb leaves Held for InFlight:
    [isHeld], [recalling] and [returning] are all false, and the thrower is
    no longer armed. *)
Theorem handleThrow_release (input : Input.t) (flickDx now now' : R)
    (playerVelocity : Vector3) (g : GameState.t) (playerOrb : Orb.t) :
  Main.throwAccepted input g = true ->
  0 <= OrbState.strikeStacks (Orb.state playerOrb) ->
  let thrown := Main.handleThrow input flickDx now now' playerVelocity g playerOrb in
  let ds := Orb.state (snd thrown) in
  let aim := THREE.forward (GameState.cameraPitch g) (GameState.cameraYaw g) in
  let throwSpeed :=
    CONFIG.THROW_SPEED
    * (1 + OrbState.strikeStacks (Orb.state playerOrb) * CONFIG.STRIKE_SPEED_SCALE) in
  THREE.length aim = 1 /\
  OrbState.velocity ds
  = THREE.add (THREE.multiplyScalar aim throwSpeed)
      (THREE.multiplyScalar playerVelocity 0.5) /\
  (playerVelocity = vec3 0 0 0 ->
     THREE.length (OrbState.velocity ds) = throwSpeed /\
     OrbState.velocity ds = THREE.multiplyScalar aim throwSpeed) /\
  OrbState.isHeld ds = false /\
  OrbState.recalling ds = false /\
  OrbState.returning ds = false /\
  Body.velocity (Orb.body (snd thrown)) = OrbState.velocity ds /\
  GameState.playerArmed (fst thrown) = false.
Proof.
  intros Hacc Hstacks. cbv zeta.
  pose proof (length_forward (GameState.cameraPitch g) (GameState.cameraYaw g)) as Hunit.
  pose proof (handleThrow_velocity input flickDx now now' playerVelocity g playerOrb Hacc)
    as Hvel.
  destruct (throwAccepted_guards input g Hacc) as (Harmed & Hblock & Htrig & Hdash).
  split; [exact Hunit |]. split; [exact Hvel |]. split.
  - intros Hrest. rewrite Hvel, Hrest.
    assert (Hsame :
      THREE.add
        (THREE.multiplyScalar
           (THREE.forward (GameState.cameraPitch g) (GameState.cameraYaw g))
           (CONFIG.THROW_SPEED
            * (1 + OrbState.strikeStacks (Orb.state playerOrb) * CONFIG.STRIKE_SPEED_SCALE)))
        (THREE.multiplyScalar (vec3 0 0 0) 0.5)
      = THREE.multiplyScalar
          (THREE.forward (GameState.cameraPitch g) (GameState.cameraYaw g))
          (CONFIG.THROW_SPEED
           * (1 + OrbState.strikeStacks (Orb.state playerOrb) * CONFIG.STRIKE_SPEED_SCALE))).
    { unfold THREE.add, THREE.multiplyScalar; simpl. f_equal; lra. }
    rewrite Hsame. split; [| reflexivity].
    rewrite length_multiplyScalar, Hunit; [lra |].
    unfold CONFIG.THROW_SPEED, CONFIG.STRIKE_SPEED_SCALE. nra.
  - unfold Main.handleThrow. rewrite Harmed, Hblock, Htrig, Hdash. simpl.
    destruct (GameState.firstThrow g); simpl; repeat split; reflexivity.
Qed.

Lemma handleThrow_release_witness :
  let g := Main.beginPlaying Main.initialGameState in
  let thrown :=
    Main.handleThrow (Input.mk true false) 0 1000 1000 (vec3 0 0 0) g
      (createOrb player 6) in
  THREE.length (OrbState.velocity (Orb.state (snd thrown))) = 45 /\
  OrbState.isHeld (Orb.state (snd thrown)) = false.
Proof.
  intros g thrown.
  destruct (handleThrow_release (Input.mk true false) 0 1000 1000 (vec3 0 0 0) g
              (createOrb player 6))
    as (_ & _ & Hrest & Hheld & _).
  - reflexivity.
  - simpl. lra.
  - destruct (Hrest eq_refl) as [Hspeed _]. split; [| exact Hheld].
    fold thrown in Hspeed. rewrite Hspeed. simpl.
    unfold CONFIG.THROW_SPEED, CONFIG.STRIKE_SPEED_SCALE. lra.
Defined.

(** ** shield.js: reflections *)

(** The elastic mirror reflection keeps the speed. *)
Lemma mirror_length (v n : Vector3) :
  THREE.length n = 1 ->
  THREE.length (THREE.add (THREE.multiplyScalar n (-2 * THREE.dot v n)) v)
  = THREE.length v.
Proof.
  intros Hn. apply length_of_sqr; [apply length_nonneg |].
  rewrite (length_sqr v). pose proof (length_sqr n) as En. rewrite Hn in En.
  destruct v as [a b c], n as [p q r]; unfold THREE.dot; simpl in *.
  replace ((p * (-2 * (a * p + b * q + c * r)) + a)
           * (p * (-2 * (a * p + b * q + c * r)) + a)
           + (q * (-2 * (a * p + b * q + c * r)) + b)
             * (q * (-2 * (a * p + b * q + c * r)) + b)
           + (r * (-2 * (a * p + b * q + c * r)) + c)
             * (r * (-2 * (a * p + b * q + c * r)) + c))
    with (a * a + b * b + c * c
          + 4 * (a * p + b * q + c * r) * (a * p + b * q + c * r)
            * (p * p + q * q + r * r - 1)) by ring.
  rewrite <- En. ring.
Qed.

(** Speed of a vector that was normalised and then scaled by
    [speed * mult]. *)
Lemma rescaled_length (v : Vector3) (speed mult : R) :
  0 <= speed -> 0 <= mult ->
  (THREE.length v = 0 -> speed = 0) ->
  THREE.length (THREE.multiplyScalar (THREE.normalize v) (speed * mult))
  = speed * mult.
Proof.
  intros Hs Hm Hz.
  rewrite length_multiplyScalar by (apply Rmult_le_pos; assumption).
  destruct (Req_dec_T (THREE.length v) 0) as [E | E].
  - rewrite (Hz E). ring.
  - rewrite length_normalize by exact E. ring.
Qed.

Lemma mult_nonneg (isParry : bool) :
  0 <= (if isParry then CONFIG.PARRY_SPEED_MULT else CONFIG.REFLECT_SPEED_MULT).
Proof.
  destruct isParry; unfold CONFIG.PARRY_SPEED_MULT, CONFIG.REFLECT_SPEED_MULT; lra.
Qed.

(** What [processReflection] does with the head of a non-empty queue. *)
Lemma processReflection_head (shield : Shield.t) (orbState : OrbState.t)
    (orbBody : Body.t) (aimDirection : option Vector3)
    (event : ReflectionEvent.t) (rest : list ReflectionEvent.t) :
  Shield.reflections shield = event :: rest ->
  let '(result, shield', orbState', orbBody') :=
    Shield.processReflection shield orbState orbBody aimDirection in
  Shield.reflections shield' = rest /\
  Shield.raiseTime shield' = Shield.raiseTime shield /\
  (ReflectionEvent.orbBody event <> Body.id orbBody ->
     result = None /\ orbState' = orbState /\ orbBody' = orbBody) /\
  (ReflectionEvent.orbBody event = Body.id orbBody ->
     exists r, result = Some r /\
       Shield.isParry r
       = JS.leb (ReflectionEvent.timestamp event - Shield.raiseTime shield)
           CONFIG.PARRY_WINDOW_MS /\
       Shield.speed r
       = THREE.length (Body.velocity orbBody)
         * (if Shield.isParry r then CONFIG.PARRY_SPEED_MULT
            else CONFIG.REFLECT_SPEED_MULT) /\
       OrbState.velocity orbState' = Body.velocity orbBody' /\
       Body.velocity orbBody'
       = THREE.multiplyScalar
           (THREE.normalize
              match aimDirection with
              | Some aim => aim
              | None =>
                  let n := THREE.forward (Shield.rotationX shield)
                             (Shield.rotationY shield) in
                  THREE.add
                    (THREE.multiplyScalar n (-2 * THREE.dot (Body.velocity orbBody) n))
                    (Body.velocity orbBody)
              end)
           (Shield.speed r)).
Proof.
  intros Hq. unfold Shield.processReflection. rewrite Hq.
  destruct (Nat.eqb_spec (ReflectionEvent.orbBody event) (Body.id orbBody)) as [E | E];
    cbn [negb].
  - destruct (JS.leb (ReflectionEvent.timestamp event
                      - Shield.raiseTime (Shield.set_reflections rest shield))
                CONFIG.PARRY_WINDOW_MS) eqn:Hp;
      (split; [reflexivity |]); (split; [reflexivity |]);
      (split; [intros Hne; contradiction |]); intros _;
      eexists; (split; [reflexivity |]); cbn [Shield.isParry Shield.speed];
      (split; [symmetry; exact Hp |]); (split; [reflexivity |]);
      (split; [reflexivity |]); destruct aimDirection; reflexivity.
  - split; [reflexivity |]. split; [reflexivity |].
    split; [intros _; auto | intros Heq; contradiction].
Qed.

(** The aim direction [handleShieldReflections] passes on is a unit vector. *)
Lemma aimDir_nonzero (pitch yaw : R) : THREE.length (THREE.forward pitch yaw) <> 0.
Proof. rewrite length_forward. lra. Qed.

(** C1. For every reflection event that [processReflection] processes (the
    head of the queue, matching the tracked orb; an aim direction, when one
    is supplied, is not the zero vector): the contact is a Parry exactly
    when the event's timestamp minus the shield's raise time is at most
    PARRY_WINDOW_MS (150), otherwise a Reflect; and the orb's resulting
    speed — of its state and of its body, and as reported — is the incoming
    speed times PARRY_SPEED_MULT (1.6) for a Parry and times
    REFLECT_SPEED_MULT (1.3) for a Reflect. *)
Theorem processReflection_parry_or_reflect
    (shield : Shield.t) (orbState : OrbState.t) (orbBody : Body.t)
    (aimDirection : option Vector3)
    (event : ReflectionEvent.t) (rest : list ReflectionEvent.t)
    (result : option Shield.Result) (shield' : Shield.t)
    (orbState' : OrbState.t) (orbBody' : Body.t) :
  Shield.reflections shield = event :: rest ->
  ReflectionEvent.orbBody event = Body.id orbBody ->
  (forall aim, aimDirection = Some aim -> THREE.length aim <> 0) ->
  Shield.processReflection shield orbState orbBody aimDirection
  = (result, shield', orbState', orbBody') ->
  let incoming := THREE.length (Body.velocity orbBody) in
  exists r, result = Some r /\
    (Shield.isParry r = true <->
       ReflectionEvent.timestamp event - Shield.raiseTime shield
       <= CONFIG.PARRY_WINDOW_MS) /\
    (Shield.isParry r = true ->
       THREE.length (OrbState.velocity orbState') = incoming * CONFIG.PARRY_SPEED_MULT) /\
    (Shield.isParry r = false ->
       THREE.length (OrbState.velocity orbState') = incoming * CONFIG.REFLECT_SPEED_MULT) /\
    THREE.length (Body.velocity orbBody') = THREE.length (OrbState.velocity orbState') /\
    Shield.speed r = THREE.length (OrbState.velocity orbState').
Proof.
  intros Hq Hmatch Haim Hcall incoming.
  pose proof (processReflection_head shield orbState orbBody aimDirection event rest Hq)
    as H.
  rewrite Hcall in H. destruct H as (_ & _ & _ & H).
  destruct (H Hmatch) as (r & Hr & Hparry & Hspeed & Hsame & Hvel).
  exists r. split; [exact Hr |].
  assert (Hlen : THREE.length (Body.velocity orbBody') = Shield.speed r).
  { rewrite Hvel, Hspeed. apply rescaled_length.
    - apply length_nonneg.
    - apply mult_nonneg.
    - destruct aimDirection as [aim |].
      + intros Hz. exfalso. exact (Haim aim eq_refl Hz).
      + cbv zeta. rewrite mirror_length by apply length_forward. auto. }
  split.
  - rewrite Hparry. apply leb_true.
  - rewrite Hsame, Hlen, Hspeed. fold incoming.
    repeat split; try (intros Hp; rewrite Hp); reflexivity.
Qed.

Lemma processReflection_parry_or_reflect_witness :
  let shield := Shield.mk [ReflectionEvent.mk 7 1100] true 1000 0 0 0 in
  let orbBody := Body.mk 7 (vec3 0 1 20) (vec3 0 0 30) (vec3 0 0 0) 0.01 in
  let out :=
    Shield.processReflection shield (Orb.state (createOrb opponent 7)) orbBody
      (Some (vec3 0 0 (-1))) in
  THREE.length (OrbState.velocity (snd (fst out)))
  = THREE.length (vec3 0 0 30) * CONFIG.PARRY_SPEED_MULT.
Proof.
  intros shield orbBody out.
  destruct out as [[[result shield'] orbState'] orbBody'] eqn:E.
  destruct (processReflection_parry_or_reflect shield
              (Orb.state (createOrb opponent 7)) orbBody (Some (vec3 0 0 (-1)))
              (ReflectionEvent.mk 7 1100) [] result shield' orbState' orbBody')
    as (r & _ & Hiff & Hparry & _).
  - reflexivity.
  - reflexivity.
  - intros aim Ha. injection Ha as <-.
    rewrite (length_of_sqr (vec3 0 0 (-1)) 1); [lra | lra | simpl; lra].
  - exact E.
  - simpl. apply Hparry. apply Hiff. simpl. unfold CONFIG.PARRY_WINDOW_MS. lra.
Defined.

(** Each pass of either drain loop shortens the queue by its head. *)
Lemma processReflection_queue (shield : Shield.t) (orbState : OrbState.t)
    (orbBody : Body.t) (aimDirection : option Vector3) :
  Shield.reflections
    (snd (fst (fst (Shield.processReflection shield orbState orbBody aimDirection))))
  = tl (Shield.reflections shield).
Proof.
  destruct (Shield.reflections shield) as [| event rest] eqn:Hq.
  - unfold Shield.processReflection. rewrite Hq. simpl. exact Hq.
  - pose proof (processReflection_head shield orbState orbBody aimDirection event rest Hq)
      as H.
    destruct (Shield.processReflection shield orbState orbBody aimDirection)
      as [[[result shield'] orbState'] orbBody'].
    simpl. apply H.
Qed.

Lemma playerReflectionStep_queue (aim : Vector3) (s : Main.Reflecting) :
  Shield.reflections (Main.rShield (Main.playerReflectionStep aim s))
  = tl (Shield.reflections (Main.rShield s)).
Proof.
  rewrite <- (processReflection_queue (Main.rShield s) (Orb.state (Main.rOrb s))
                (Orb.body (Main.rOrb s)) (Some aim)).
  unfold Main.playerReflectionStep.
  destruct (Shield.processReflection (Main.rShield s) (Orb.state (Main.rOrb s))
              (Orb.body (Main.rOrb s)) (Some aim))
    as [[[[r |] shield'] orbState'] orbBody']; reflexivity.
Qed.

Lemma opponentReflectionStep_queue (s : Main.Reflecting) :
  Shield.reflections (Main.rShield (Main.opponentReflectionStep s))
  = tl (Shield.reflections (Main.rShield s)).
Proof.
  rewrite <- (processReflection_queue (Main.rShield s) (Orb.state (Main.rOrb s))
                (Orb.body (Main.rOrb s)) None).
  unfold Main.opponentReflectionStep.
  destruct (Shield.processReflection (Main.rShield s) (Orb.state (Main.rOrb s))
              (Orb.body (Main.rOrb s)) None)
    as [[[[r |] shield'] orbState'] orbBody']; reflexivity.
Qed.

Section DrainLoop.

Variable step : Main.Reflecting -> Main.Reflecting.
Hypothesis step_shifts : forall s,
  Shield.reflections (Main.rShield (step s))
  = tl (Shield.reflections (Main.rShield s)).

(** With fuel for at least as many passes as the queue is long, the loop
    ends with the queue empty after exactly that many passes. *)
Lemma drainReflections_terminates (fuel : nat) :
  forall s : Main.Reflecting,
  (List.length (Shield.reflections (Main.rShield s)) <= fuel)%nat ->
  exists s', Main.drainReflections step fuel s
             = Some (List.length (Shield.reflections (Main.rShield s)), s')
             /\ Shield.reflections (Main.rShield s') = [].
Proof.
  induction fuel as [| fuel IH]; intros s Hlen.
  - destruct (Shield.reflections (Main.rShield s)) eqn:Hq; simpl in Hlen; [| lia].
    exists s. simpl. rewrite Hq. auto.
  - simpl. destruct (Shield.reflections (Main.rShield s)) as [| e rest] eqn:Hq.
    + exists s. auto.
    + destruct (IH (step s)) as (s' & Hrun & Hempty).
      * rewrite step_shifts, Hq. simpl in *. lia.
      * exists s'. rewrite Hrun, step_shifts, Hq. simpl. auto.
Qed.

(** With less fuel the loop is still running when the fuel is gone. *)
Lemma drainReflections_needs_fuel (fuel : nat) :
  forall s : Main.Reflecting,
  (fuel < List.length (Shield.reflections (Main.rShield s)))%nat ->
  Main.drainReflections step fuel s = None.
Proof.
  induction fuel as [| fuel IH]; intros s Hlen.
  - destruct (Shield.reflections (Main.rShield s)) eqn:Hq; simpl in Hlen; [lia |].
    simpl. rewrite Hq. reflexivity.
  - simpl. destruct (Shield.reflections (Main.rShield s)) as [| e rest] eqn:Hq;
      simpl in Hlen; [lia |].
    rewrite IH; [reflexivity |]. rewrite step_shifts, Hq. simpl. lia.
Qed.

End DrainLoop.

(** C10. A call of [processReflection] on a non-empty queue removes exactly
    the event at the head of the queue; when that event is for another body
    than the tracked orb's, the call returns null and leaves the orb's
    velocity (state and body) as it was.  So each drain loop,
    [handleShieldReflections] and [handleOpponentShieldReflections], ends
    with the queue empty after exactly as many calls as the queue was long:
    fuel for that many passes suffices and no less does. *)
Theorem reflections_drained_one_per_call
    (shield : Shield.t) (orbState : OrbState.t) (orbBody : Body.t)
    (aimDirection : option Vector3)
    (event : ReflectionEvent.t) (rest : list ReflectionEvent.t)
    (s : Main.Reflecting) (fuel : nat) :
  (Shield.reflections shield = event :: rest ->
   let out := Shield.processReflection shield orbState orbBody aimDirection in
   Shield.reflections (snd (fst (fst out))) = rest /\
   (ReflectionEvent.orbBody event <> Body.id orbBody ->
      fst (fst (fst out)) = None /\
      OrbState.velocity (snd (fst out)) = OrbState.velocity orbState /\
      Body.velocity (snd out) = Body.velocity orbBody)) /\
  let n := List.length (Shield.reflections (Main.rShield s)) in
  ((n <= fuel)%nat ->
     (exists s', Main.handleShieldReflections fuel s = Some (n, s')
                 /\ Shield.reflections (Main.rShield s') = []) /\
     (exists s', Main.handleOpponentShieldReflections fuel s = Some (n, s')
                 /\ Shield.reflections (Main.rShield s') = [])) /\
  ((fuel < n)%nat ->
     Main.handleShieldReflections fuel s = None /\
     Main.handleOpponentShieldReflections fuel s = None).
Proof.
  split; [| cbv zeta; split].
  - intros Hq out.
    pose proof (processReflection_head shield orbState orbBody aimDirection event rest Hq)
      as H.
    subst out.
    destruct (Shield.processReflection shield orbState orbBody aimDirection)
      as [[[result shield'] orbState'] orbBody'].
    simpl. destruct H as (Hrest & _ & Hmis & _). split; [exact Hrest |].
    intros Hne. destruct (Hmis Hne) as (-> & -> & ->). auto.
  - intros Hfuel. split.
    + apply drainReflections_terminates; [apply playerReflectionStep_queue | exact Hfuel].
    + apply drainReflections_terminates; [apply opponentReflectionStep_queue | exact Hfuel].
  - intros Hfuel. split.
    + apply drainReflections_needs_fuel; [apply playerReflectionStep_queue | exact Hfuel].
    + apply drainReflections_needs_fuel; [apply opponentReflectionStep_queue | exact Hfuel].
Qed.

Lemma reflections_drained_one_per_call_witness :
  let shield := Shield.mk [ReflectionEvent.mk 6 1100; ReflectionEvent.mk 7 1200]
                  true 1000 0 0 0 in
  let oOrb := createOrb opponent 7 in
  let s := Main.mkReflecting Main.initialGameState shield oOrb in
  fst (fst (fst (Shield.processReflection shield (Orb.state oOrb) (Orb.body oOrb) None)))
  = None /\
  exists s', Main.handleShieldReflections 2 s = Some (2%nat, s')
             /\ Shield.reflections (Main.rShield s') = [].
Proof.
  intros shield oOrb s.
  destruct (reflections_drained_one_per_call shield (Orb.state oOrb) (Orb.body oOrb)
              None (ReflectionEvent.mk 6 1100) [ReflectionEvent.mk 7 1200] s 2)
    as (Hcall & Hloop & _).
  split.
  - apply (Hcall eq_refl). simpl. lia.
  - apply Hloop. simpl. lia.
Defined.

(** ** strikeZone.js: re-trigger cooldown *)

(** A strike check either changes nothing, or registers a trigger on an
    existing zone whose last trigger lies at least 1000 ms back, and
    stamps that zone with the current clock value. *)
Lemma checkStrikeZone_cases (zones : gmap string Zone.t) (zoneName : string)
    (orbState : OrbState.t) (now : R) :
  StrikeZone.checkStrikeZone zones zoneName orbState now = (false, zones) \/
  exists zone,
    zones !! zoneName = Some zone /\
    1000 <= now - Zone.lastTriggerTime zone /\
    StrikeZone.checkStrikeZone zones zoneName orbState now
    = (true, <[ zoneName := Zone.set_flashTimer 0.3 (Zone.set_lastTriggerTime now zone) ]> zones).
Proof.
  unfold StrikeZone.checkStrikeZone.
  destruct (zones !! zoneName) as [zone |] eqn:Hz; [| now left].
  destruct (JS.ltb _ CONFIG.STRIKE_MIN_ORB_SPEED); [now left |].
  destruct (OrbState.isHeld orbState || OrbState.recalling orbState); [now left |].
  destruct (JS.ltb (now - Zone.lastTriggerTime zone) 1000) eqn:Hcool; [now left |].
  apply ltb_false in Hcool.
  destruct (JS.ltb (THREE.z (OrbState.position orbState)) _
            || JS.gtb (THREE.z (OrbState.position orbState)) _); [now left |].
  destruct (JS.leb _ _); [| now left].
  right. exists zone. auto.
Qed.

(** The visual update never touches a zone's trigger stamp. *)
Lemma updateStrikeZones_stamp (zones : gmap string Zone.t) (dt : R)
    (name : string) (zone : Zone.t) :
  zones !! name = Some zone ->
  exists zone', StrikeZone.updateStrikeZones zones dt !! name = Some zone'
                /\ Zone.lastTriggerTime zone' = Zone.lastTriggerTime zone.
Proof.
  assert (Hone : forall (key : string) (zs : gmap string Zone.t) (z : Zone.t),
            zs !! name = Some z ->
            exists z',
              match zs !! key with
              | Some k => <[ key := StrikeZone._updateSingleZone k dt ]> zs
              | None => zs
              end !! name = Some z'
              /\ Zone.lastTriggerTime z' = Zone.lastTriggerTime z).
  { intros key zs z H. destruct (zs !! key) as [k |] eqn:Hk; [| eauto].
    destruct (decide (key = name)) as [-> | Hne].
    - rewrite lookup_insert_eq. rewrite H in Hk. injection Hk as <-.
      eexists. split; [reflexivity |].
      unfold StrikeZone._updateSingleZone. now destruct (JS.gtb _ _).
    - rewrite lookup_insert_ne by exact Hne. eauto. }
  unfold StrikeZone.updateStrikeZones. intros H.
  destruct (Hone "player"%string zones zone H) as (z1 & H1 & E1).
  destruct (Hone "opponent"%string _ z1 H1) as (z2 & H2 & E2).
  exists z2. split; [exact H2 | congruence].
Qed.

Lemma triggerTimes_cons (name zoneName : string) (now : R)
    (triggers : list (string * R)) :
  StrikeZone.triggerTimes name ((zoneName, now) :: triggers)
  = if String.eqb zoneName name
    then now :: StrikeZone.triggerTimes name triggers
    else StrikeZone.triggerTimes name triggers.
Proof.
  unfold StrikeZone.triggerTimes; simpl. now destruct (String.eqb zoneName name).
Qed.

(** Every trigger a run registers for a zone comes at least 1000 ms after
    the stamp the zone carried when the run began, and the triggers are
    pairwise at least 1000 ms apart. *)
Lemma runZoneOps_spaced (name : string) (ops : list StrikeZone.ZoneOp) :
  forall zones : gmap string Zone.t,
  let times := StrikeZone.triggerTimes name (fst (StrikeZone.runZoneOps zones ops)) in
  Forall (fun t => forall zone, zones !! name = Some zone ->
                     1000 <= t - Zone.lastTriggerTime zone) times /\
  ForallOrdPairs (fun t1 t2 => 1000 <= t2 - t1) times.
Proof.
  induction ops as [| op rest IH]; intros zones; cbv zeta.
  - simpl. split; constructor.
  - destruct op as [zoneName orbState now | dt]; simpl.
    + destruct (checkStrikeZone_cases zones zoneName orbState now)
        as [E | (zone & Hz & Hcool & E)]; rewrite E.
      * specialize (IH zones). cbv zeta in IH.
        destruct (StrikeZone.runZoneOps zones rest) as [triggers zones2].
        simpl in *. exact IH.
      * specialize (IH (<[ zoneName := Zone.set_flashTimer 0.3
                                         (Zone.set_lastTriggerTime now zone) ]> zones)).
        cbv zeta in IH.
        destruct (StrikeZone.runZoneOps _ rest) as [triggers zones2].
        simpl in *. rewrite triggerTimes_cons.
        destruct IH as [IHstamp IHpairs].
        destruct (String.eqb_spec zoneName name) as [-> | Hne].
        -- assert (Hlater : Forall (fun t => 1000 <= t - now)
                              (StrikeZone.triggerTimes name triggers)).
           { eapply Forall_impl; [exact IHstamp |]. simpl. intros t Ht.
             apply (Ht (Zone.set_flashTimer 0.3 (Zone.set_lastTriggerTime now zone))).
             apply lookup_insert_eq. }
           split.
           ++ constructor.
              ** intros z Hz'. rewrite Hz in Hz'. injection Hz' as <-. exact Hcool.
              ** eapply Forall_impl; [exact Hlater |]. simpl.
                 intros t Ht z Hz'. rewrite Hz in Hz'. injection Hz' as <-. lra.
           ++ constructor; assumption.
        -- split; [| exact IHpairs].
           eapply Forall_impl; [exact IHstamp |]. simpl. intros t Ht z Hz'.
           apply Ht. rewrite lookup_insert_ne by exact Hne. exact Hz'.
    + specialize (IH (StrikeZone.updateStrikeZones zones dt)). cbv zeta in IH.
      destruct IH as [IHstamp IHpairs]. split; [| exact IHpairs].
      eapply Forall_impl; [exact IHstamp |]. simpl. intros t Ht z Hz.
      destruct (updateStrikeZones_stamp zones dt name z Hz) as (z' & Hz' & <-).
      exact (Ht z' Hz').
Qed.

(** C4. Whatever sequence of strike checks (with any clock readings and
    any orb states) and visual updates the zones go through, the checks
    that register a trigger for one and the same zone are pairwise at
    least 1000 ms apart: for any two of them, the later call's clock
    reading is no less than 1000 ms after the earlier one's. *)
Theorem strike_zone_cooldown (zones : gmap string Zone.t)
    (ops : list StrikeZone.ZoneOp) (zoneName : string) :
  ForallOrdPairs (fun t1 t2 => 1000 <= t2 - t1)
    (StrikeZone.triggerTimes zoneName (fst (StrikeZone.runZoneOps zones ops))).
Proof. apply runZoneOps_spaced. Qed.

(** The cooldown at work on an orb that stays inside the opponent's zone:
    checked at 1000, 1500 and 2500 ms it triggers at 1000 and at 2500 only. *)
Lemma checkStrikeZone_hit (zones : gmap string Zone.t) (zoneName : string)
    (orbState : OrbState.t) (now : R) (zone : Zone.t) :
  zones !! zoneName = Some zone ->
  CONFIG.STRIKE_MIN_ORB_SPEED <= THREE.length (OrbState.velocity orbState) ->
  OrbState.isHeld orbState = false -> OrbState.recalling orbState = false ->
  1000 <= now - Zone.lastTriggerTime zone ->
  Zone.zWall zone < 0 ->
  Zone.zWall zone <= THREE.z (OrbState.position orbState)
    <= Zone.zWall zone + Zone.depth zone ->
  (THREE.x (OrbState.position orbState) - Zone.centerX zone)
    * (THREE.x (OrbState.position orbState) - Zone.centerX zone)
  + (THREE.y (OrbState.position orbState) - Zone.centerY zone)
    * (THREE.y (OrbState.position orbState) - Zone.centerY zone)
  <= Zone.radius zone * Zone.radius zone ->
  StrikeZone.checkStrikeZone zones zoneName orbState now
  = (true, <[ zoneName := Zone.set_flashTimer 0.3 (Zone.set_lastTriggerTime now zone) ]> zones).
Proof.
  intros Hz Hspeed Hheld Hrec Hcool Hwall Hdepth Hcircle.
  unfold StrikeZone.checkStrikeZone. rewrite Hz, Hheld, Hrec.
  rewrite (proj2 (ltb_false _ _) Hspeed). simpl.
  rewrite (proj2 (ltb_false _ _) Hcool).
  rewrite !(proj2 (ltb_true _ _) Hwall).
  rewrite (proj2 (ltb_false _ _)) by lra.
  rewrite (proj2 (gtb_false _ _)) by lra. simpl.
  rewrite (proj2 (leb_true _ _) Hcircle). reflexivity.
Qed.

Lemma checkStrikeZone_cooling (zones : gmap string Zone.t) (zoneName : string)
    (orbState : OrbState.t) (now : R) (zone : Zone.t) :
  zones !! zoneName = Some zone ->
  now - Zone.lastTriggerTime zone < 1000 ->
  StrikeZone.checkStrikeZone zones zoneName orbState now = (false, zones).
Proof.
  intros Hz Hcool. unfold StrikeZone.checkStrikeZone. rewrite Hz.
  destruct (JS.ltb _ CONFIG.STRIKE_MIN_ORB_SPEED); [reflexivity |].
  destruct (OrbState.isHeld orbState || OrbState.recalling orbState); [reflexivity |].
  now rewrite (proj2 (ltb_true _ _) Hcool).
Qed.

Example strike_zone_dwell :
  let orbState :=
    OrbState.mk (vec3 0 1 (-29)) (vec3 0 0 (-10)) false player None 0 0
      false 0 false 0 (vec3 0 0 0) 0 in
  fst (StrikeZone.runZoneOps StrikeZone.createStrikeZones
         [StrikeZone.Check "opponent" orbState 1000;
          StrikeZone.Check "opponent" orbState 1500;
          StrikeZone.Check "opponent" orbState 2500])
  = [("opponent"%string, 1000); ("opponent"%string, 2500)].
Proof.
  intros orbState.
  assert (Hspeed : CONFIG.STRIKE_MIN_ORB_SPEED
                   <= THREE.length (OrbState.velocity orbState)).
  { simpl. rewrite (length_of_sqr (vec3 0 0 (-10)) 10); [| lra | simpl; lra].
    unfold CONFIG.STRIKE_MIN_ORB_SPEED. lra. }
  assert (Hz0 : StrikeZone.createStrikeZones !! "opponent"%string
                = Some (Zone.mk 0 CONFIG.STRIKE_ZONE_CENTER_Y (- (CONFIG.ARENA_LENGTH / 2))
                          CONFIG.STRIKE_ZONE_RADIUS CONFIG.STRIKE_ZONE_DEPTH 0 0)).
  { unfold StrikeZone.createStrikeZones.
    rewrite lookup_insert_ne by discriminate. apply lookup_insert_eq. }
  unfold StrikeZone.runZoneOps.
  rewrite (checkStrikeZone_hit _ _ _ _ _ Hz0 Hspeed eq_refl eq_refl);
    [| simpl; lra
     | simpl; unfold CONFIG.ARENA_LENGTH; lra
     | simpl; unfold CONFIG.ARENA_LENGTH, CONFIG.STRIKE_ZONE_DEPTH; lra
     | simpl; unfold CONFIG.STRIKE_ZONE_CENTER_Y, CONFIG.STRIKE_ZONE_RADIUS; lra ].
  rewrite (checkStrikeZone_cooling _ _ _ _ _ (lookup_insert_eq _ _ _));
    [| simpl; lra].
  rewrite (checkStrikeZone_hit _ _ _ _ _ (lookup_insert_eq _ _ _) Hspeed eq_refl eq_refl);
    [| simpl; lra
     | simpl; unfold CONFIG.ARENA_LENGTH; lra
     | simpl; unfold CONFIG.ARENA_LENGTH, CONFIG.STRIKE_ZONE_DEPTH; lra
     | simpl; unfold CONFIG.STRIKE_ZONE_CENTER_Y, CONFIG.STRIKE_ZONE_RADIUS; lra ].
  reflexivity.
Qed.

(** ** physics.js: draining the bounce queue *)

Section Drain.

Variable onBounce : Vector3 -> Vector3 -> Orb.t -> Orb.t.
Variable bodyId : nat.
Variable queue0 : list Bounce.t.

Lemma filter_other_snoc_match (l : list Bounce.t) (b : Bounce.t) :
  Bounce.bodyId b = bodyId ->
  filter (fun b => Bounce.bodyId b <> bodyId) (l ++ [b])
  = filter (fun b => Bounce.bodyId b <> bodyId) l.
Proof.
  intros Hb. rewrite filter_app.
  rewrite (filter_cons_False (fun b => Bounce.bodyId b <> bodyId)) by tauto.
  rewrite filter_nil. apply app_nil_r.
Qed.

(** One iteration keeps the invariant, one index further down. *)
Lemma drainAt_invariant (i : nat) (s : Physics.DrainState) :
  Physics.drainInvariant bodyId queue0 (S i) s ->
  Physics.drainInvariant bodyId queue0 i (Physics.drainAt onBounce bodyId i s).
Proof.
  intros (Hlen & (front & back & Hq & Hfront & Hback) & Hperm & Hcalls).
  destruct (exists_last (l := front)) as (front' & b & ->).
  { intros ->. discriminate. }
  rewrite length_app in Hfront. simpl in Hfront.
  assert (Hi : List.length front' = i) by lia.
  rewrite <- app_assoc in Hq. simpl in Hq.
  assert (Hlook : Physics.queue s !! i = Some b).
  { rewrite Hq, <- Hi. apply list_lookup_middle. reflexivity. }
  unfold Physics.drainAt. rewrite Hlook.
  destruct (Nat.eqb_spec (Bounce.bodyId b) bodyId) as [Hb | Hb].
  - (* the event is for this body: callback if fast, then swap and pop *)
    assert (Hn : (Physics.bqLen s - 1 = i + List.length back)%nat).
    { rewrite Hlen, Hq, length_app. simpl. lia. }
    rewrite Hn.
    assert (Hcalls' :
      Forall (fun c => Bounce.bodyId (fst c) = bodyId
                       /\ 2 < THREE.length (OrbState.velocity (Orb.state (snd c))))
        (if JS.gtb (THREE.length (OrbState.velocity (Orb.state (Physics.orb s)))) 2
         then (b, Physics.orb s) :: Physics.calls s else Physics.calls s)).
    { destruct (JS.gtb _ 2) eqn:Hfire; [| exact Hcalls].
      constructor; [| exact Hcalls]. simpl. split; [exact Hb |].
      now apply gtb_true. }
    assert (Hsplit : back = [] \/ exists back' last, back = back' ++ [last]).
    { destruct back as [| x0 back0]; [now left | right].
      destruct (exists_last (l := x0 :: back0)) as (back' & last & E);
        [discriminate | eauto]. }
    destruct Hsplit as [-> | (back' & last & ->)].
    + (* [i] is the last index: pop only *)
      simpl List.length. rewrite Nat.add_0_r, Nat.ltb_irrefl.
      unfold Physics.drainInvariant; simpl.
      rewrite Hq, <- Hi, take_app_length.
      repeat split.
      * exists front', []. rewrite app_nil_r. auto.
      * rewrite <- Hperm, Hq.
        now rewrite (filter_other_snoc_match front' b Hb).
      * exact Hcalls'.
    + (* the last event is moved to [i], then pop *)
      rewrite length_app in *. simpl List.length in *.
      replace (i <? i + (List.length back' + 1))%nat with true
        by (symmetry; apply Nat.ltb_lt; lia).
      assert (Hlast : Physics.queue s !! (i + (List.length back' + 1))%nat = Some last).
      { rewrite Hq, <- Hi.
        replace (front' ++ b :: back' ++ [last])
          with ((front' ++ b :: back') ++ [last])
          by (rewrite <- app_assoc; reflexivity).
        replace (List.length front' + (List.length back' + 1))%nat
          with (List.length (front' ++ b :: back'))
          by (rewrite length_app; simpl; lia).
        apply list_lookup_middle. reflexivity. }
      rewrite Hlast. unfold Physics.drainInvariant; simpl.
      assert (Hnew : take (i + (List.length back' + 1)) (<[i:=last]> (Physics.queue s))
                     = front' ++ last :: back').
      { rewrite Hq, <- Hi.
        rewrite insert_app_r_alt by lia. rewrite Nat.sub_diag. simpl.
        replace (front' ++ last :: back' ++ [last])
          with ((front' ++ last :: back') ++ [last])
          by (rewrite <- app_assoc; reflexivity).
        replace (List.length front' + (List.length back' + 1))%nat
          with (List.length (front' ++ last :: back'))
          by (rewrite length_app; simpl; lia).
        apply take_app_length. }
      rewrite Hnew. apply Forall_app in Hback as [Hback' Hl].
      repeat split.
      * rewrite length_app. simpl. lia.
      * exists front', (last :: back'). repeat split; auto.
        constructor; [now inversion Hl | exact Hback'].
      * rewrite <- Hperm, Hq. rewrite !filter_app.
        apply Permutation_app_head.
        rewrite (filter_cons_False _ b) by tauto.
        change (last :: back') with ([last] ++ back').
        rewrite !filter_app. apply Permutation_app_comm.
      * exact Hcalls'.
  - (* an event of another body stays where it is *)
    unfold Physics.drainInvariant. repeat split; auto.
    exists front', (b :: back). repeat split; auto.
Qed.

Lemma drainFrom_invariant (k : nat) :
  forall s : Physics.DrainState,
  Physics.drainInvariant bodyId queue0 k s ->
  Physics.drainInvariant bodyId queue0 0 (Physics.drainFrom onBounce bodyId k s).
Proof.
  induction k as [| i IH]; intros s Hinv; simpl; [exact Hinv |].
  apply IH. now apply drainAt_invariant.
Qed.

(** At a speed of 2 or less no iteration calls back, so the orb is not
    touched and nothing is logged. *)
Lemma drainAt_slow (i : nat) (s : Physics.DrainState) :
  THREE.length (OrbState.velocity (Orb.state (Physics.orb s))) <= 2 ->
  Physics.orb (Physics.drainAt onBounce bodyId i s) = Physics.orb s /\
  Physics.calls (Physics.drainAt onBounce bodyId i s) = Physics.calls s.
Proof.
  intros Hslow. unfold Physics.drainAt.
  destruct (Physics.queue s !! i) as [b |]; [| auto].
  destruct (Nat.eqb (Bounce.bodyId b) bodyId); [| auto].
  rewrite (proj2 (gtb_false _ _) Hslow). auto.
Qed.

Lemma drainFrom_slow (k : nat) :
  forall s : Physics.DrainState,
  THREE.length (OrbState.velocity (Orb.state (Physics.orb s))) <= 2 ->
  Physics.orb (Physics.drainFrom onBounce bodyId k s) = Physics.orb s /\
  Physics.calls (Physics.drainFrom onBounce bodyId k s) = Physics.calls s.
Proof.
  induction k as [| i IH]; intros s Hslow; simpl; [auto |].
  destruct (drainAt_slow i s Hslow) as [Eo Ec].
  destruct (IH (Physics.drainAt onBounce bodyId i s)) as [Eo' Ec'].
  - now rewrite Eo.
  - split; congruence.
Qed.

End Drain.

(** C9. When [syncOrbPhysics] drains the bounce queue for an orb in play,
    every invocation of the bounce callback is for an event of the orb's
    own body and is made while the orb's speed exceeds 2; every event of
    that body leaves the queue and the events of other bodies all stay.
    So at a speed of 2 or less the body's events are dropped without a
    single callback: the orb is exactly as the synchronisation left it,
    and in particular its [returning] flag is what it was — a slow wall
    contact cannot start the return. *)
Theorem syncOrbPhysics_bounce_gate
    (onBounce : Vector3 -> Vector3 -> Orb.t -> Orb.t)
    (bounceQueue : list Bounce.t) (o : Orb.t) :
  OrbState.isHeld (Orb.state o) = false ->
  let s := Physics.syncOrbPhysics onBounce bounceQueue o in
  let id := Body.id (Orb.body o) in
  Forall (fun c => Bounce.bodyId (fst c) = id
                   /\ 2 < THREE.length (OrbState.velocity (Orb.state (snd c))))
    (Physics.calls s) /\
  Forall (fun b => Bounce.bodyId b <> id) (Physics.queue s) /\
  Physics.queue s ≡ₚ filter (fun b => Bounce.bodyId b <> id) bounceQueue /\
  (THREE.length (Body.velocity (Orb.body o)) <= 2 ->
     Physics.calls s = [] /\
     Physics.orb s = Physics.syncedOrb o /\
     OrbState.returning (Orb.state (Physics.orb s))
     = OrbState.returning (Orb.state o)).
Proof.
  intros Hheld. cbv zeta.
  unfold Physics.syncedOrb, Physics.syncOrbPhysics. rewrite Hheld.
  cbn [Body.id Body.set_velocity Body.set_position].
  match goal with
  | |- context [Physics.drainFrom onBounce ?i ?k ?s0] =>
      set (id := i); set (start := s0)
  end.
  assert (Hinv0 : Physics.drainInvariant id bounceQueue (List.length bounceQueue) start).
  { unfold Physics.drainInvariant; subst start; simpl. repeat split; auto.
    exists bounceQueue, []. rewrite app_nil_r. auto. }
  apply (drainFrom_invariant onBounce id bounceQueue) in Hinv0.
  destruct Hinv0 as (_ & (front & back & Hq & Hfront & Hback) & Hperm & Hcalls).
  destruct front; [| discriminate]. simpl in Hq.
  split; [exact Hcalls |]. split; [rewrite Hq; exact Hback |]. split.
  - rewrite <- Hperm. rewrite Hq.
    clear -Hback. induction Hback as [| b l Hb Hl IH]; [reflexivity |].
    rewrite filter_cons_True by exact Hb. now rewrite <- IH.
  - intros Hslow.
    destruct (drainFrom_slow onBounce id (List.length bounceQueue) start) as [Eo Ec].
    { subst start; simpl. exact Hslow. }
    rewrite Eo, Ec. subst start; simpl. auto.
Qed.

Lemma syncOrbPhysics_bounce_gate_witness :
  let o :=
    Orb.mk
      (OrbState.mk (vec3 0 1 (-29)) (vec3 0 0 (-1)) false player None 0 0
         false 0 false 0 (vec3 0 0 0) 0)
      (Body.mk 6 (vec3 0 1 (-29.7)) (vec3 0 0 1) (vec3 0 0 0) 0.01) in
  let bounceQueue :=
    [Bounce.mk (vec3 0 1 (-30)) (vec3 0 0 (-1)) 6;
     Bounce.mk (vec3 5 1 0) (vec3 1 0 0) 7] in
  let s := Physics.syncOrbPhysics Main.onPlayerOrbBounce bounceQueue o in
  Physics.calls s = [] /\
  OrbState.returning (Orb.state (Physics.orb s)) = false.
Proof.
  intros o bounceQueue s.
  destruct (syncOrbPhysics_bounce_gate Main.onPlayerOrbBounce bounceQueue o)
    as (_ & _ & _ & Hslow).
  - reflexivity.
  - destruct Hslow as (Hcalls & _ & Hret).
    + simpl. rewrite (length_of_sqr (vec3 0 0 1) 1); [lra | lra | simpl; lra].
    + split; [exact Hcalls | exact Hret].
Defined.

(** ** physics.js and main.js: a bounce off the far wall *)

(** The block both bounce handlers run when the far wall is hit. *)
Lemma startReturn_spec (o : Orb.t) :
  0.01 < THREE.length (OrbState.velocity (Orb.state o)) ->
  Main.returnStarted o (Main.startReturn o).
Proof.
  intros Hspeed. unfold Main.returnStarted, Main.startReturn.
  cbn -[THREE.multiplyScalar THREE.length].
  rewrite (proj2 (gtb_true _ _) Hspeed).
  set (v := OrbState.velocity (Orb.state o)) in *.
  assert (Hk : 0 < CONFIG.RETURN_INITIAL_SPEED / THREE.length v).
  { apply Rdiv_lt_0_compat; [unfold CONFIG.RETURN_INITIAL_SPEED |]; lra. }
  repeat split.
  - rewrite length_multiplyScalar by lra. field. lra.
  - exists (CONFIG.RETURN_INITIAL_SPEED / THREE.length v). auto.
  - unfold Main.insideArena; simpl. unfold CONFIG.ARENA_HEIGHT. lra.
Qed.

Lemma onPlayerOrbBounce_far (pos normal : Vector3) (o : Orb.t) :
  Main.onPlayerOrbBounce pos normal o
  = if Main.playerFarWall normal
       && negb (OrbState.returning (Orb.state o))
       && negb (OrbState.isHeld (Orb.state o))
    then Main.startReturn o else o.
Proof. reflexivity. Qed.

Lemma onOpponentOrbBounce_far (pos normal : Vector3) (o : Orb.t) :
  Main.onOpponentOrbBounce pos normal o
  = if Main.opponentFarWall normal
       && negb (OrbState.returning (Orb.state o))
       && negb (OrbState.isHeld (Orb.state o))
    then Main.startReturn o else o.
Proof. reflexivity. Qed.

(** The drain loop of [syncOrbPhysics] with a bounce handler, for an orb in
    flight that is faster than 2: every event of the orb's body reaches the
    handler, the first one off the far wall starts the return, and the
    handler leaves a returning orb as it is. *)
Section ReturnOnBounce.

Variable onBounce : Vector3 -> Vector3 -> Orb.t -> Orb.t.
Variable far : Vector3 -> bool.
Hypothesis onBounce_far : forall (pos normal : Vector3) (o : Orb.t),
  onBounce pos normal o
  = if far normal
       && negb (OrbState.returning (Orb.state o))
       && negb (OrbState.isHeld (Orb.state o))
    then Main.startReturn o else o.

Variable bodyId : nat.
Variable queue0 : list Bounce.t.
Variable o0 : Orb.t.
Hypothesis o0_returning : OrbState.returning (Orb.state o0) = false.
Hypothesis o0_held : OrbState.isHeld (Orb.state o0) = false.
Hypothesis o0_fast : 2 < THREE.length (OrbState.velocity (Orb.state o0)).

Lemma afterBounces_fast (events : list Bounce.t) :
  2 < THREE.length
        (OrbState.velocity (Orb.state (Main.afterBounces far bodyId events o0))).
Proof.
  unfold Main.afterBounces. destruct (existsb _ events); [| exact o0_fast].
  destruct (startReturn_spec o0) as (_ & Hlen & _); [lra |].
  rewrite Hlen. unfold CONFIG.RETURN_INITIAL_SPEED. lra.
Qed.

Lemma onBounce_afterBounces (b : Bounce.t) (rest : list Bounce.t) :
  Bounce.bodyId b = bodyId ->
  onBounce (Bounce.pos b) (Bounce.normal b) (Main.afterBounces far bodyId rest o0)
  = Main.afterBounces far bodyId (b :: rest) o0.
Proof.
  intros Hb. unfold Main.afterBounces. cbn [existsb]. unfold Main.farWallEvent at 2.
  rewrite Hb, Nat.eqb_refl. cbn [andb]. rewrite onBounce_far.
  destruct (existsb _ rest).
  - cbn [Main.startReturn Orb.state OrbState.returning negb andb].
    rewrite andb_false_r, orb_true_r. reflexivity.
  - rewrite o0_returning, o0_held, orb_false_r. cbn [negb].
    rewrite !andb_true_r. reflexivity.
Qed.

Lemma other_afterBounces (b : Bounce.t) (rest : list Bounce.t) :
  Bounce.bodyId b <> bodyId ->
  Main.afterBounces far bodyId (b :: rest) o0 = Main.afterBounces far bodyId rest o0.
Proof.
  intros Hb. unfold Main.afterBounces. cbn [existsb]. unfold Main.farWallEvent at 1.
  rewrite (proj2 (Nat.eqb_neq _ _) Hb). reflexivity.
Qed.

Lemma drainAt_return (i : nat) (s : Physics.DrainState) :
  Physics.bqLen s = List.length (Physics.queue s) ->
  (S i <= List.length (Physics.queue s))%nat ->
  take (S i) (Physics.queue s) = take (S i) queue0 ->
  Physics.orb s = Main.afterBounces far bodyId (drop (S i) queue0) o0 ->
  let s' := Physics.drainAt onBounce bodyId i s in
  Physics.bqLen s' = List.length (Physics.queue s') /\
  (i <= List.length (Physics.queue s'))%nat /\
  take i (Physics.queue s') = take i queue0 /\
  Physics.orb s' = Main.afterBounces far bodyId (drop i queue0) o0.
Proof.
  intros Hlen Hi Htake Horb. cbv zeta.
  destruct (lookup_lt_is_Some_2 (Physics.queue s) i) as [b Hb]; [lia |].
  assert (Hb0 : queue0 !! i = Some b).
  { rewrite <- (lookup_take_lt queue0 (S i) i) by lia.
    rewrite <- Htake. rewrite lookup_take_lt by lia. exact Hb. }
  assert (Htake' : take i (Physics.queue s) = take i queue0).
  { replace i with (Nat.min i (S i)) by lia.
    rewrite <- !take_take. now rewrite Htake. }
  rewrite (drop_S queue0 b i Hb0).
  unfold Physics.drainAt. rewrite Hb.
  destruct (Nat.eqb_spec (Bounce.bodyId b) bodyId) as [Hown | Hother].
  - rewrite Horb. rewrite (proj2 (gtb_true _ _) (afterBounces_fast _)).
    rewrite (onBounce_afterBounces b _ Hown).
    cbn [Physics.bqLen Physics.queue Physics.orb].
    set (q1 := if (i <? Physics.bqLen s - 1)%nat then _ else _).
    assert (Hq1 : List.length q1 = List.length (Physics.queue s)
                  /\ take i q1 = take i (Physics.queue s)).
    { subst q1. destruct (i <? Physics.bqLen s - 1)%nat; [| auto].
      destruct (Physics.queue s !! (Physics.bqLen s - 1)%nat); [| auto].
      rewrite length_insert. split; [reflexivity |]. now apply take_insert_ge. }
    destruct Hq1 as [Hl1 Ht1].
    rewrite length_take, Hl1, take_take, Hlen.
    replace (Nat.min i (List.length (Physics.queue s) - 1)) with i by lia.
    rewrite Ht1. repeat split; try lia. exact Htake'.
  - rewrite (other_afterBounces b _ Hother).
    repeat split; try assumption; lia.
Qed.

Lemma drainFrom_return (k : nat) :
  forall s : Physics.DrainState,
  Physics.bqLen s = List.length (Physics.queue s) ->
  (k <= List.length (Physics.queue s))%nat ->
  take k (Physics.queue s) = take k queue0 ->
  Physics.orb s = Main.afterBounces far bodyId (drop k queue0) o0 ->
  Physics.orb (Physics.drainFrom onBounce bodyId k s)
  = Main.afterBounces far bodyId queue0 o0.
Proof.
  induction k as [| i IH]; intros s Hlen Hk Htake Horb; [exact Horb |].
  destruct (drainAt_return i s Hlen Hk Htake Horb) as (Hlen' & Hk' & Htake' & Horb').
  simpl. now apply IH.
Qed.

End ReturnOnBounce.

Lemma existsb_Exists {A : Type} (f : A -> bool) (P : A -> Prop) (l : list A) :
  (forall x, f x = true <-> P x) ->
  existsb f l = true <-> Exists P l.
Proof.
  intros Hf. induction l as [| x rest IH]; simpl.
  - split; intros H; [discriminate | inversion H].
  - rewrite orb_true_iff, IH, Hf. split.
    + intros [H | H]; [now constructor 1 | now constructor 2].
    + intros H. inversion H; subst; auto.
Qed.

Lemma farWallEvent_true (far : Vector3 -> bool) (id : nat) (b : Bounce.t) :
  Main.farWallEvent far id b = true <->
  Bounce.bodyId b = id /\ far (Bounce.normal b) = true.
Proof.
  unfold Main.farWallEvent. rewrite andb_true_iff, Nat.eqb_eq. reflexivity.
Qed.

(** What [syncOrbPhysics] leaves of an orb in flight, whatever the handler
    of the two and whatever is queued. *)
Lemma syncOrbPhysics_afterBounces
    (onBounce : Vector3 -> Vector3 -> Orb.t -> Orb.t) (far : Vector3 -> bool)
    (bounceQueue : list Bounce.t) (o : Orb.t) :
  (forall (pos normal : Vector3) (o' : Orb.t),
     onBounce pos normal o'
     = if far normal
          && negb (OrbState.returning (Orb.state o'))
          && negb (OrbState.isHeld (Orb.state o'))
       then Main.startReturn o' else o') ->
  OrbState.isHeld (Orb.state o) = false ->
  OrbState.returning (Orb.state o) = false ->
  (2 < THREE.length (Body.velocity (Orb.body o)) ->
   Physics.orb (Physics.syncOrbPhysics onBounce bounceQueue o)
   = Main.afterBounces far (Body.id (Orb.body o)) bounceQueue (Physics.syncedOrb o)) /\
  (THREE.length (Body.velocity (Orb.body o)) <= 2 ->
   Physics.orb (Physics.syncOrbPhysics onBounce bounceQueue o) = Physics.syncedOrb o) /\
  OrbState.velocity (Orb.state (Physics.syncedOrb o)) = Body.velocity (Orb.body o) /\
  OrbState.returning (Orb.state (Physics.syncedOrb o)) = false.
Proof.
  intros Hon Hheld Hret.
  unfold Physics.syncedOrb, Physics.syncOrbPhysics. rewrite Hheld.
  cbn [Body.id Body.set_velocity Body.set_position].
  match goal with
  | |- context [Physics.drainFrom onBounce ?i ?k ?s0] =>
      set (id := i); set (start := s0)
  end.
  cbn [Physics.drainFrom Physics.orb].
  split; [| split; [| split; [reflexivity | exact Hret]]].
  - intros Hfast.
    apply (drainFrom_return onBounce far Hon id bounceQueue (Physics.orb start)).
    + exact Hret.
    + exact Hheld.
    + exact Hfast.
    + reflexivity.
    + subst start. cbn. lia.
    + reflexivity.
    + rewrite drop_all. reflexivity.
  - intros Hslow.
    destruct (drainFrom_slow onBounce id (List.length bounceQueue) start) as [Eo _];
      [exact Hslow | exact Eo].
Qed.

(** C7, as the specification states it, does not hold for a slow orb: the
    player's orb, in flight at 1 unit/s, has a debounced contact with the
    opponent's back wall in the queue; [syncOrbPhysics] takes the event out
    of the queue without calling the handler, and the orb is not
    returning. *)
Lemma slow_far_wall_bounce_dropped :
  let o :=
    Orb.mk
      (OrbState.mk (vec3 0 1 (-29)) (vec3 0 0 (-1)) false player None 0 0
         false 0 false 0 (vec3 0 0 0) 0)
      (Body.mk 6 (vec3 0 1 (-29.7)) (vec3 0 0 1) (vec3 0 0 0) 0.01) in
  let event := Bounce.mk (vec3 0 1 (-30)) (vec3 0 0 (-1)) 6 in
  let s := Physics.syncOrbPhysics Main.onPlayerOrbBounce [event] o in
  OrbState.isHeld (Orb.state o) = false /\
  OrbState.returning (Orb.state o) = false /\
  Bounce.bodyId event = Body.id (Orb.body o) /\
  THREE.z (Bounce.normal event) < -0.5 /\
  Physics.queue s = [] /\
  OrbState.returning (Orb.state (Physics.orb s)) = false /\
  ~ Main.returnStarted o (Physics.orb s).
Proof.
  intros o event s.
  assert (Hslow : THREE.length (Body.velocity (Orb.body o)) <= 2).
  { simpl. rewrite (length_of_sqr (vec3 0 0 1) 1); [lra | lra | simpl; lra]. }
  assert (Hs : s = Physics.mkDrain 0 [] (Physics.syncedOrb o) []).
  { subst s. unfold Physics.syncedOrb, Physics.syncOrbPhysics.
    cbn [o Orb.state OrbState.isHeld Physics.drainFrom List.length Physics.drainAt
         Physics.queue Physics.orb lookup list_lookup event Bounce.bodyId Orb.body
         Body.id Body.set_velocity Body.set_position Nat.eqb].
    cbn [Orb.state OrbState.velocity OrbState.set_velocity Body.velocity Orb.body o]
      in Hslow |- *.
    rewrite (proj2 (gtb_false _ _) Hslow). reflexivity. }
  rewrite Hs. cbn [Physics.queue Physics.orb].
  repeat split; try reflexivity.
  - simpl. lra.
  - intros (Hret & _). discriminate Hret.
Qed.

(** C7 (amended). Of the bounce events queued for an orb's body,
    [syncOrbPhysics] hands one to the orb's handler only while the orb is
    faster than 2; at that speed or below it drops them and the orb stays
    as the synchronisation left it, not returning.  For an orb in flight
    (not held, not already returning) that is faster than 2, a queued
    contact of its body whose normal points to the far back wall — below
    -0.5 in z for the player's orb, above 0.5 for the opponent's — puts the
    orb in the Returning state, and on that transition its velocity, as
    the physics body had it at the bounce, is rescaled to
    RETURN_INITIAL_SPEED along the same direction, [curveAccel] and
    [curveTimer] are cleared, and the body is parked outside the arena;
    without such a contact in the queue the orb does not start to
    return. *)
Theorem far_wall_bounce_starts_return (bounceQueue : list Bounce.t) (o : Orb.t) :
  OrbState.isHeld (Orb.state o) = false ->
  OrbState.returning (Orb.state o) = false ->
  let id := Body.id (Orb.body o) in
  let speed := THREE.length (Body.velocity (Orb.body o)) in
  let synced := Physics.syncedOrb o in
  let asPlayers :=
    Physics.orb (Physics.syncOrbPhysics Main.onPlayerOrbBounce bounceQueue o) in
  let asOpponents :=
    Physics.orb (Physics.syncOrbPhysics Main.onOpponentOrbBounce bounceQueue o) in
  let farForPlayer (b : Bounce.t) :=
    Bounce.bodyId b = id /\ THREE.z (Bounce.normal b) < -0.5 in
  let farForOpponent (b : Bounce.t) :=
    Bounce.bodyId b = id /\ 0.5 < THREE.z (Bounce.normal b) in
  OrbState.velocity (Orb.state synced) = Body.velocity (Orb.body o) /\
  (2 < speed ->
     (Exists farForPlayer bounceQueue -> Main.returnStarted synced asPlayers) /\
     (Exists farForOpponent bounceQueue -> Main.returnStarted synced asOpponents) /\
     (~ Exists farForPlayer bounceQueue -> asPlayers = synced) /\
     (~ Exists farForOpponent bounceQueue -> asOpponents = synced)) /\
  (speed <= 2 ->
     asPlayers = synced /\ asOpponents = synced /\
     OrbState.returning (Orb.state asPlayers) = false /\
     OrbState.returning (Orb.state asOpponents) = false).
Proof.
  intros Hheld Hret. cbv zeta.
  destruct (syncOrbPhysics_afterBounces Main.onPlayerOrbBounce Main.playerFarWall
              bounceQueue o onPlayerOrbBounce_far Hheld Hret)
    as (Pfast & Pslow & Hvel & Hsr).
  destruct (syncOrbPhysics_afterBounces Main.onOpponentOrbBounce Main.opponentFarWall
              bounceQueue o onOpponentOrbBounce_far Hheld Hret)
    as (Ofast & Oslow & _ & _).
  assert (HP : forall bq,
    Exists (fun b => Bounce.bodyId b = Body.id (Orb.body o)
                     /\ THREE.z (Bounce.normal b) < -0.5) bq
    <-> existsb (Main.farWallEvent Main.playerFarWall (Body.id (Orb.body o))) bq = true).
  { intros bq. symmetry. apply existsb_Exists. intros b.
    rewrite farWallEvent_true. unfold Main.playerFarWall. now rewrite ltb_true. }
  assert (HO : forall bq,
    Exists (fun b => Bounce.bodyId b = Body.id (Orb.body o)
                     /\ 0.5 < THREE.z (Bounce.normal b)) bq
    <-> existsb (Main.farWallEvent Main.opponentFarWall (Body.id (Orb.body o))) bq = true).
  { intros bq. symmetry. apply existsb_Exists. intros b.
    rewrite farWallEvent_true. unfold Main.opponentFarWall. now rewrite gtb_true. }
  split; [exact Hvel |]. split.
  - intros Hfast. rewrite (Pfast Hfast), (Ofast Hfast). unfold Main.afterBounces.
    assert (Hstart : Main.returnStarted (Physics.syncedOrb o)
                       (Main.startReturn (Physics.syncedOrb o)))
      by (apply startReturn_spec; rewrite Hvel; lra).
    split; [| split; [| split]].
    + intros Hex. apply HP in Hex. rewrite Hex. exact Hstart.
    + intros Hex. apply HO in Hex. rewrite Hex. exact Hstart.
    + intros Hex. rewrite HP in Hex. apply not_true_is_false in Hex. now rewrite Hex.
    + intros Hex. rewrite HO in Hex. apply not_true_is_false in Hex. now rewrite Hex.
  - intros Hslow. rewrite (Pslow Hslow), (Oslow Hslow). auto.
Qed.

Lemma far_wall_bounce_starts_return_witness :
  let o :=
    Orb.mk
      (OrbState.mk (vec3 0 1 (-29)) (vec3 0 0 (-40)) false player None 0 0
         false 0 false 0 (vec3 1 0 0) 0.2)
      (Body.mk 6 (vec3 0 1 (-29.7)) (vec3 0 0 40) (vec3 0 0 0) 0.01) in
  let bounceQueue :=
    [Bounce.mk (vec3 5 1 0) (vec3 1 0 0) 7;
     Bounce.mk (vec3 0 1 (-30)) (vec3 0 0 (-1)) 6] in
  Main.returnStarted (Physics.syncedOrb o)
    (Physics.orb (Physics.syncOrbPhysics Main.onPlayerOrbBounce bounceQueue o)).
Proof.
  intros o bounceQueue.
  destruct (far_wall_bounce_starts_return bounceQueue o) as (_ & Hfast & _).
  - reflexivity.
  - reflexivity.
  - destruct Hfast as (Hp & _).
    + simpl. rewrite (length_of_sqr (vec3 0 0 40) 40); [lra | lra | simpl; lra].
    + apply Hp. apply Exists_cons_tl, Exists_cons_hd. split; [reflexivity |].
      simpl. lra.
Defined.


(** * Further properties *)

(** ** server.js: what the primitives leave alone *)

Create Rewrite HintDb server.

Lemma send_queue (ws : option nat) (msg : Server.Msg) (s : Server.State) :
  Server.queue (Server.send ws msg s) = Server.queue s.
Proof. unfold Server.send. destruct ws; [destruct (Server.isOpen _ _) |]; reflexivity. Qed.

Lemma send_playerToRoom (ws : option nat) (msg : Server.Msg) (s : Server.State) :
  Server.playerToRoom (Server.send ws msg s) = Server.playerToRoom s.
Proof. unfold Server.send. destruct ws; [destruct (Server.isOpen _ _) |]; reflexivity. Qed.

Lemma send_rooms (ws : option nat) (msg : Server.Msg) (s : Server.State) :
  Server.rooms (Server.send ws msg s) = Server.rooms s.
Proof. unfold Server.send. destruct ws; [destruct (Server.isOpen _ _) |]; reflexivity. Qed.

Lemma send_nextRoomId (ws : option nat) (msg : Server.Msg) (s : Server.State) :
  Server.nextRoomId (Server.send ws msg s) = Server.nextRoomId s.
Proof. unfold Server.send. destruct ws; [destruct (Server.isOpen _ _) |]; reflexivity. Qed.

Lemma send_openSockets (ws : option nat) (msg : Server.Msg) (s : Server.State) :
  Server.openSockets (Server.send ws msg s) = Server.openSockets s.
Proof. unfold Server.send. destruct ws; [destruct (Server.isOpen _ _) |]; reflexivity. Qed.

Lemma send_pending (ws : option nat) (msg : Server.Msg) (s : Server.State) :
  Server.pending (Server.send ws msg s) = Server.pending s.
Proof. unfold Server.send. destruct ws; [destruct (Server.isOpen _ _) |]; reflexivity. Qed.

Lemma send_nextTimer (ws : option nat) (msg : Server.Msg) (s : Server.State) :
  Server.nextTimer (Server.send ws msg s) = Server.nextTimer s.
Proof. unfold Server.send. destruct ws; [destruct (Server.isOpen _ _) |]; reflexivity. Qed.

Lemma broadcast_queue (room : Server.Room) (msg : Server.Msg) (s : Server.State) :
  Server.queue (Server.broadcast room msg s) = Server.queue s.
Proof. unfold Server.broadcast. now rewrite !send_queue. Qed.

Lemma broadcast_playerToRoom (room : Server.Room) (msg : Server.Msg) (s : Server.State) :
  Server.playerToRoom (Server.broadcast room msg s) = Server.playerToRoom s.
Proof. unfold Server.broadcast. now rewrite !send_playerToRoom. Qed.

Lemma broadcast_rooms (room : Server.Room) (msg : Server.Msg) (s : Server.State) :
  Server.rooms (Server.broadcast room msg s) = Server.rooms s.
Proof. unfold Server.broadcast. now rewrite !send_rooms. Qed.

Lemma broadcast_nextRoomId (room : Server.Room) (msg : Server.Msg) (s : Server.State) :
  Server.nextRoomId (Server.broadcast room msg s) = Server.nextRoomId s.
Proof. unfold Server.broadcast. now rewrite !send_nextRoomId. Qed.

Lemma broadcast_openSockets (room : Server.Room) (msg : Server.Msg) (s : Server.State) :
  Server.openSockets (Server.broadcast room msg s) = Server.openSockets s.
Proof. unfold Server.broadcast. now rewrite !send_openSockets. Qed.

Lemma broadcast_pending (room : Server.Room) (msg : Server.Msg) (s : Server.State) :
  Server.pending (Server.broadcast room msg s) = Server.pending s.
Proof. unfold Server.broadcast. now rewrite !send_pending. Qed.

Lemma broadcast_nextTimer (room : Server.Room) (msg : Server.Msg) (s : Server.State) :
  Server.nextTimer (Server.broadcast room msg s) = Server.nextTimer s.
Proof. unfold Server.broadcast. now rewrite !send_nextTimer. Qed.

#[local] Hint Rewrite send_queue broadcast_queue send_playerToRoom broadcast_playerToRoom send_rooms broadcast_rooms send_nextRoomId broadcast_nextRoomId send_openSockets broadcast_openSockets send_pending broadcast_pending send_nextTimer broadcast_nextTimer : server.

Lemma isOpen_send (w : nat) (ws : option nat) (msg : Server.Msg) (s : Server.State) :
  Server.isOpen w (Server.send ws msg s) = Server.isOpen w s.
Proof. unfold Server.isOpen. now rewrite send_openSockets. Qed.

Lemma isOpen_broadcast (w : nat) (room : Server.Room) (msg : Server.Msg)
    (s : Server.State) :
  Server.isOpen w (Server.broadcast room msg s) = Server.isOpen w s.
Proof. unfold Server.isOpen. now rewrite broadcast_openSockets. Qed.

Lemma rooms_updateRoom (rid : nat) (f : Server.Room -> Server.Room) (s : Server.State) :
  Server.rooms (Server.updateRoom rid f s) = alter f rid (Server.rooms s).
Proof. reflexivity. Qed.

Lemma rooms_pushTimeout (rid : nat) (cb : Server.Callback) (delay : Z)
    (s : Server.State) :
  Server.rooms (Server.pushTimeout rid cb delay s)
  = alter (fun r => Server.set_timers (Server.timers r ++ [Server.nextTimer s]) r)
      rid (Server.rooms s).
Proof. reflexivity. Qed.

Lemma pending_pushTimeout (rid : nat) (cb : Server.Callback) (delay : Z)
    (s : Server.State) :
  Server.pending (Server.pushTimeout rid cb delay s)
  = <[ Server.nextTimer s := (delay, cb) ]> (Server.pending s).
Proof. reflexivity. Qed.

Lemma nextTimer_pushTimeout (rid : nat) (cb : Server.Callback) (delay : Z)
    (s : Server.State) :
  Server.nextTimer (Server.pushTimeout rid cb delay s) = S (Server.nextTimer s).
Proof. reflexivity. Qed.

#[local] Hint Rewrite isOpen_send isOpen_broadcast rooms_updateRoom
  rooms_pushTimeout pending_pushTimeout nextTimer_pushTimeout : server.

(** ** server.js: the server alone awards points *)

Lemma handleHitReport_ignored (rid : nat) (slot : Z) (s : Server.State)
    (room : Server.Room) :
  Server.rooms s !! rid = Some room ->
  Server.phase room <> Server.phPlaying ->
  Server.handleHitReport rid slot s = s.
Proof.
  intros Hroom Hph. unfold Server.handleHitReport. rewrite Hroom.
  destruct (Server.phase room); try reflexivity. contradiction.
Qed.

(** X1. A hit report is acted on only while the room is in the playing
    phase: in any other phase the whole server state stays as it is.  In
    the playing phase the point goes to the other player — the reporter's
    own score is untouched — and the room leaves the playing phase within
    the same call, so a second report arriving right behind it, from
    either player, changes nothing. *)
Theorem server_hit_report_once (rid : nat) (reporterSlot nextSlot : Z)
    (s : Server.State) (room : Server.Room) :
  Server.rooms s !! rid = Some room ->
  let s' := Server.handleHitReport rid reporterSlot s in
  (Server.phase room <> Server.phPlaying -> s' = s) /\
  (Server.phase room = Server.phPlaying ->
     exists room', Server.rooms s' !! rid = Some room' /\
       Server.phase room' <> Server.phPlaying /\
       Server.players room' = Server.players room /\
       Server.scores room'
       = (if (reporterSlot =? 0)%Z
          then (fst (Server.scores room), snd (Server.scores room) + 1)%Z
          else (fst (Server.scores room) + 1, snd (Server.scores room))%Z)) /\
  Server.handleHitReport rid nextSlot s' = s'.
Proof.
  intros Hroom s'.
  assert (Hplay : Server.phase room = Server.phPlaying ->
            exists room', Server.rooms s' !! rid = Some room' /\
              Server.phase room' <> Server.phPlaying /\
              Server.players room' = Server.players room /\
              Server.scores room'
              = (if (reporterSlot =? 0)%Z
                 then (fst (Server.scores room), snd (Server.scores room) + 1)%Z
                 else (fst (Server.scores room) + 1, snd (Server.scores room))%Z)).
  { intros Hph. subst s'. unfold Server.handleHitReport. rewrite Hroom, Hph.
    unfold Server.bump.
    destruct (reporterSlot =? 0)%Z; simpl;
      repeat match goal with
      | |- context [(?a <=? ?b)%Z] => destruct (Z.leb_spec a b); simpl
      end;
      autorewrite with server; rewrite ?lookup_alter_eq, Hroom; simpl;
      eexists; (split; [reflexivity |]); simpl; auto. }
  split; [| split; [exact Hplay |]].
  - intros Hph. exact (handleHitReport_ignored rid reporterSlot s room Hroom Hph).
  - destruct (Server.phase room) eqn:Hph;
      try (assert (E : s' = s)
             by (apply (handleHitReport_ignored rid reporterSlot s room Hroom);
                 rewrite Hph; discriminate);
           rewrite E;
           apply (handleHitReport_ignored rid nextSlot s room Hroom);
           rewrite Hph; discriminate).
    destruct (Hplay eq_refl) as (room' & Hr' & Hph' & _).
    exact (handleHitReport_ignored rid nextSlot s' room' Hr' Hph').
Qed.

Lemma server_hit_report_once_witness :
  let s := Server.run Server.openingEvents Server.initial in
  exists room', Server.rooms (Server.handleHitReport 1 0 s) !! 1%nat = Some room' /\
    Server.scores room' = (0, 1)%Z /\
    Server.handleHitReport 1 1 (Server.handleHitReport 1 0 s)
    = Server.handleHitReport 1 0 s.
Proof.
  intros s.
  destruct (server_hit_report_once 1 0 1 s
              (Server.mkRoom 1 (Some 10%nat, Some 20%nat) (0, 0)%Z (0, 0)%Z 1%Z
                 Server.phPlaying [1%nat; 2%nat; 3%nat]))
    as (_ & Hplay & Hagain).
  - vm_compute. reflexivity.
  - destruct (Hplay eq_refl) as (room' & Hr & _ & _ & Hsc).
    exists room'. split; [exact Hr |]. split; [exact Hsc | exact Hagain].
Defined.

(** ** server.js: matchmaking *)

(** The backwards splice loop drops exactly the sockets that are not open
    and keeps the others in order. *)
Lemma pruneFrom_split (s : Server.State) (k : nat) :
  forall front back : list nat,
  List.length front = k ->
  Forall (fun w => w ∈ Server.openSockets s) back ->
  Server.pruneFrom k s (front ++ back)
  = filter (fun w => w ∈ Server.openSockets s) front ++ back.
Proof.
  induction k as [| i IH]; intros front back Hlen Hback.
  - destruct front; [reflexivity | discriminate].
  - destruct (exists_last (l := front)) as (front' & w & ->).
    { intros ->. discriminate. }
    rewrite length_app in Hlen. simpl in Hlen.
    assert (Hi : List.length front' = i) by lia.
    simpl. rewrite <- app_assoc. simpl.
    rewrite <- Hi at 2. rewrite list_lookup_middle by reflexivity.
    rewrite filter_app. unfold Server.isOpen.
    destruct (decide (w ∈ Server.openSockets s)) as [Hw | Hw].
    + rewrite bool_decide_eq_true_2 by exact Hw.
      rewrite (IH front' (w :: back) Hi) by (constructor; assumption).
      rewrite filter_cons_True by exact Hw. rewrite filter_nil.
      now rewrite <- app_assoc.
    + rewrite bool_decide_eq_false_2 by exact Hw.
      replace (delete i (front' ++ w :: back)) with (front' ++ back)
        by (rewrite <- Hi; symmetry; apply delete_middle).
      rewrite (IH front' back Hi Hback).
      rewrite filter_cons_False by exact Hw. rewrite filter_nil.
      now rewrite app_nil_r.
Qed.

Lemma pruneFrom_filter (s : Server.State) (q : list nat) :
  Server.pruneFrom (List.length q) s q
  = filter (fun w => w ∈ Server.openSockets s) q.
Proof.
  rewrite <- (app_nil_r q) at 2.
  rewrite (pruneFrom_split s (List.length q) q []) by (auto; constructor).
  apply app_nil_r.
Qed.

Lemma createRoom_fields (ws1 ws2 : nat) (s : Server.State) :
  Server.queue (Server.createRoom ws1 ws2 s) = Server.queue s /\
  Server.openSockets (Server.createRoom ws1 ws2 s) = Server.openSockets s /\
  Server.nextRoomId (Server.createRoom ws1 ws2 s) = S (Server.nextRoomId s) /\
  Server.playerToRoom (Server.createRoom ws1 ws2 s)
  = <[ ws2 := Server.nextRoomId s ]>
      (<[ ws1 := Server.nextRoomId s ]> (Server.playerToRoom s)) /\
  Server.rooms (Server.createRoom ws1 ws2 s)
  = <[ Server.nextRoomId s :=
         Server.mkRoom (Server.nextRoomId s) (Some ws1, Some ws2) (0, 0)%Z (0, 0)%Z
           1%Z Server.phWaiting [] ]> (Server.rooms s) /\
  Server.pending (Server.createRoom ws1 ws2 s)
  = <[ Server.nextTimer s := (500%Z, Server.StartCountdown (Server.nextRoomId s)) ]>
      (Server.pending s) /\
  Server.nextTimer (Server.createRoom ws1 ws2 s) = S (Server.nextTimer s).
Proof.
  unfold Server.createRoom, Server.setTimeout, Server.send. cbv zeta.
  destruct (Server.isOpen ws1 _); destruct (Server.isOpen ws2 _);
    repeat split; reflexivity.
Qed.

(** On a queue of open, distinct sockets the pairing loop pairs the
    sockets two by two in queue order, one fresh room per pair. *)
Lemma matchLoop_pairs (n : nat) :
  forall (q : list nat) (s : Server.State),
  List.length q = n ->
  Forall (fun w => w ∈ Server.openSockets s) q -> NoDup q ->
  let r := Server.matchLoop q s in
  fst r = drop (2 * (List.length q / 2)) q /\
  Server.nextRoomId (snd r) = (Server.nextRoomId s + List.length q / 2)%nat /\
  Server.openSockets (snd r) = Server.openSockets s /\
  (forall w, w ∉ q -> Server.playerToRoom (snd r) !! w = Server.playerToRoom s !! w) /\
  (forall rid, (rid < Server.nextRoomId s)%nat ->
     Server.rooms (snd r) !! rid = Server.rooms s !! rid) /\
  (forall k a b, q !! (2 * k)%nat = Some a -> q !! (2 * k + 1)%nat = Some b ->
     let rid := (Server.nextRoomId s + k)%nat in
     Server.playerToRoom (snd r) !! a = Some rid /\
     Server.playerToRoom (snd r) !! b = Some rid /\
     Server.rooms (snd r) !! rid
     = Some (Server.mkRoom rid (Some a, Some b) (0, 0)%Z (0, 0)%Z 1%Z
               Server.phWaiting [])).
Proof.
  induction n as [n IH] using lt_wf_ind. intros q s Hn Hopen Hnd.
  destruct q as [| a [| b rest]].
  - simpl. repeat split; intros; try discriminate; auto; lia.
  - simpl. repeat split; intros; auto; try lia;
      repeat match goal with
      | H : _ !! _ = Some _ |- _ => apply lookup_lt_Some in H; simpl in H
      end; lia.
  - cbv zeta. simpl Server.matchLoop.
    apply Forall_cons in Hopen as [Ha Hopen]. apply Forall_cons in Hopen as [Hb Hopen].
    apply NoDup_cons in Hnd as [Hab Hnd]. apply NoDup_cons in Hnd as [Hbr Hnd].
    unfold Server.isOpen.
    rewrite !bool_decide_eq_true_2 by assumption. cbn [andb].
    destruct (createRoom_fields a b s) as (Cq & Co & Cn & Cp & Cr & _).
    set (s1 := Server.createRoom a b s) in *.
    assert (Hlen : (List.length rest < n)%nat) by (simpl in Hn; lia).
    destruct (IH (List.length rest) Hlen rest s1 eq_refl) as (R1 & R2 & R3 & R4 & R5 & R6).
    { now rewrite Co. }
    { exact Hnd. }
    assert (Hdiv : (List.length (a :: b :: rest) / 2 = S (List.length rest / 2))%nat).
    { simpl List.length.
      change (S (S (List.length rest))) with (1 * 2 + List.length rest)%nat.
      rewrite Nat.div_add_l by lia. lia. }
    rewrite Hdiv.
    split; [| split; [| split; [| split; [| split]]]].
    + rewrite R1. replace (2 * S (List.length rest / 2))%nat
        with (S (S (2 * (List.length rest / 2)))) by lia. reflexivity.
    + rewrite R2, Cn. lia.
    + now rewrite R3.
    + intros w Hw. apply not_elem_of_cons in Hw as [Hwa Hw].
      apply not_elem_of_cons in Hw as [Hwb Hw].
      rewrite R4 by exact Hw. rewrite Cp.
      rewrite !lookup_insert_ne by congruence. reflexivity.
    + intros rid Hrid. rewrite R5 by lia. rewrite Cr.
      now rewrite lookup_insert_ne by lia.
    + intros k a0 b0 H H0. cbv zeta. destruct k as [| k].
      * simpl in H, H0. injection H as <-. injection H0 as <-.
        replace (Server.nextRoomId s + 0)%nat with (Server.nextRoomId s) by lia.
        apply not_elem_of_cons in Hab as [Hab Har].
        rewrite !R4 by assumption. rewrite R5 by lia. rewrite Cp, Cr.
        rewrite (lookup_insert_ne _ b a) by congruence.
        rewrite !lookup_insert_eq. auto.
      * replace (2 * S k)%nat with (S (S (2 * k))) in H by lia.
        replace (2 * S k + 1)%nat with (S (S (2 * k + 1))) in H0 by lia.
        simpl in H, H0. destruct (R6 k a0 b0 H H0) as (P1 & P2 & P3).
        rewrite Cn in P1, P2, P3.
        replace (Server.nextRoomId s + S k)%nat with (S (Server.nextRoomId s) + k)%nat
          by lia.
        auto.
Qed.

Lemma updateQueuePositions_outbox_only (s : Server.State) :
  Server.queue (Server.updateQueuePositions s) = Server.queue s /\
  Server.playerToRoom (Server.updateQueuePositions s) = Server.playerToRoom s /\
  Server.rooms (Server.updateQueuePositions s) = Server.rooms s /\
  Server.nextRoomId (Server.updateQueuePositions s) = Server.nextRoomId s /\
  Server.openSockets (Server.updateQueuePositions s) = Server.openSockets s /\
  Server.pending (Server.updateQueuePositions s) = Server.pending s /\
  Server.nextTimer (Server.updateQueuePositions s) = Server.nextTimer s.
Proof.
  unfold Server.updateQueuePositions.
  generalize (imap pair (Server.queue s)) as entries.
  generalize (List.length (Server.queue s)) as total.
  intros total entries. revert s.
  induction entries as [| e rest IH]; intros s; simpl; [repeat split; reflexivity |].
  destruct (IH (Server.sendQueued total s e)) as (H1 & H2 & H3 & H4 & H5 & H6 & H7).
  unfold Server.sendQueued in *.
  rewrite H1, H2, H3, H4, H5, H6, H7. autorewrite with server. repeat split; reflexivity.
Qed.

(** X2. [tryMatch] takes the dead sockets out of the queue and pairs the
    live ones two by two in arrival order: the k-th pair shares one fresh
    room, numbered from [nextRoomId] on, with the earlier arrival in slot 0,
    scores and rounds at zero and the phase waiting; at most one socket is
    left queued. *)
Theorem tryMatch_pairs_in_arrival_order (s : Server.State) :
  NoDup (Server.queue s) ->
  let live := filter (fun w => w ∈ Server.openSockets s) (Server.queue s) in
  let s' := Server.tryMatch s in
  Server.queue s' = drop (2 * (List.length live / 2)) live /\
  (List.length (Server.queue s') <= 1)%nat /\
  forall k a b, live !! (2 * k)%nat = Some a -> live !! (2 * k + 1)%nat = Some b ->
    let rid := (Server.nextRoomId s + k)%nat in
    Server.playerToRoom s' !! a = Some rid /\
    Server.playerToRoom s' !! b = Some rid /\
    Server.rooms s' !! rid
    = Some (Server.mkRoom rid (Some a, Some b) (0, 0)%Z (0, 0)%Z 1%Z
              Server.phWaiting []).
Proof.
  intros Hnd live s'. subst s'. unfold Server.tryMatch.
  rewrite pruneFrom_filter. fold live.
  assert (Hlive : Forall (fun w => w ∈ Server.openSockets s) live).
  { apply Forall_forall. intros w Hw. subst live.
    apply list_elem_of_filter in Hw. tauto. }
  assert (Hnd' : NoDup live) by (subst live; now apply NoDup_filter).
  pose proof (matchLoop_pairs (List.length live) live s eq_refl Hlive Hnd') as H.
  cbv zeta in H. destruct (Server.matchLoop live s) as [remaining s1].
  cbn [fst snd] in H. destruct H as (R1 & _ & _ & _ & _ & R6).
  destruct (updateQueuePositions_outbox_only (Server.set_queue remaining s1))
    as (U1 & U2 & U3 & _).
  rewrite U1, U2, U3.
  cbn [Server.queue Server.set_queue Server.playerToRoom Server.rooms].
  split; [exact R1 |]. split.
  - rewrite R1, length_drop.
    pose proof (Nat.div_mod_eq (List.length live) 2) as E.
    assert (B : (List.length live mod 2 < 2)%nat) by (apply Nat.mod_upper_bound; lia).
    lia.
  - exact R6.
Qed.

Lemma tryMatch_pairs_in_arrival_order_witness :
  let s :=
    Server.set_queue [10; 20; 30; 40; 50]%nat
      (Server.set_openSockets {[ 10; 20; 40; 50 ]}%nat Server.initial) in
  Server.queue (Server.tryMatch s) = [] /\
  Server.playerToRoom (Server.tryMatch s) !! 40%nat = Some 2%nat /\
  Server.playerToRoom (Server.tryMatch s) !! 50%nat = Some 2%nat.
Proof.
  intros s.
  destruct (tryMatch_pairs_in_arrival_order s) as (Hq & _ & Hpairs).
  - apply (bool_decide_unpack (NoDup _)). vm_compute. exact I.
  - split; [rewrite Hq; vm_compute; reflexivity |].
    destruct (Hpairs 1%nat 40%nat 50%nat) as (Ha & Hb & _);
      [vm_compute; reflexivity | vm_compute; reflexivity |].
    split; [exact Ha | exact Hb].
Defined.

(** ** server.js: tearing a room down *)

Lemma lookup_clearTimeouts {V : Type} (ts : list nat) :
  forall (p : gmap nat V) (t : nat),
  fold_left (fun p t => delete t p) ts p !! t
  = if bool_decide (t ∈ ts) then None else p !! t.
Proof.
  induction ts as [| t0 ts IH]; intros p t; simpl.
  - reflexivity.
  - rewrite IH. destruct (decide (t ∈ ts)) as [Hin | Hin].
    + rewrite (bool_decide_eq_true_2 (t ∈ ts)) by exact Hin.
      rewrite (bool_decide_eq_true_2 (t ∈ t0 :: ts))
        by (apply elem_of_cons; now right).
      reflexivity.
    + rewrite (bool_decide_eq_false_2 (t ∈ ts)) by exact Hin.
      destruct (decide (t = t0)) as [-> | Hne].
      * rewrite (bool_decide_eq_true_2 (t0 ∈ t0 :: ts))
          by (apply elem_of_cons; now left).
        apply lookup_delete_eq.
      * rewrite (bool_decide_eq_false_2 (t ∈ t0 :: ts))
          by (intros [? | ?]%elem_of_cons; contradiction).
        now apply lookup_delete_ne.
Qed.

Lemma destroyRoom_fields (rid : nat) (s : Server.State) (room : Server.Room) :
  Server.rooms s !! rid = Some room ->
  let s' := Server.destroyRoom rid s in
  Server.queue s' = Server.queue s /\
  Server.openSockets s' = Server.openSockets s /\
  Server.nextRoomId s' = Server.nextRoomId s /\
  Server.nextTimer s' = Server.nextTimer s /\
  Server.outbox s' = Server.outbox s /\
  Server.rooms s'
  = <[ rid := Server.set_players (None, None) (Server.set_timers [] room) ]>
      (Server.rooms s) /\
  Server.playerToRoom s'
  = Server.deletePlayer (snd (Server.players room))
      (Server.deletePlayer (fst (Server.players room)) (Server.playerToRoom s)) /\
  Server.pending s'
  = fold_left (fun p t => delete t p) (Server.timers room) (Server.pending s).
Proof.
  intros Hroom. unfold Server.destroyRoom. rewrite Hroom. cbv zeta.
  repeat split; try reflexivity.
  simpl. apply map_eq. intros i. destruct (decide (i = rid)) as [-> | Hne].
  - rewrite lookup_alter_eq, lookup_insert_eq, Hroom. reflexivity.
  - rewrite lookup_alter_ne, lookup_insert_ne by congruence. reflexivity.
Qed.

(** X3. Winner stays on.  When the match-end callback runs for a room whose
    two players are both still connected, the room is destroyed, the loser
    joins the back of the queue, and the winner is at once paired — in
    slot 0 of a fresh room — with whoever is then first in the queue: the
    longest-waiting client, or the loser again when nobody was waiting. *)
Theorem handleMatchEnd_winner_stays_on (rid : nat) (s : Server.State)
    (room : Server.Room) (a b : nat) :
  Server.rooms s !! rid = Some room ->
  Server.players room = (Some a, Some b) ->
  a <> b -> a ∈ Server.openSockets s -> b ∈ Server.openSockets s ->
  (rid < Server.nextRoomId s)%nat ->
  let aWon := (Server.ROUNDS_TO_WIN <=? fst (Server.rounds room))%Z in
  let winner := if aWon then a else b in
  let loser := if aWon then b else a in
  winner ∉ Server.queue s ->
  let s' := Server.handleMatchEnd rid s in
  let challenger := hd loser (Server.queue s) in
  Server.queue s' = tl (Server.queue s ++ [loser]) /\
  Server.playerToRoom s' !! winner = Some (Server.nextRoomId s) /\
  Server.rooms s' !! Server.nextRoomId s
  = Some (Server.mkRoom (Server.nextRoomId s) (Some winner, Some challenger)
            (0, 0)%Z (0, 0)%Z 1%Z Server.phWaiting []) /\
  Server.rooms s' !! rid
  = Some (Server.set_players (None, None) (Server.set_timers [] room)).
Proof.
  intros Hroom Hplayers Hab Ha Hb Hrid aWon winner loser Hq. cbv zeta.
  unfold Server.handleMatchEnd. rewrite Hroom. cbv zeta. fold aWon.
  destruct (destroyRoom_fields rid s room Hroom) as (Dq & Do & Dn & _ & _ & Dr & _ & _).
  set (s1 := Server.destroyRoom rid s) in *.
  rewrite Hplayers. cbn [fst snd].
  assert (Hl : (if aWon then Some b else Some a) = Some loser)
    by (subst loser; now destruct aWon).
  assert (Hw : (if aWon then Some a else Some b) = Some winner)
    by (subst winner; now destruct aWon).
  rewrite Hl, Hw.
  assert (Hlo : Server.isOpen loser s1 = true).
  { unfold Server.isOpen. rewrite Do. apply bool_decide_eq_true_2.
    subst loser. now destruct aWon. }
  rewrite Hlo.
  assert (Hwo : Server.isOpen winner (Server.set_queue (Server.queue s1 ++ [loser]) s1)
                = true).
  { unfold Server.isOpen. simpl. rewrite Do. apply bool_decide_eq_true_2.
    subst winner. now destruct aWon. }
  rewrite Hwo. cbn [Server.queue Server.set_queue]. rewrite Dq.
  assert (Hwl : winner <> loser) by (subst winner loser; destruct aWon; congruence).
  assert (Hhead : exists rest, Server.queue s ++ [loser]
                               = hd loser (Server.queue s) :: rest
                               /\ rest = tl (Server.queue s ++ [loser])
                               /\ hd loser (Server.queue s) <> winner).
  { destruct (Server.queue s) as [| c rest] eqn:Eq; simpl.
    - exists []. auto.
    - exists (rest ++ [loser]). repeat split; auto.
      intros ->. apply Hq. now left. }
  destruct Hhead as (rest & Ehd & Erest & Hne). rewrite Ehd.
  rewrite bool_decide_eq_true_2 by exact Hne.
  set (s2 := Server.set_queue rest (Server.set_queue (hd loser (Server.queue s) :: rest) s1)).
  destruct (createRoom_fields winner (hd loser (Server.queue s)) s2)
    as (Cq & _ & _ & Cp & Cr & _).
  destruct (updateQueuePositions_outbox_only
              (Server.createRoom winner (hd loser (Server.queue s)) s2))
    as (U1 & U2 & U3 & _).
  rewrite U1, U2, U3, Cq, Cp, Cr.
  subst s2. cbn [Server.queue Server.set_queue Server.nextRoomId Server.rooms
                 Server.playerToRoom].
  rewrite Dn, Dr. repeat split.
  - rewrite lookup_insert_ne by congruence. apply lookup_insert_eq.
  - apply lookup_insert_eq.
  - rewrite lookup_insert_ne by lia. apply lookup_insert_eq.
Qed.

Lemma handleMatchEnd_winner_stays_on_witness :
  let room :=
    Server.mkRoom 1 (Some 10%nat, Some 20%nat) (7, 3)%Z (2, 0)%Z 2%Z
      Server.phMatchOver [5%nat] in
  let s :=
    Server.mkState [30%nat] {[ 10%nat := 1%nat; 20%nat := 1%nat ]}
      {[ 1%nat := room ]} 2 {[ 10; 20; 30 ]}%nat ∅ 6 [] in
  let s' := Server.handleMatchEnd 1 s in
  Server.queue s' = [20%nat] /\
  Server.playerToRoom s' !! 10%nat = Some 2%nat /\
  Server.rooms s' !! 2%nat
  = Some (Server.mkRoom 2 (Some 10%nat, Some 30%nat) (0, 0)%Z (0, 0)%Z 1%Z
            Server.phWaiting []).
Proof.
  intros room s s'.
  destruct (handleMatchEnd_winner_stays_on 1 s room 10 20) as (Hq & Hp & Hr & _).
  - vm_compute. reflexivity.
  - reflexivity.
  - discriminate.
  - apply (bool_decide_unpack (_ ∈ _)). vm_compute. exact I.
  - apply (bool_decide_unpack (_ ∈ _)). vm_compute. exact I.
  - simpl. lia.
  - apply (bool_decide_unpack (_ ∉ _)). vm_compute. exact I.
  - split; [exact Hq | split; [exact Hp | exact Hr]].
Defined.

(** ** server.js: the bookkeeping of rooms and timers *)

Lemma wellFormed_ext (s s' : Server.State) :
  Server.rooms s' = Server.rooms s ->
  Server.pending s' = Server.pending s ->
  Server.playerToRoom s' = Server.playerToRoom s ->
  Server.nextRoomId s' = Server.nextRoomId s ->
  Server.wellFormed s -> Server.wellFormed s'.
Proof.
  intros Hr Hp Hm Hn (Ht & Hb & Ho).
  unfold Server.wellFormed, Server.timersTracked, Server.roomsBelowNext,
    Server.mappedToOwnRoom.
  rewrite Hr, Hp, Hm, Hn. auto.
Qed.

Lemma wellFormed_send (ws : option nat) (msg : Server.Msg) (s : Server.State) :
  Server.wellFormed s -> Server.wellFormed (Server.send ws msg s).
Proof. apply wellFormed_ext; now autorewrite with server. Qed.

Lemma wellFormed_broadcast (room : Server.Room) (msg : Server.Msg) (s : Server.State) :
  Server.wellFormed s -> Server.wellFormed (Server.broadcast room msg s).
Proof. apply wellFormed_ext; now autorewrite with server. Qed.

Lemma wellFormed_updateQueuePositions (s : Server.State) :
  Server.wellFormed s -> Server.wellFormed (Server.updateQueuePositions s).
Proof.
  destruct (updateQueuePositions_outbox_only s) as (_ & H2 & H3 & H4 & _ & H6 & _).
  now apply wellFormed_ext.
Qed.

Lemma wellFormed_set_queue (q : list nat) (s : Server.State) :
  Server.wellFormed s -> Server.wellFormed (Server.set_queue q s).
Proof. now apply wellFormed_ext. Qed.

Lemma wellFormed_set_openSockets (o : gset nat) (s : Server.State) :
  Server.wellFormed s -> Server.wellFormed (Server.set_openSockets o s).
Proof. now apply wellFormed_ext. Qed.

Lemma wellFormed_updateRoom (rid : nat) (f : Server.Room -> Server.Room)
    (s : Server.State) :
  (forall r, Server.players (f r) = Server.players r) ->
  (forall r, Server.timers (f r) = Server.timers r) ->
  Server.wellFormed s -> Server.wellFormed (Server.updateRoom rid f s).
Proof.
  intros Hpl Htm (Ht & Hb & Ho). split; [| split].
  - intros t d cb Hp.
    destruct (Ht t d cb Hp) as [Hs | (room & Hroom & Hin)]; [now left | right].
    rewrite rooms_updateRoom.
    destruct (decide (Server.roomOf cb = rid)) as [<- | Hne].
    + exists (f room). rewrite lookup_alter_eq, Hroom. rewrite Htm. auto.
    + exists room. rewrite lookup_alter_ne by congruence. auto.
  - intros r Hr. rewrite rooms_updateRoom.
    destruct (decide (r = rid)) as [-> | Hne].
    + rewrite lookup_alter_eq, (Hb rid Hr). reflexivity.
    + rewrite lookup_alter_ne by congruence. now apply Hb.
  - intros ws r Hm. rewrite rooms_updateRoom.
    destruct (Ho ws r Hm) as (room & Hroom & Hin).
    destruct (decide (r = rid)) as [-> | Hne].
    + exists (f room). rewrite lookup_alter_eq, Hroom. rewrite Hpl. auto.
    + exists room. rewrite lookup_alter_ne by congruence. auto.
Qed.

Lemma wellFormed_pushTimeout (rid : nat) (cb : Server.Callback) (d : Z)
    (s : Server.State) :
  Server.roomOf cb = rid -> is_Some (Server.rooms s !! rid) ->
  Server.wellFormed s -> Server.wellFormed (Server.pushTimeout rid cb d s).
Proof.
  intros Hcb [room Hroom] (Ht & Hb & Ho). split; [| split].
  - intros t d' cb'. rewrite pending_pushTimeout, rooms_pushTimeout.
    destruct (decide (t = Server.nextTimer s)) as [-> | Hne].
    + rewrite lookup_insert_eq. intros [= <- <-]. right. rewrite Hcb.
      eexists. rewrite lookup_alter_eq, Hroom. split; [reflexivity |].
      cbn. apply elem_of_app. right. apply elem_of_cons. now left.
    + rewrite lookup_insert_ne by congruence. intros Hp.
      destruct (Ht t d' cb' Hp) as [Hs | (room' & Hroom' & Hin)]; [now left | right].
      destruct (decide (Server.roomOf cb' = rid)) as [He | Hnr].
      * eexists. rewrite He in *. rewrite lookup_alter_eq, Hroom'. split; [reflexivity |].
        cbn. apply elem_of_app. now left.
      * exists room'. rewrite lookup_alter_ne by congruence. auto.
  - intros r Hr. rewrite rooms_pushTimeout.
    destruct (decide (r = rid)) as [-> | Hne].
    + rewrite (Hb rid Hr) in Hroom. discriminate.
    + rewrite lookup_alter_ne by congruence. now apply Hb.
  - intros ws r Hm. rewrite rooms_pushTimeout.
    destruct (Ho ws r Hm) as (room' & Hroom' & Hin).
    destruct (decide (r = rid)) as [-> | Hne].
    + eexists. rewrite lookup_alter_eq, Hroom'. split; [reflexivity | exact Hin].
    + exists room'. rewrite lookup_alter_ne by congruence. auto.
Qed.

Lemma wellFormed_createRoom (ws1 ws2 : nat) (s : Server.State) :
  Server.wellFormed s -> Server.wellFormed (Server.createRoom ws1 ws2 s).
Proof.
  intros (Ht & Hb & Ho).
  destruct (createRoom_fields ws1 ws2 s) as (_ & _ & Cn & Cm & Cr & Cp & _).
  assert (Hfresh : Server.rooms s !! Server.nextRoomId s = None) by (apply Hb; lia).
  unfold Server.wellFormed, Server.timersTracked, Server.roomsBelowNext,
    Server.mappedToOwnRoom.
  rewrite Cn, Cm, Cr, Cp. split; [| split].
  - intros t d cb. destruct (decide (t = Server.nextTimer s)) as [-> | Hne].
    + rewrite lookup_insert_eq. intros [= <- <-]. left. eauto.
    + rewrite lookup_insert_ne by congruence. intros Hp.
      destruct (Ht t d cb Hp) as [Hs | (room & Hroom & Hin)]; [now left | right].
      exists room. rewrite lookup_insert_ne by congruence. auto.
  - intros r Hr. rewrite lookup_insert_ne by lia. apply Hb. lia.
  - intros ws r. destruct (decide (ws = ws2)) as [-> | Hne2].
    { rewrite lookup_insert_eq. intros [= <-]. eexists.
      rewrite lookup_insert_eq. split; [reflexivity | now right]. }
    rewrite lookup_insert_ne by congruence.
    destruct (decide (ws = ws1)) as [-> | Hne1].
    { rewrite lookup_insert_eq. intros [= <-]. eexists.
      rewrite lookup_insert_eq. split; [reflexivity | now left]. }
    rewrite lookup_insert_ne by congruence. intros Hm.
    destruct (Ho ws r Hm) as (room & Hroom & Hin).
    exists room. rewrite lookup_insert_ne by congruence. auto.
Qed.

Lemma lookup_deletePlayer (o : option nat) (m : gmap nat nat) (ws r : nat) :
  Server.deletePlayer o m !! ws = Some r -> m !! ws = Some r /\ o <> Some ws.
Proof.
  destruct o as [w |]; simpl; [| now split].
  intros [Hne Hm]%lookup_delete_Some. split; [exact Hm | congruence].
Qed.

Lemma wellFormed_destroyRoom (rid : nat) (s : Server.State) :
  Server.wellFormed s -> Server.wellFormed (Server.destroyRoom rid s).
Proof.
  intros (Ht & Hb & Ho).
  destruct (Server.rooms s !! rid) as [room |] eqn:Hroom;
    [| unfold Server.destroyRoom; rewrite Hroom; now repeat split].
  destruct (destroyRoom_fields rid s room Hroom) as (_ & _ & Dn & _ & _ & Dr & Dm & Dp).
  unfold Server.wellFormed, Server.timersTracked, Server.roomsBelowNext,
    Server.mappedToOwnRoom.
  rewrite Dn, Dr, Dm, Dp. split; [| split].
  - intros t d cb. rewrite lookup_clearTimeouts.
    destruct (decide (t ∈ Server.timers room)) as [Hin | Hnin].
    { rewrite (bool_decide_eq_true_2 _ Hin). discriminate. }
    rewrite (bool_decide_eq_false_2 _ Hnin). intros Hp.
    destruct (Ht t d cb Hp) as [Hs | (room' & Hroom' & Hin')]; [now left | right].
    destruct (decide (Server.roomOf cb = rid)) as [He | Hne].
    + rewrite He, Hroom in Hroom'. injection Hroom' as <-. contradiction.
    + exists room'. rewrite lookup_insert_ne by congruence. auto.
  - intros r Hr. destruct (decide (r = rid)) as [-> | Hne].
    + rewrite (Hb rid Hr) in Hroom. discriminate.
    + rewrite lookup_insert_ne by congruence. now apply Hb.
  - intros ws r Hm.
    apply lookup_deletePlayer in Hm as [Hm Hsnd].
    apply lookup_deletePlayer in Hm as [Hm Hfst].
    destruct (Ho ws r Hm) as (room' & Hroom' & Hin).
    destruct (decide (r = rid)) as [-> | Hne].
    + rewrite Hroom in Hroom'. injection Hroom' as <-. tauto.
    + exists room'. rewrite lookup_insert_ne by congruence. auto.
Qed.

Lemma wellFormed_cancel (t : nat) (s : Server.State) :
  Server.wellFormed s ->
  Server.wellFormed (Server.set_pending (delete t (Server.pending s)) s).
Proof.
  intros (Ht & Hb & Ho). split; [| split]; [| exact Hb | exact Ho].
  intros t' d cb Hp. cbn in Hp. apply lookup_delete_Some in Hp as [_ Hp].
  exact (Ht t' d cb Hp).
Qed.

Ltac room_there Hroom :=
  autorewrite with server; rewrite ?lookup_alter_eq, Hroom; cbn; eauto.

Ltac wf_chain Hroom :=
  repeat first
    [ assumption
    | apply wellFormed_pushTimeout; [reflexivity | room_there Hroom |]
    | apply wellFormed_broadcast
    | apply wellFormed_send
    | apply wellFormed_updateQueuePositions
    | apply wellFormed_set_queue
    | apply wellFormed_set_openSockets
    | apply wellFormed_createRoom
    | apply wellFormed_destroyRoom
    | apply wellFormed_cancel
    | apply wellFormed_updateRoom; [intros; reflexivity | intros; reflexivity |] ].

Lemma wellFormed_startCountdown (rid : nat) (s : Server.State) :
  Server.wellFormed s -> Server.wellFormed (Server.startCountdown rid s).
Proof.
  intros Hwf. unfold Server.startCountdown.
  destruct (Server.rooms s !! rid) as [room |] eqn:Hroom; [| exact Hwf].
  destruct (negb (Server.bothPresent room)); [exact Hwf |]. cbv zeta.
  wf_chain Hroom.
Qed.

Lemma wellFormed_tick (rid : nat) (timer : Z) (s : Server.State) :
  Server.wellFormed s -> Server.wellFormed (Server.tick rid timer s).
Proof.
  intros Hwf. unfold Server.tick.
  destruct (Server.rooms s !! rid) as [room |] eqn:Hroom; [| exact Hwf].
  cbv zeta. destruct (0 <? timer - 1)%Z; wf_chain Hroom.
Qed.

Lemma wellFormed_handleHitReport (rid : nat) (slot : Z) (s : Server.State) :
  Server.wellFormed s -> Server.wellFormed (Server.handleHitReport rid slot s).
Proof.
  intros Hwf. unfold Server.handleHitReport.
  destruct (Server.rooms s !! rid) as [room |] eqn:Hroom; [| exact Hwf].
  destruct (Server.phase room); try exact Hwf. cbv zeta.
  destruct (_ || _); [destruct (_ || _) |]; wf_chain Hroom.
Qed.

Lemma wellFormed_handleMatchEnd (rid : nat) (s : Server.State) :
  Server.wellFormed s -> Server.wellFormed (Server.handleMatchEnd rid s).
Proof.
  intros Hwf. unfold Server.handleMatchEnd.
  destruct (Server.rooms s !! rid) as [room |] eqn:Hroom; [| exact Hwf].
  cbv zeta. apply wellFormed_updateQueuePositions.
  set (s2 := match (if (_ <=? _)%Z then snd _ else fst _) with
             | Some _ => _ | None => _ end).
  assert (Hs2 : Server.wellFormed s2).
  { subst s2. destruct (if (_ <=? _)%Z then snd _ else fst _) as [l |];
      [destruct (Server.isOpen l _) |]; wf_chain Hroom. }
  destruct (if (_ <=? _)%Z then fst _ else snd _) as [w |]; [| exact Hs2].
  destruct (Server.isOpen w s2); [| exact Hs2].
  destruct (Server.queue s2) as [| nextOpponent rest]; [wf_chain Hroom |].
  destruct (bool_decide _); wf_chain Hroom.
Qed.

Lemma wellFormed_runCallback (cb : Server.Callback) (s : Server.State) :
  Server.wellFormed s -> Server.wellFormed (Server.runCallback cb s).
Proof.
  intros Hwf. destruct cb as [rid | rid timer | rid | rid | rid]; simpl.
  - now apply wellFormed_startCountdown.
  - now apply wellFormed_tick.
  - destruct (Server.rooms s !! rid) as [room |] eqn:Hroom; [| exact Hwf].
    wf_chain Hroom.
  - destruct (Server.rooms s !! rid) as [room |] eqn:Hroom; [| exact Hwf].
    wf_chain Hroom.
  - now apply wellFormed_handleMatchEnd.
Qed.

Lemma wellFormed_matchLoop (n : nat) :
  forall (q : list nat) (s : Server.State),
  (List.length q <= n)%nat -> Server.wellFormed s ->
  Server.wellFormed (snd (Server.matchLoop q s)).
Proof.
  induction n as [| n IH]; intros q s Hlen Hwf.
  - destruct q; [exact Hwf | simpl in Hlen; lia].
  - destruct q as [| ws1 [| ws2 rest]]; [exact Hwf | exact Hwf |].
    simpl. destruct (Server.isOpen ws1 s && Server.isOpen ws2 s); [| exact Hwf].
    apply IH; [simpl in Hlen; lia | now apply wellFormed_createRoom].
Qed.

Lemma wellFormed_tryMatch (s : Server.State) :
  Server.wellFormed s -> Server.wellFormed (Server.tryMatch s).
Proof.
  intros Hwf. unfold Server.tryMatch. cbv zeta.
  pose proof (wellFormed_matchLoop _ (Server.pruneFrom (List.length (Server.queue s)) s
                                        (Server.queue s)) s (le_n _) Hwf) as H.
  destruct (Server.matchLoop _ s) as [remaining s1]. simpl in H.
  wf_chain H.
Qed.

Lemma wellFormed_step (s : Server.State) (e : Server.Event) :
  Server.wellFormed s -> Server.wellFormed (Server.step s e).
Proof.
  intros Hwf. destruct e as [ws | ws msg | ws | t]; simpl.
  - unfold Server.onConnection. cbv zeta. apply wellFormed_tryMatch. wf_chain Hwf.
  - unfold Server.onMessage. destruct msg as [m |]; [| exact Hwf].
    destruct (Server.playerToRoom s !! ws) as [rid |]; [| exact Hwf].
    destruct (Server.rooms s !! rid) as [room |] eqn:Hroom; [| exact Hwf].
    cbv zeta. destruct (_ =? -1)%Z; [exact Hwf |].
    destruct m as [data | event | |]; try exact Hwf.
    + wf_chain Hroom.
    + destruct (Server.isHitReport event); apply wellFormed_send;
        [now apply wellFormed_handleHitReport | exact Hwf].
  - unfold Server.onClose. cbv zeta. apply wellFormed_updateQueuePositions.
    cbn [Server.playerToRoom Server.set_queue Server.set_openSockets Server.rooms].
    destruct (Server.playerToRoom s !! ws) as [rid |]; [| wf_chain Hwf].
    destruct (Server.rooms s !! rid) as [room |] eqn:Hroom; [| wf_chain Hwf].
    match goal with
    | |- context [Server.destroyRoom rid ?s0] =>
        assert (Hd : Server.wellFormed (Server.destroyRoom rid s0)) by wf_chain Hwf;
        set (s3 := Server.destroyRoom rid s0) in *
    end.
    destruct (if (_ =? 0)%Z then _ else _) as [o |]; [| exact Hd].
    destruct (Server.isOpen o s3); [| exact Hd].
    apply wellFormed_tryMatch. wf_chain Hd.
  - unfold Server.fire. destruct (Server.pending s !! t) as [[d cb] |]; [| exact Hwf].
    apply wellFormed_runCallback. wf_chain Hwf.
Qed.

Lemma wellFormed_initial : Server.wellFormed Server.initial.
Proof.
  split; [| split].
  - intros t d cb H. cbn in H. rewrite lookup_empty in H. discriminate.
  - intros rid _. apply lookup_empty.
  - intros ws rid H. cbn in H. rewrite lookup_empty in H. discriminate.
Qed.

Lemma wellFormed_run (events : list Server.Event) :
  forall s, Server.wellFormed s -> Server.wellFormed (Server.run events s).
Proof.
  induction events as [| e rest IH]; intros s Hwf; [exact Hwf |].
  simpl. apply IH. now apply wellFormed_step.
Qed.

(** ** server.js: a destroyed room is out of reach of every later event *)

Section DestroyedRoom.

Variable rid : nat.
Variable room : Server.Room.
Hypothesis room_players : Server.players room = (None, None).
Hypothesis room_timers : Server.timers room = [].

Ltac other_room H :=
  autorewrite with server; rewrite ?lookup_alter_ne by congruence; exact H.

Lemma kept_createRoom (ws1 ws2 : nat) (s : Server.State) :
  Server.wellFormed s -> Server.rooms s !! rid = Some room ->
  Server.rooms (Server.createRoom ws1 ws2 s) !! rid = Some room.
Proof.
  intros (_ & Hb & _) H.
  destruct (createRoom_fields ws1 ws2 s) as (_ & _ & _ & _ & Cr & _). rewrite Cr.
  rewrite lookup_insert_ne; [exact H |].
  intros He. rewrite <- He, Hb in H by lia. discriminate.
Qed.

Lemma kept_destroyRoom (rid' : nat) (s : Server.State) :
  Server.rooms s !! rid = Some room ->
  Server.rooms (Server.destroyRoom rid' s) !! rid = Some room.
Proof.
  intros H. destruct (Server.rooms s !! rid') as [room' |] eqn:Hroom';
    [| unfold Server.destroyRoom; rewrite Hroom'; exact H].
  destruct (destroyRoom_fields rid' s room' Hroom') as (_ & _ & _ & _ & _ & Dr & _).
  rewrite Dr. destruct (decide (rid' = rid)) as [-> | Hne].
  - rewrite lookup_insert_eq. rewrite H in Hroom'. injection Hroom' as <-.
    destruct room as [i p sc rn r ph tm]. simpl in *. now subst.
  - rewrite lookup_insert_ne by congruence. exact H.
Qed.

Lemma kept_startCountdown (rid' : nat) (s : Server.State) :
  Server.rooms s !! rid = Some room ->
  Server.rooms (Server.startCountdown rid' s) !! rid = Some room.
Proof.
  intros H. unfold Server.startCountdown.
  destruct (Server.rooms s !! rid') as [room' |] eqn:Hroom'; [| exact H].
  destruct (negb (Server.bothPresent room')) eqn:Hboth; [exact H |].
  assert (rid' <> rid).
  { intros ->. rewrite H in Hroom'. injection Hroom' as <-.
    unfold Server.bothPresent in Hboth. rewrite room_players in Hboth. discriminate. }
  cbv zeta. other_room H.
Qed.

Lemma kept_handleHitReport (rid' : nat) (slot : Z) (s : Server.State) :
  rid' <> rid -> Server.rooms s !! rid = Some room ->
  Server.rooms (Server.handleHitReport rid' slot s) !! rid = Some room.
Proof.
  intros Hne H. unfold Server.handleHitReport.
  destruct (Server.rooms s !! rid') as [room' |]; [| exact H].
  destruct (Server.phase room'); try exact H. cbv zeta.
  destruct (_ || _); [destruct (_ || _) |]; other_room H.
Qed.

Lemma kept_updateQueuePositions (s : Server.State) :
  Server.rooms s !! rid = Some room ->
  Server.rooms (Server.updateQueuePositions s) !! rid = Some room.
Proof.
  destruct (updateQueuePositions_outbox_only s) as (_ & _ & H3 & _). now rewrite H3.
Qed.

Lemma kept_handleMatchEnd (rid' : nat) (s : Server.State) :
  Server.wellFormed s -> Server.rooms s !! rid = Some room ->
  Server.rooms (Server.handleMatchEnd rid' s) !! rid = Some room.
Proof.
  intros Hwf H. unfold Server.handleMatchEnd.
  destruct (Server.rooms s !! rid') as [room' |] eqn:Hroom'; [| exact H].
  cbv zeta. apply kept_updateQueuePositions.
  set (s2 := match (if (_ <=? _)%Z then snd _ else fst _) with
             | Some _ => _ | None => _ end).
  assert (Hs2 : Server.wellFormed s2 /\ Server.rooms s2 !! rid = Some room).
  { subst s2. destruct (if (_ <=? _)%Z then snd _ else fst _) as [l |];
      [destruct (Server.isOpen l _) |];
      (split; [wf_chain Hroom' | cbn; now apply kept_destroyRoom]). }
  destruct Hs2 as [Hwf2 H2].
  destruct (if (_ <=? _)%Z then fst _ else snd _) as [w |]; [| exact H2].
  destruct (Server.isOpen w s2); [| exact H2].
  destruct (Server.queue s2) as [| nextOpponent rest]; [exact H2 |].
  destruct (bool_decide _); [| exact H2].
  apply kept_createRoom; [wf_chain Hroom' | exact H2].
Qed.

Lemma kept_runCallback (cb : Server.Callback) (s : Server.State) :
  Server.wellFormed s -> Server.rooms s !! rid = Some room ->
  (Server.roomOf cb <> rid \/ exists r, cb = Server.StartCountdown r) ->
  Server.rooms (Server.runCallback cb s) !! rid = Some room.
Proof.
  intros Hwf H Hcb.
  destruct cb as [rid' | rid' timer | rid' | rid' | rid'];
    [now apply kept_startCountdown | | | | now apply kept_handleMatchEnd];
    (destruct Hcb as [Hne | [r Hr]]; [| discriminate]); simpl in Hne |- *.
  - unfold Server.tick. destruct (Server.rooms s !! rid') as [room' |]; [| exact H].
    cbv zeta. destruct (0 <? timer - 1)%Z; other_room H.
  - destruct (Server.rooms s !! rid') as [room' |]; [| exact H]. other_room H.
  - destruct (Server.rooms s !! rid') as [room' |]; [| exact H]. other_room H.
Qed.

Lemma kept_matchLoop (n : nat) :
  forall (q : list nat) (s : Server.State),
  (List.length q <= n)%nat -> Server.wellFormed s ->
  Server.rooms s !! rid = Some room ->
  Server.rooms (snd (Server.matchLoop q s)) !! rid = Some room.
Proof.
  induction n as [| n IH]; intros q s Hlen Hwf H.
  - destruct q; [exact H | simpl in Hlen; lia].
  - destruct q as [| ws1 [| ws2 rest]]; [exact H | exact H |].
    simpl. destruct (Server.isOpen ws1 s && Server.isOpen ws2 s); [| exact H].
    apply IH; [simpl in Hlen; lia | now apply wellFormed_createRoom
              | now apply kept_createRoom].
Qed.

Lemma kept_tryMatch (s : Server.State) :
  Server.wellFormed s -> Server.rooms s !! rid = Some room ->
  Server.rooms (Server.tryMatch s) !! rid = Some room.
Proof.
  intros Hwf H. unfold Server.tryMatch. cbv zeta.
  pose proof (kept_matchLoop _ (Server.pruneFrom (List.length (Server.queue s)) s
                                  (Server.queue s)) s (le_n _) Hwf H) as H1.
  destruct (Server.matchLoop _ s) as [remaining s1]. simpl in H1.
  now apply kept_updateQueuePositions.
Qed.

Lemma kept_step (s : Server.State) (e : Server.Event) :
  Server.wellFormed s -> Server.rooms s !! rid = Some room ->
  Server.rooms (Server.step s e) !! rid = Some room.
Proof.
  intros Hwf H. destruct e as [ws | ws msg | ws | t]; simpl.
  - unfold Server.onConnection. cbv zeta. apply kept_tryMatch; [wf_chain H | exact H].
  - unfold Server.onMessage. destruct msg as [m |]; [| exact H].
    destruct (Server.playerToRoom s !! ws) as [rid' |]; [| exact H].
    destruct (Server.rooms s !! rid') as [room' |] eqn:Hroom'; [| exact H].
    cbv zeta. destruct (Server.getSlot room' ws =? -1)%Z eqn:Hslot; [exact H |].
    assert (rid' <> rid).
    { intros ->. rewrite H in Hroom'. injection Hroom' as <-.
      unfold Server.getSlot in Hslot. rewrite room_players in Hslot.
      simpl in Hslot. discriminate. }
    destruct m as [data | event | |]; try exact H.
    + other_room H.
    + destruct (Server.isHitReport event); rewrite send_rooms;
        [now apply kept_handleHitReport | exact H].
  - unfold Server.onClose. cbv zeta. apply kept_updateQueuePositions.
    cbn [Server.playerToRoom Server.set_queue Server.set_openSockets Server.rooms].
    destruct (Server.playerToRoom s !! ws) as [rid' |]; [| exact H].
    destruct (Server.rooms s !! rid') as [room' |] eqn:Hroom'; [| exact H].
    match goal with
    | |- context [Server.destroyRoom rid' ?s0] =>
        assert (Hd : Server.wellFormed (Server.destroyRoom rid' s0)) by wf_chain Hwf;
        assert (Hk : Server.rooms (Server.destroyRoom rid' s0) !! rid = Some room)
          by (apply kept_destroyRoom; other_room H);
        set (s3 := Server.destroyRoom rid' s0) in *
    end.
    destruct (if (_ =? 0)%Z then _ else _) as [o |]; [| exact Hk].
    destruct (Server.isOpen o s3); [| exact Hk].
    apply kept_tryMatch; [wf_chain Hd | exact Hk].
  - unfold Server.fire.
    destruct (Server.pending s !! t) as [[d cb] |] eqn:Hp; [| exact H].
    apply kept_runCallback; [wf_chain Hwf | exact H |].
    destruct Hwf as (Ht & _ & _).
    destruct (Ht t d cb Hp) as [Hs | (room' & Hroom' & Hin)]; [now right | left].
    intros He. rewrite He, H in Hroom'. injection Hroom' as <-.
    rewrite room_timers in Hin. now apply elem_of_nil in Hin.
Qed.

Lemma kept_run (events : list Server.Event) :
  forall s, Server.wellFormed s -> Server.rooms s !! rid = Some room ->
  Server.rooms (Server.run events s) !! rid = Some room.
Proof.
  induction events as [| e rest IH]; intros s Hwf H; [exact H |].
  simpl. apply IH; [now apply wellFormed_step | now apply kept_step].
Qed.

End DestroyedRoom.

(** X4. Whatever clients connect, send and disconnect, and whichever parked
    timers fire in whatever order, the server's books stay consistent: every
    parked callback other than a countdown start is listed in the timers of
    the room it closes over, so that destroying the room cancels it; no room
    has a number from [nextRoomId] on; and every socket that
    [playerToRoom] maps to a room is one of the two players of that room. *)
Theorem server_books_stay_consistent (events : list Server.Event) :
  Server.wellFormed (Server.run events Server.initial).
Proof. apply wellFormed_run, wellFormed_initial. Qed.

(** X5. Once a room has been destroyed — both player slots null and the
    timer list emptied, as [destroyRoom] leaves it — nothing that happens
    later changes it: no message, no disconnect and no timer that was parked
    while the room was alive alters its scores, rounds, phase or players.
    The one callback that [destroyRoom] cannot cancel, the countdown start
    parked by [createRoom], returns at once on the missing players. *)
Theorem destroyed_room_stays_untouched (before after : list Server.Event)
    (rid : nat) (room : Server.Room) :
  Server.rooms (Server.run before Server.initial) !! rid = Some room ->
  Server.players room = (None, None) ->
  Server.timers room = [] ->
  Server.rooms (Server.run after (Server.run before Server.initial)) !! rid
  = Some room.
Proof.
  intros Hroom Hpl Htm.
  apply kept_run; [exact Hpl | exact Htm | | exact Hroom].
  apply wellFormed_run, wellFormed_initial.
Qed.

Lemma destroyed_room_stays_untouched_witness :
  Server.rooms
    (Server.run [Server.Fire 1; Server.Fire 0; Server.Connect 30;
                 Server.Message 20 Server.hitReport; Server.Close 20]
       (Server.run [Server.Connect 10; Server.Connect 20; Server.Fire 0;
                    Server.Close 10] Server.initial)) !! 1%nat
  = Some (Server.mkRoom 1 (None, None) (0, 0)%Z (0, 0)%Z 1%Z Server.phCountdown []).
Proof.
  apply (destroyed_room_stays_untouched
           [Server.Connect 10; Server.Connect 20; Server.Fire 0; Server.Close 10]
           [Server.Fire 1; Server.Fire 0; Server.Connect 30;
            Server.Message 20 Server.hitReport; Server.Close 20] 1).
  - vm_compute. reflexivity.
  - reflexivity.
  - reflexivity.
Defined.

(** ** main.js: flushing the bounce queue *)

Lemma flushFrom_drainFrom (bodyId : nat) (queue0 : list Bounce.t) (k : nat) :
  forall s : Physics.DrainState,
  Physics.drainInvariant bodyId queue0 k s ->
  Flight.flushFrom bodyId k (Physics.queue s)
  = Physics.queue (Physics.drainFrom (fun _ _ o => o) bodyId k s).
Proof.
  induction k as [| i IH]; intros s Hinv; [reflexivity |].
  simpl. rewrite <- IH by now apply drainAt_invariant.
  f_equal. destruct Hinv as (Hlen & _).
  unfold Flight.flushAt, Physics.drainAt.
  destruct (Physics.queue s !! i) as [b |]; [| reflexivity].
  destruct (Nat.eqb (Bounce.bodyId b) bodyId); [| reflexivity].
  cbv zeta. rewrite Hlen. reflexivity.
Qed.

Lemma flushBounceQueue_spec (bounceQueue : list Bounce.t) (orb : Orb.t) :
  let bq := Flight.flushBounceQueue bounceQueue orb in
  let id := Body.id (Orb.body orb) in
  Forall (fun b => Bounce.bodyId b <> id) bq /\
  bq ≡ₚ filter (fun b => Bounce.bodyId b <> id) bounceQueue.
Proof.
  cbv zeta. unfold Flight.flushBounceQueue.
  set (id := Body.id (Orb.body orb)).
  set (start := Physics.mkDrain (List.length bounceQueue) bounceQueue orb []).
  assert (Hinv0 : Physics.drainInvariant id bounceQueue (List.length bounceQueue) start).
  { unfold Physics.drainInvariant; subst start; simpl. repeat split; auto.
    exists bounceQueue, []. rewrite app_nil_r. auto. }
  rewrite (flushFrom_drainFrom id bounceQueue _ start Hinv0
           : Flight.flushFrom id (List.length bounceQueue) bounceQueue = _).
  apply (drainFrom_invariant (fun _ _ o => o) id bounceQueue) in Hinv0.
  destruct Hinv0 as (_ & (front & back & Hq & Hfront & Hback) & Hperm & _).
  destruct front; [| discriminate]. simpl in Hq.
  split; [rewrite Hq; exact Hback |].
  rewrite <- Hperm. rewrite Hq.
  clear -Hback. induction Hback as [| b l Hb Hl IH]; [reflexivity |].
  rewrite filter_cons_True by exact Hb. now rewrite <- IH.
Qed.

(** X6. [flushBounceQueue] takes every bounce event of the given orb's body
    out of the queue and keeps every event of any other body, so that no
    wall contact made before a catch can start a return after the next
    throw. *)
Theorem flushBounceQueue_removes_own_events (bounceQueue : list Bounce.t)
    (orb : Orb.t) :
  let bq := Flight.flushBounceQueue bounceQueue orb in
  let id := Body.id (Orb.body orb) in
  Forall (fun b => Bounce.bodyId b <> id) bq /\
  bq ≡ₚ filter (fun b => Bounce.bodyId b <> id) bounceQueue.
Proof. exact (flushBounceQueue_spec bounceQueue orb). Qed.

(** ** main.js: the auto-return arc *)

Lemma bounceAxis_spec (lo hi p v : R) :
  lo <= hi ->
  lo <= fst (Flight.bounceAxis lo hi p v) <= hi /\
  snd (Flight.bounceAxis lo hi p v) * snd (Flight.bounceAxis lo hi p v) = v * v.
Proof.
  intros H. unfold Flight.bounceAxis.
  destruct (JS.ltb p lo) eqn:E1; [apply ltb_true in E1 | apply ltb_false in E1].
  - destruct (JS.gtb lo hi) eqn:E2; [apply gtb_true in E2; lra | apply gtb_false in E2].
    simpl. split; [lra |]. unfold Rabs; destruct (Rcase_abs v); nra.
  - destruct (JS.gtb p hi) eqn:E2; [apply gtb_true in E2 | apply gtb_false in E2]; simpl.
    + split; [lra |]. unfold Rabs; destruct (Rcase_abs v); nra.
    + split; [lra | reflexivity].
Qed.

(** The speed clamp of the return arc: at most the maximum, and at least
    the minimum unless the orb is practically at rest. *)
Lemma return_speed_clamp (v1 : Vector3) :
  let speed := THREE.length v1 in
  let v2 :=
    if JS.gtb speed Config.RETURN_SPEED_MAX then
      THREE.multiplyScalar v1 (Config.RETURN_SPEED_MAX / speed)
    else if JS.ltb speed Config.RETURN_SPEED_MIN && JS.gtb speed 0.01 then
      THREE.multiplyScalar v1 (Config.RETURN_SPEED_MIN / speed)
    else v1 in
  THREE.length v2 <= Config.RETURN_SPEED_MAX /\
  (Config.RETURN_SPEED_MIN <= THREE.length v2 \/ THREE.length v2 <= 0.01).
Proof.
  cbv zeta. unfold Config.RETURN_SPEED_MAX, Config.RETURN_SPEED_MIN.
  pose proof (length_nonneg v1) as Hpos.
  destruct (JS.gtb (THREE.length v1) 30) eqn:E1;
    [apply gtb_true in E1 | apply gtb_false in E1].
  - rewrite length_multiplyScalar by (apply Rlt_le, Rdiv_lt_0_compat; lra).
    replace (30 / THREE.length v1 * THREE.length v1) with 30 by (field; lra). lra.
  - destruct (JS.ltb (THREE.length v1) 18) eqn:E2;
      [apply ltb_true in E2 | apply ltb_false in E2]; [| simpl; lra].
    destruct (JS.gtb (THREE.length v1) 0.01) eqn:E3;
      [apply gtb_true in E3 | apply gtb_false in E3]; simpl; [| lra].
    rewrite length_multiplyScalar by (apply Rlt_le, Rdiv_lt_0_compat; lra).
    replace (18 / THREE.length v1 * THREE.length v1) with 18 by (field; lra). lra.
Qed.

(** X7. A step of the auto-return arc that does not end in the auto-catch
    leaves the orb inside the arena, 0.3 off every wall, floor and ceiling,
    at a speed of at most [RETURN_SPEED_MAX] and — unless it is practically
    at rest — at least [RETURN_SPEED_MIN]; the orb is still returning and
    its parked physics body is not touched. *)
Theorem handleOrbReturn_contained (orb : Orb.t) (ownerPos : Vector3) (dt : R) :
  OrbState.returning (Orb.state orb) = true ->
  OrbState.isHeld (Orb.state orb) = false ->
  Config.RETURN_CATCH_DIST
  <= Vec3.distanceTo ownerPos (OrbState.position (Orb.state orb)) ->
  let r := Flight.handleOrbReturn orb ownerPos dt in
  let p := OrbState.position (Orb.state (snd r)) in
  let v := OrbState.velocity (Orb.state (snd r)) in
  fst r = false /\
  - (CONFIG.ARENA_WIDTH / 2 - 0.3) <= THREE.x p <= CONFIG.ARENA_WIDTH / 2 - 0.3 /\
  0.3 <= THREE.y p <= CONFIG.ARENA_HEIGHT - 0.3 /\
  - (CONFIG.ARENA_LENGTH / 2 - 0.3) <= THREE.z p <= CONFIG.ARENA_LENGTH / 2 - 0.3 /\
  THREE.length v <= Config.RETURN_SPEED_MAX /\
  (Config.RETURN_SPEED_MIN <= THREE.length v \/ THREE.length v <= 0.01) /\
  OrbState.returning (Orb.state (snd r)) = true /\
  OrbState.returnTimer (Orb.state (snd r)) = OrbState.returnTimer (Orb.state orb) + dt /\
  Orb.body (snd r) = Orb.body orb.
Proof.
  intros Hret Hheld Hfar. cbv zeta. unfold Flight.handleOrbReturn.
  rewrite Hret, Hheld. cbn [negb Datatypes.orb]. cbv zeta.
  cbn [OrbUpdate.set_returnTimer OrbState.position OrbState.velocity
       OrbState.returnTimer].
  match goal with
  | |- context [JS.ltb ?d Config.RETURN_CATCH_DIST] =>
      rewrite (proj2 (ltb_false d Config.RETURN_CATCH_DIST) Hfar)
  end.
  cbn [fst snd OrbUpdate.set_state Orb.state Orb.body OrbState.set_velocity
       OrbState.set_position OrbState.position OrbState.velocity
       OrbState.returning OrbState.returnTimer THREE.x THREE.y THREE.z].
  match goal with
  | |- context [Flight.bounceAxis _ _ _ (THREE.x ?v2)] => set (w := v2)
  end.
  match goal with
  | |- context [Flight.bounceAxis ?lo ?hi ?p (THREE.x w)] =>
      destruct (bounceAxis_spec lo hi p (THREE.x w)) as [Bx Vx];
        [unfold CONFIG.ARENA_WIDTH; lra |]
  end.
  match goal with
  | |- context [Flight.bounceAxis ?lo ?hi ?p (THREE.y w)] =>
      destruct (bounceAxis_spec lo hi p (THREE.y w)) as [By Vy];
        [unfold CONFIG.ARENA_HEIGHT; lra |]
  end.
  match goal with
  | |- context [Flight.bounceAxis ?lo ?hi ?p (THREE.z w)] =>
      destruct (bounceAxis_spec lo hi p (THREE.z w)) as [Bz Vz];
        [unfold CONFIG.ARENA_LENGTH; lra |]
  end.
  assert (Hclamp : THREE.length w <= Config.RETURN_SPEED_MAX /\
                   (Config.RETURN_SPEED_MIN <= THREE.length w \/
                    THREE.length w <= 0.01)).
  { subst w.
    match goal with
    | |- context [THREE.length (if JS.gtb (THREE.length ?u) _ then _ else _)] =>
        exact (return_speed_clamp u)
    end. }
  clearbody w.
  match goal with
  | |- context [THREE.length (vec3 ?a ?b ?c)] =>
      assert (Hlen : THREE.length (vec3 a b c) = THREE.length w)
        by (apply length_of_sqr; [apply length_nonneg |];
            rewrite length_sqr; cbn [THREE.x THREE.y THREE.z]; lra)
  end.
  rewrite Hlen.
  repeat split; try reflexivity; try tauto.
Qed.

Lemma handleOrbReturn_contained_witness :
  let orb :=
    Orb.mk
      (OrbState.mk (vec3 0 1 (-20)) (vec3 0 0 22) false player None 0 0
         false 0 true 0 (vec3 0 0 0) 0)
      (Body.mk 6 (vec3 0 (-50) 0) (vec3 0 0 0) (vec3 0 0 0) 0.01) in
  let r := Flight.handleOrbReturn orb (vec3 0 1 20) (1 / 60) in
  fst r = false /\
  THREE.length (OrbState.velocity (Orb.state (snd r))) <= Config.RETURN_SPEED_MAX /\
  0.3 <= THREE.y (OrbState.position (Orb.state (snd r))) <= CONFIG.ARENA_HEIGHT - 0.3.
Proof.
  intros orb r.
  destruct (handleOrbReturn_contained orb (vec3 0 1 20) (1 / 60))
    as (Hf & _ & Hy & _ & Hv & _).
  - reflexivity.
  - reflexivity.
  - unfold Vec3.distanceTo, Config.RETURN_CATCH_DIST.
    rewrite (length_of_sqr _ 40); [lra | lra | simpl; lra].
  - split; [exact Hf | split; [exact Hv | exact Hy]].
Defined.

(** ** main.js: recall *)

Lemma handleRecall_keeps_flight (orb : Orb.t) (holderPos : Vector3) (dt now : R) :
  OrbState.isHeld (Orb.state orb) = false ->
  OrbState.isHeld (Orb.state (Flight.handleRecall orb holderPos dt now)) = false /\
  (OrbState.recalling (Orb.state orb) = true ->
   OrbState.recalling (Orb.state (Flight.handleRecall orb holderPos dt now)) = true).
Proof.
  intros Hheld. unfold Flight.handleRecall. rewrite Hheld. cbv zeta.
  destruct (OrbState.recalling (Orb.state orb)) eqn:Hrec; cbn [negb andb].
  - rewrite Hrec. destruct (JS.ltb _ 0.3); cbn; auto.
  - destruct (JS.gtb _ Config.RECALL_MAX_TIME); cbn [Flight.startRecall Orb.state
      OrbUpdate.set_returnTimer OrbUpdate.set_returning OrbUpdate.set_recalling
      OrbState.recalling].
    + destruct (JS.ltb _ 0.3); cbn; (split; [exact Hheld | discriminate]).
    + rewrite Hrec. destruct (JS.ltb _ Config.STALL_SPEED);
        [destruct (JS.leb _ _) |]; cbn; (split; [exact Hheld | discriminate]).
Qed.

(** X8. Recall takes the orb over.  For an orb that is not held and is
    either recalling already or out for longer than [RECALL_MAX_TIME], and
    is 0.3 or more away from its holder, one call of [handleRecall] leaves
    it recalling, with its velocity pointing straight at the holder at the
    speed min(RECALL_SPEED, RECALL_SPEED * dist / 5 + 4) — above 4 and at
    most [RECALL_SPEED] — and with the physics body stopped and moved to
    the orb's new position. *)
Theorem handleRecall_pulls_orb (orb : Orb.t) (holderPos : Vector3) (dt now : R) :
  OrbState.isHeld (Orb.state orb) = false ->
  OrbState.recalling (Orb.state orb) = true
  \/ Config.RECALL_MAX_TIME * 1000 < now - OrbState.throwTime (Orb.state orb) ->
  0.3 <= Vec3.distanceTo holderPos (OrbState.position (Orb.state orb)) ->
  let orb' := Flight.handleRecall orb holderPos dt now in
  let dist := Vec3.distanceTo holderPos (OrbState.position (Orb.state orb)) in
  let speed := Rmin Config.RECALL_SPEED (Config.RECALL_SPEED * (dist / 5) + 4) in
  OrbState.recalling (Orb.state orb') = true /\
  OrbState.isHeld (Orb.state orb') = false /\
  OrbState.velocity (Orb.state orb')
  = THREE.multiplyScalar
      (THREE.normalize (Vec3.sub holderPos (OrbState.position (Orb.state orb)))) speed /\
  THREE.length (OrbState.velocity (Orb.state orb')) = speed /\
  4 < speed <= Config.RECALL_SPEED /\
  Body.velocity (Orb.body orb') = Vec3.zero /\
  Body.position (Orb.body orb') = OrbState.position (Orb.state orb').
Proof.
  intros Hheld Hwhy Hfar. cbv zeta. unfold Vec3.distanceTo in *.
  pose proof (length_nonneg (Vec3.sub holderPos (OrbState.position (Orb.state orb))))
    as Hpos.
  assert (Hspeed :
    4 < Rmin Config.RECALL_SPEED
          (Config.RECALL_SPEED
           * (Vec3.distanceTo holderPos (OrbState.position (Orb.state orb)) / 5) + 4)
    <= Config.RECALL_SPEED).
  { unfold Config.RECALL_SPEED, Vec3.distanceTo in *. rmin_cases; lra. }
  unfold Vec3.distanceTo in Hspeed.
  assert (Hmove :
    let orb1 :=
      if negb (OrbState.recalling (Orb.state orb))
         && JS.gtb ((now - OrbState.throwTime (Orb.state orb)) / 1000)
              Config.RECALL_MAX_TIME
      then Flight.startRecall orb else orb in
    OrbState.recalling (Orb.state orb1) = true /\
    OrbState.isHeld (Orb.state orb1) = false /\
    OrbState.position (Orb.state orb1) = OrbState.position (Orb.state orb)).
  { cbv zeta. destruct (OrbState.recalling (Orb.state orb)) eqn:Hrec; cbn [negb andb].
    - auto.
    - destruct Hwhy as [Hwhy | Hwhy]; [discriminate |].
      rewrite (proj2 (gtb_true _ _))
        by (unfold Config.RECALL_MAX_TIME in *; lra).
      cbn. auto. }
  cbv zeta in Hmove. unfold Flight.handleRecall. rewrite Hheld. cbv zeta.
  match type of Hmove with
  | OrbState.recalling (Orb.state ?o) = true /\ _ => set (orb1 := o) in *
  end.
  destruct Hmove as (Hrec1 & Hheld1 & Hpos1). rewrite Hrec1, Hpos1.
  match goal with
  | |- context [JS.ltb ?d 0.3] => rewrite (proj2 (ltb_false d 0.3) Hfar)
  end.
  cbn [Orb.state Orb.body OrbState.set_velocity OrbState.set_position
       OrbState.recalling OrbState.isHeld OrbState.velocity OrbState.position
       Body.set_velocity Body.set_position Body.velocity Body.position].
  repeat split; try assumption; try reflexivity; try apply Hspeed.
  change (vec3 (THREE.x ?d * ?s) (THREE.y ?d * ?s) (THREE.z ?d * ?s))
    with (THREE.multiplyScalar d s).
  rewrite length_multiplyScalar by lra.
  rewrite length_normalize by lra. ring.
Qed.

Lemma handleRecall_pulls_orb_witness :
  let orb :=
    Orb.mk
      (OrbState.mk (vec3 0 1 (-10)) (vec3 0 0 1) false player None 0 1000
         false 0 false 0 (vec3 0 0 0) 0)
      (Body.mk 6 (vec3 0 1 (-10)) (vec3 0 0 1) (vec3 0 0 0) 0.01) in
  let orb' := Flight.handleRecall orb (vec3 0 1 20) (1 / 60) 8000 in
  OrbState.recalling (Orb.state orb') = true /\
  Body.velocity (Orb.body orb') = Vec3.zero.
Proof.
  intros orb orb'.
  destruct (handleRecall_pulls_orb orb (vec3 0 1 20) (1 / 60) 8000)
    as (Hrec & _ & _ & _ & _ & Hbody & _).
  - reflexivity.
  - right. unfold Config.RECALL_MAX_TIME. simpl. lra.
  - unfold Vec3.distanceTo. rewrite (length_of_sqr _ 30); [lra | lra | simpl; lra].
  - split; [exact Hrec | exact Hbody].
Defined.

Lemma handleRecall_stall_step (orb : Orb.t) (holderPos : Vector3) (dt now : R) :
  OrbState.isHeld (Orb.state orb) = false ->
  OrbState.recalling (Orb.state orb) = false ->
  THREE.length (OrbState.velocity (Orb.state orb)) < Config.STALL_SPEED ->
  let orb' := Flight.handleRecall orb holderPos dt now in
  OrbState.recalling (Orb.state orb') = true \/
  (OrbState.recalling (Orb.state orb') = false /\
   OrbState.stallTimer (Orb.state orb') = OrbState.stallTimer (Orb.state orb) + dt /\
   OrbState.stallTimer (Orb.state orb) + dt < Config.RECALL_DELAY).
Proof.
  intros Hheld Hrec Hslow. cbv zeta. unfold Flight.handleRecall.
  rewrite Hheld, Hrec. cbn [negb andb]. cbv zeta.
  destruct (JS.gtb _ Config.RECALL_MAX_TIME).
  - left. cbn. destruct (JS.ltb _ 0.3); reflexivity.
  - rewrite Hrec. rewrite (proj2 (ltb_true _ _) Hslow).
    cbn [OrbUpdate.set_state Orb.state OrbUpdate.set_stallTimer OrbState.stallTimer].
    destruct (JS.leb _ _) eqn:E; [left; reflexivity | right].
    apply leb_false in E. cbn. auto.
Qed.

Lemma recallFrame_stall_step (orb : Orb.t) (frame : Flight.RecallFrame) :
  OrbState.isHeld (Orb.state orb) = false ->
  OrbState.recalling (Orb.state orb) = false ->
  THREE.length (Flight.fVelocity frame) < Config.STALL_SPEED ->
  let orb' := Flight.recallFrame orb frame in
  OrbState.recalling (Orb.state orb') = true \/
  (OrbState.recalling (Orb.state orb') = false /\
   OrbState.stallTimer (Orb.state orb')
   = OrbState.stallTimer (Orb.state orb) + Flight.fDt frame /\
   OrbState.stallTimer (Orb.state orb) + Flight.fDt frame < Config.RECALL_DELAY).
Proof.
  intros Hheld Hrec Hslow.
  exact (handleRecall_stall_step
           (OrbUpdate.set_state
              (OrbState.set_velocity (Flight.fVelocity frame) (Orb.state orb)) orb)
           (Flight.fHolderPos frame) (Flight.fDt frame) (Flight.fNow frame)
           Hheld Hrec Hslow).
Qed.

(** X9. A stalled orb is recalled.  If an orb in flight stays slower than
    [STALL_SPEED] frame after frame, then as soon as the frame times add up
    — together with the stall time it had accumulated — to [RECALL_DELAY],
    the orb is recalling, whatever the holder's position and the clock. *)
Theorem stalled_orb_is_recalled (frames : list Flight.RecallFrame) :
  forall orb : Orb.t,
  OrbState.isHeld (Orb.state orb) = false ->
  frames <> [] ->
  Forall (fun f => THREE.length (Flight.fVelocity f) < Config.STALL_SPEED) frames ->
  Config.RECALL_DELAY
  <= OrbState.stallTimer (Orb.state orb) + Flight.frameTime frames ->
  OrbState.recalling (Orb.state (Flight.recallFrames frames orb)) = true.
Proof.
  assert (Hgen : forall orb : Orb.t,
    OrbState.isHeld (Orb.state orb) = false ->
    Forall (fun f => THREE.length (Flight.fVelocity f) < Config.STALL_SPEED) frames ->
    OrbState.recalling (Orb.state orb) = true
    \/ (frames <> [] /\
        Config.RECALL_DELAY
        <= OrbState.stallTimer (Orb.state orb) + Flight.frameTime frames) ->
    OrbState.recalling (Orb.state (Flight.recallFrames frames orb)) = true).
  { induction frames as [| f rest IH]; intros orb Hheld Hslow Hcase.
    - destruct Hcase as [Hrec | [Hne _]]; [exact Hrec | contradiction].
    - inversion Hslow as [| ? ? Hf Hrest]; subst.
      unfold Flight.recallFrames. simpl. fold (Flight.recallFrames rest).
      assert (Hheld' : OrbState.isHeld (Orb.state (Flight.recallFrame orb f)) = false)
        by (apply handleRecall_keeps_flight; exact Hheld).
      apply IH; [exact Hheld' | exact Hrest |].
      destruct (OrbState.recalling (Orb.state orb)) eqn:Hrec.
      + left. apply handleRecall_keeps_flight; [exact Hheld | exact Hrec].
      + destruct Hcase as [Hrec' | [_ Hsum]]; [discriminate |].
        destruct (recallFrame_stall_step orb f Hheld Hrec Hf) as [Hr | (Hr & Ht & Hlt)];
          [now left | right].
        unfold Flight.frameTime in Hsum. simpl in Hsum.
        fold (Flight.frameTime rest) in Hsum.
        destruct rest as [| f' rest'].
        * unfold Flight.frameTime in Hsum. simpl in Hsum. lra.
        * split; [discriminate |]. rewrite Ht. lra. }
  intros orb Hheld Hne Hslow Hsum. apply Hgen; auto.
Qed.

Lemma stalled_orb_is_recalled_witness :
  let orb :=
    Orb.mk
      (OrbState.mk (vec3 0 1 0) (vec3 0 0 1) false player None 0 0
         false 0 false 0 (vec3 0 0 0) 0)
      (Body.mk 6 (vec3 0 1 0) (vec3 0 0 1) (vec3 0 0 0) 0.01) in
  let frame := Flight.mkRecallFrame (vec3 0 0 1) (vec3 0 1 20) 0.5 100 in
  OrbState.recalling (Orb.state (Flight.recallFrames [frame; frame] orb)) = true.
Proof.
  intros orb frame.
  apply (stalled_orb_is_recalled [frame; frame] orb).
  - reflexivity.
  - discriminate.
  - assert (Hf : THREE.length (Flight.fVelocity frame) < Config.STALL_SPEED).
    { simpl. rewrite (length_of_sqr _ 1); [unfold Config.STALL_SPEED; lra | lra | simpl; lra]. }
    repeat constructor; exact Hf.
  - unfold Flight.frameTime, Config.RECALL_DELAY. simpl. lra.
Defined.

(** ** main.js: catching *)

Lemma catchPlayerOrb_post (isClean : bool) (c : Flight.Catching) :
  let c' := Flight.catchPlayerOrb isClean c in
  let ds' := Orb.state (Flight.cOrb c') in
  let body' := Orb.body (Flight.cOrb c') in
  GameState.playerArmed (Flight.cGame c') = true /\
  GameState.discRecalling (Flight.cGame c') = false /\
  OrbState.isHeld ds' = true /\
  OrbState.recalling ds' = false /\
  OrbState.returning ds' = false /\
  OrbState.velocity ds' = Vec3.zero /\
  OrbState.owner ds' = player /\
  OrbState.lastDeflectedBy ds' = None /\
  Body.position body' = GameState.playerPos (Flight.cGame c) /\
  Body.velocity body' = Vec3.zero /\
  Body.id body' = Body.id (Orb.body (Flight.cOrb c)) /\
  Forall (fun b => Bounce.bodyId b <> Body.id (Orb.body (Flight.cOrb c)))
    (Flight.cBounceQueue c') /\
  GameStateRest.catches (Flight.cRest c')
  = (GameStateRest.catches (Flight.cRest c) + 1)%Z.
Proof.
  cbv zeta. unfold Flight.catchPlayerOrb. cbv zeta.
  cbn [Flight.cGame Flight.cOrb Flight.cRest Flight.cBounceQueue Orb.state Orb.body].
  repeat split; try reflexivity.
  - match goal with
    | |- Forall _ (Flight.flushBounceQueue ?bq ?o) =>
        exact (proj1 (flushBounceQueue_spec bq o))
    end.
  - destruct isClean; reflexivity.
Qed.

(** X10. [handlePlayerCatch] catches the player's orb exactly when the
    player is unarmed, the throw is at least [CATCH_GRACE_PERIOD_MS] old,
    the orb is within [CATCH_RADIUS], the player faces it (or it is being
    recalled) and the shield is down; otherwise nothing changes.  After a
    catch the orb is held and owned by the player with every flight flag
    cleared, its body rests at the player's position, no bounce event of
    that body is left in the queue, and the catch is counted. *)
Theorem handlePlayerCatch_guards (cleanCatchTriggered : bool) (now : R)
    (c : Flight.Catching) :
  GameState.playerArmed (Flight.cGame c) = false ->
  let g := Flight.cGame c in
  let ds := Orb.state (Flight.cOrb c) in
  let facingDot :=
    THREE.dot (THREE.forward (GameState.cameraPitch g) (GameState.cameraYaw g))
      (THREE.normalize (Vec3.sub (OrbState.position ds) (GameState.playerPos g))) in
  let c' := Flight.handlePlayerCatch cleanCatchTriggered now c in
  (GameState.playerArmed (Flight.cGame c') = true <->
   Config.CATCH_GRACE_PERIOD_MS <= now - OrbState.throwTime ds /\
   Vec3.distanceTo (OrbState.position ds) (GameState.playerPos g)
   <= Config.CATCH_RADIUS /\
   (Config.CATCH_FACING_DOT <= facingDot \/ OrbState.recalling ds = true) /\
   GameState.blocking g = false) /\
  (GameState.playerArmed (Flight.cGame c') = false -> c' = c) /\
  (GameState.playerArmed (Flight.cGame c') = true ->
   OrbState.isHeld (Orb.state (Flight.cOrb c')) = true /\
   OrbState.recalling (Orb.state (Flight.cOrb c')) = false /\
   OrbState.returning (Orb.state (Flight.cOrb c')) = false /\
   OrbState.owner (Orb.state (Flight.cOrb c')) = player /\
   OrbState.velocity (Orb.state (Flight.cOrb c')) = Vec3.zero /\
   Body.position (Orb.body (Flight.cOrb c')) = GameState.playerPos g /\
   Body.velocity (Orb.body (Flight.cOrb c')) = Vec3.zero /\
   Forall (fun b => Bounce.bodyId b <> Body.id (Orb.body (Flight.cOrb c)))
     (Flight.cBounceQueue c') /\
   GameStateRest.catches (Flight.cRest c')
   = (GameStateRest.catches (Flight.cRest c) + 1)%Z).
Proof.
  intros Harmed. cbv zeta.
  pose proof (catchPlayerOrb_post cleanCatchTriggered c) as Hpost. cbv zeta in Hpost.
  destruct Hpost as (P1 & P2 & P3 & P4 & P5 & P6 & P7 & P8 & P9 & P10 & P11 & P12 & P13).
  unfold Flight.handlePlayerCatch. rewrite Harmed. cbv zeta.
  destruct (JS.ltb _ Config.CATCH_GRACE_PERIOD_MS) eqn:E1;
    [apply ltb_true in E1 | apply ltb_false in E1].
  { rewrite Harmed. repeat split; try discriminate; try reflexivity.
    intros (H & _). lra. }
  destruct (JS.gtb _ Config.CATCH_RADIUS) eqn:E2;
    [apply gtb_true in E2 | apply gtb_false in E2].
  { rewrite Harmed. repeat split; try discriminate; try reflexivity.
    intros (_ & H & _). lra. }
  destruct (JS.ltb _ Config.CATCH_FACING_DOT) eqn:E3;
    [apply ltb_true in E3 | apply ltb_false in E3];
    destruct (OrbState.recalling (Orb.state (Flight.cOrb c))) eqn:E4;
    cbn [negb andb];
    try (rewrite Harmed; repeat split; try discriminate; try reflexivity;
         intros (_ & _ & [H | H] & _); [lra | discriminate]);
    (destruct (GameState.blocking (Flight.cGame c)) eqn:E5;
     [ rewrite Harmed; repeat split; try discriminate; try reflexivity;
       intros (_ & _ & _ & H); discriminate
     | rewrite P1; repeat split; auto; try discriminate ]).
Qed.

Lemma handlePlayerCatch_guards_witness :
  let orb :=
    Orb.mk
      (OrbState.mk (vec3 0 1.7 27) (vec3 0 0 10) false player None 0 1000
         false 0 false 0 (vec3 0 0 0) 0)
      (Body.mk 6 (vec3 0 1.7 27) (vec3 0 0 10) (vec3 0 0 0) 0.01) in
  let g := GameState.set_playerArmed false Main.initialGameState in
  let c :=
    Flight.mkCatching g GameStateRest.initial orb
      [Bounce.mk (vec3 0 1 30) (vec3 0 0 1) 6] in
  let c' := Flight.handlePlayerCatch false 400 c in
  c' = c.
Proof.
  intros orb g c c'.
  destruct (handlePlayerCatch_guards false 400 c) as (Hiff & Hsame & _).
  - reflexivity.
  - apply Hsame. apply not_true_is_false. intros E.
    apply Hiff in E. destruct E as (E & _).
    unfold Config.CATCH_GRACE_PERIOD_MS in E. simpl in E. lra.
Defined.

(** ** main.js: hits *)

Lemma opponentOrbHit_multiplayer (now : R) (w : Hits.World) :
  GameState.multiplayerActive (Hits.game w) = true ->
  Hits.network w = true ->
  let w' := Hits.opponentOrbHit now w in
  Hits.game w' = Hits.game w /\
  Hits.playerOrb w' = Hits.playerOrb w /\
  Hits.opponentState w' = Hits.opponentState w /\
  Hits.network w' = true /\
  (w' = w \/
   (Hits.sent w' = Hits.sent w ++ [Hits.iGotHit] /\
    Config.SCORE_DEBOUNCE_MS < now - GameStateRest.lastPlayerHitTime (Hits.rest w) /\
    GameStateRest.lastPlayerHitTime (Hits.rest w') = now)).
Proof.
  intros Hmulti Hnet. cbv zeta. unfold Hits.opponentOrbHit. cbv zeta.
  rewrite Hmulti, Hnet. cbn [orb andb].
  destruct (Hits.inFlight (Hits.opponentOrb w)); cbn [andb]; [| now auto 10].
  destruct (JS.gtb (now - _) Config.SCORE_DEBOUNCE_MS) eqn:E;
    cbn [andb]; [apply gtb_true in E | now auto 10].
  destruct (JS.gtb _ Config.SCORE_MIN_SPEED); cbn [andb]; [| now auto 10].
  destruct (JS.ltb _ Config.OPP_HIT_RADIUS); [| now auto 10].
  cbn. repeat split; auto.
Qed.

(** X11. In a multiplayer match the client never awards a point itself:
    [handleHits] leaves scores, rounds and match phase — the whole of the
    local game state proper — the player's orb and the opponent alone.  All
    it may do is report one hit, [i_got_hit], and then at least
    [SCORE_DEBOUNCE_MS] pass before it reports again. *)
Theorem handleHits_multiplayer_reports_only (now now2 : R) (w : Hits.World) :
  GameState.multiplayerActive (Hits.game w) = true ->
  Hits.network w = true ->
  let w' := Hits.handleHits now w in
  Hits.game w' = Hits.game w /\
  Hits.playerOrb w' = Hits.playerOrb w /\
  Hits.opponentState w' = Hits.opponentState w /\
  (Hits.sent w' = Hits.sent w \/ Hits.sent w' = Hits.sent w ++ [Hits.iGotHit]) /\
  (Hits.sent w' <> Hits.sent w ->
   now2 - now <= Config.SCORE_DEBOUNCE_MS ->
   Hits.sent (Hits.handleHits now2 w') = Hits.sent w').
Proof.
  intros Hmulti Hnet. cbv zeta. unfold Hits.handleHits. rewrite Hmulti. cbn [negb].
  destruct (opponentOrbHit_multiplayer now w Hmulti Hnet)
    as (Hg & Hp & Ho & Hn & Hcase).
  cbv zeta in Hg, Hp, Ho, Hn, Hcase.
  repeat split; auto.
  - destruct Hcase as [-> | (Hs & _)]; auto.
  - intros Hsent Hsoon. rewrite Hg, Hmulti. cbn [negb].
    destruct Hcase as [E | (Hs & Hdeb & Hlast)]; [rewrite E in Hsent; contradiction |].
    unfold Hits.opponentOrbHit at 1. cbv zeta. rewrite Hlast.
    rewrite (proj2 (gtb_false (now2 - now) Config.SCORE_DEBOUNCE_MS) Hsoon).
    rewrite !andb_false_r. cbn [andb]. reflexivity.
Qed.

Lemma handleHits_multiplayer_reports_only_witness :
  let oo :=
    Orb.mk
      (OrbState.mk (vec3 0 1.7 27.5) (vec3 0 0 30) false opponent None 2 0
         false 0 false 0 (vec3 0 0 0) 0)
      (Body.mk 7 (vec3 0 1.7 27.5) (vec3 0 0 30) (vec3 0 0 0) 0.01) in
  let w :=
    Hits.mkWorld
      (GameUpdate.set_multiplayerActive true (Main.beginPlaying Main.initialGameState))
      (GameStateRest.mk 0 0 1000 0 0 0)
      (createOrb player 6) oo OpponentState.initial StrikeZone.createStrikeZones
      true [] in
  GameState.opponentScore (Hits.game (Hits.handleHits 5000 w)) = 0%Z.
Proof.
  intros oo w.
  destruct (handleHits_multiplayer_reports_only 5000 5000 w) as (Hg & _).
  - reflexivity.
  - reflexivity.
  - rewrite Hg. reflexivity.
Defined.

(** X12. Only an orb in free flight that is faster than [SCORE_MIN_SPEED]
    can hit: when each of the two orbs is held, recalling, returning or no
    faster than that, [handleHits] changes nothing at all. *)
Theorem handleHits_needs_fast_free_orb (now : R) (w : Hits.World) :
  Hits.inFlight (Hits.playerOrb w) = false
  \/ THREE.length (OrbState.velocity (Orb.state (Hits.playerOrb w)))
     <= Config.SCORE_MIN_SPEED ->
  Hits.inFlight (Hits.opponentOrb w) = false
  \/ THREE.length (OrbState.velocity (Orb.state (Hits.opponentOrb w)))
     <= Config.SCORE_MIN_SPEED ->
  Hits.handleHits now w = w.
Proof.
  intros Hp Ho.
  assert (E1 : Hits.playerOrbHit now w = w).
  { unfold Hits.playerOrbHit. cbv zeta. destruct Hp as [-> | Hslow]; [reflexivity |].
    rewrite (proj2 (gtb_false _ _) Hslow). now rewrite !andb_false_r. }
  assert (E2 : Hits.reflectedOrbHit now w = w).
  { unfold Hits.reflectedOrbHit. cbv zeta. destruct Ho as [-> | Hslow]; [reflexivity |].
    rewrite (proj2 (gtb_false _ _) Hslow). now rewrite !andb_false_r. }
  assert (E3 : Hits.opponentOrbHit now w = w).
  { unfold Hits.opponentOrbHit. cbv zeta. destruct Ho as [-> | Hslow]; [reflexivity |].
    rewrite (proj2 (gtb_false _ _) Hslow). now rewrite !andb_false_r. }
  unfold Hits.handleHits. cbv zeta.
  destruct (negb (GameState.multiplayerActive (Hits.game w)));
    [rewrite E1, E2 |]; exact E3.
Qed.

Lemma handleHits_needs_fast_free_orb_witness :
  let w :=
    Hits.mkWorld (Main.beginPlaying Main.initialGameState) GameStateRest.initial
      (createOrb player 6) (createOrb opponent 7) OpponentState.initial
      StrikeZone.createStrikeZones false [] in
  Hits.handleHits 5000 w = w.
Proof.
  intros w. apply (handleHits_needs_fast_free_orb 5000 w); left; reflexivity.
Defined.

(** ** main.js: two hits in one frame *)

Lemma scorePoint_frame (scorer : Team) (g : GameState.t) :
  GameState.multiplayerActive (Main.scorePoint scorer g) = GameState.multiplayerActive g /\
  GameState.playerPos (Main.scorePoint scorer g) = GameState.playerPos g.
Proof.
  unfold Main.scorePoint. cbv zeta.
  destruct scorer; cbn;
    repeat match goal with
    | |- context [if ?c then _ else _] => destruct c; cbn
    end; auto.
Qed.

(** In single player [handleHits] tests the player's orb against the
    opponent and then the opponent's orb against the player, and calls
    [scorePoint] for each hit it finds: when both orbs hit within one call,
    [scorePoint] runs twice, the second time on whatever the first left. *)
Lemma handleHits_both_hit (now : R) (w : Hits.World) :
  GameState.multiplayerActive (Hits.game w) = false ->
  Hits.inFlight (Hits.playerOrb w) = true ->
  Hits.inFlight (Hits.opponentOrb w) = true ->
  OpponentState.alive (Hits.opponentState w) = true ->
  OpponentState.dissolving (Hits.opponentState w) = false ->
  OrbState.owner (Orb.state (Hits.opponentOrb w)) = opponent ->
  Config.HIT_GRACE_PERIOD_MS < now - OrbState.throwTime (Orb.state (Hits.playerOrb w)) ->
  Config.HIT_GRACE_PERIOD_MS < now - OrbState.throwTime (Orb.state (Hits.opponentOrb w)) ->
  Config.SCORE_DEBOUNCE_MS < now - GameStateRest.lastOppHitTime (Hits.rest w) ->
  Config.SCORE_DEBOUNCE_MS < now - GameStateRest.lastPlayerHitTime (Hits.rest w) ->
  Config.SCORE_MIN_SPEED < THREE.length (OrbState.velocity (Orb.state (Hits.playerOrb w))) ->
  Config.SCORE_MIN_SPEED < THREE.length (OrbState.velocity (Orb.state (Hits.opponentOrb w))) ->
  Vec3.distanceTo (OrbState.position (Orb.state (Hits.playerOrb w)))
    (OpponentState.position (Hits.opponentState w)) < Config.OPP_HIT_RADIUS ->
  Vec3.distanceTo (OrbState.position (Orb.state (Hits.opponentOrb w)))
    (GameState.playerPos (Hits.game w)) < Config.OPP_HIT_RADIUS ->
  Hits.game (Hits.handleHits now w)
  = Main.scorePoint opponent
      (Main.scorePoint (OrbState.owner (Orb.state (Hits.playerOrb w))) (Hits.game w)).
Proof.
  intros Hsingle Hpf Hof Halive Hdis Hown Hgp Hgo Hdo Hdp Hsp Hso Hrp Hro.
  unfold Hits.handleHits. cbv zeta. rewrite Hsingle. cbn [negb].
  assert (E1 : Hits.playerOrbHit now w
    = Hits.mkWorld
        (Main.scorePoint (OrbState.owner (Orb.state (Hits.playerOrb w))) (Hits.game w))
        (GameStateRest.set_shakeTimer 0.15
           (GameStateRest.set_lastOppHitTime now (Hits.rest w)))
        (Flight.startRecall (Hits.clearStacks (Hits.playerOrb w)))
        (Hits.opponentOrb w) (dissolveOpponent (Hits.opponentState w))
        (Hits.strikeZones w) (Hits.network w) (Hits.sent w)).
  { unfold Hits.playerOrbHit. cbv zeta. rewrite Hpf, Halive, Hdis.
    rewrite (proj2 (gtb_true _ _) Hgp), (proj2 (gtb_true _ _) Hdo),
      (proj2 (gtb_true _ _) Hsp), (proj2 (ltb_true _ _) Hrp).
    reflexivity. }
  rewrite E1.
  assert (E2 : forall w1, OpponentState.dissolving (Hits.opponentState w1) = true ->
                          Hits.reflectedOrbHit now w1 = w1).
  { intros w1 H1. unfold Hits.reflectedOrbHit. cbv zeta. rewrite H1.
    cbn [negb]. now rewrite !andb_false_r. }
  rewrite E2
    by (cbn [Hits.opponentState]; unfold dissolveOpponent;
        rewrite Halive, Hdis; reflexivity).
  unfold Hits.opponentOrbHit. cbv zeta.
  cbn [Hits.game Hits.rest Hits.opponentOrb Hits.playerOrb Hits.network Hits.sent
       Hits.opponentState Hits.strikeZones
       GameStateRest.lastPlayerHitTime GameStateRest.set_shakeTimer
       GameStateRest.set_lastOppHitTime].
  destruct (scorePoint_frame (OrbState.owner (Orb.state (Hits.playerOrb w))) (Hits.game w))
    as [Hm Hpos].
  rewrite Hm, Hpos, Hsingle, Hof, Hown.
  rewrite (proj2 (gtb_true _ _) Hgo), (proj2 (gtb_true _ _) Hdp),
    (proj2 (gtb_true _ _) Hso), (proj2 (ltb_true _ _) Hro).
  reflexivity.
Qed.

(** The frame of the failing input: the player's orb is at the opponent and
    the opponent's orb is at the player, both in free flight at full speed,
    thrown two seconds ago; the player leads 6-0 in points and [rounds] to
    nil in rounds, in round [rounds + 1]. *)
Lemma crossing_orbs_frame (rounds : Z) :
  let po :=
    Orb.mk
      (OrbState.mk (vec3 0 1.7 (-27)) (vec3 0 0 (-45)) false player None 0 3000
         false 0 false 0 (vec3 0 0 0) 0)
      (Body.mk 6 (vec3 0 1.7 (-27)) (vec3 0 0 (-45)) (vec3 0 0 0) 0.01) in
  let oo :=
    Orb.mk
      (OrbState.mk (vec3 0 1.7 28) (vec3 0 0 45) false opponent None 0 3000
         false 0 false 0 (vec3 0 0 0) 0)
      (Body.mk 7 (vec3 0 1.7 28) (vec3 0 0 45) (vec3 0 0 0) 0.01) in
  let g :=
    GameState.set_round (rounds + 1)%Z
      (GameState.set_playerRounds rounds
         (GameState.set_playerScore 6%Z (Main.beginPlaying Main.initialGameState))) in
  let w :=
    Hits.mkWorld g GameStateRest.initial po oo OpponentState.initial
      StrikeZone.createStrikeZones false [] in
  Hits.game (Hits.handleHits 5000 w)
  = Main.scorePoint opponent (Main.scorePoint player g).
Proof.
  intros po oo g w.
  apply (handleHits_both_hit 5000 w); try reflexivity;
    cbn; unfold Config.HIT_GRACE_PERIOD_MS, Config.SCORE_DEBOUNCE_MS,
           Config.SCORE_MIN_SPEED, Config.OPP_HIT_RADIUS, Vec3.distanceTo; try lra.
  - rewrite (length_of_sqr _ 45); [lra | lra | simpl; lra].
  - rewrite (length_of_sqr _ 45); [lra | lra | simpl; lra].
  - rewrite (length_of_sqr _ 0); [lra | lra |].
    unfold CONFIG.ARENA_LENGTH, CONFIG.PLAYER_EYE_HEIGHT. simpl. lra.
  - rewrite (length_of_sqr _ 0); [lra | lra |].
    unfold Main.PLAYER_SPAWN, CONFIG.ARENA_LENGTH, CONFIG.PLAYER_EYE_HEIGHT. simpl. lra.
Qed.

(** C3. The claim fails on the code: a round can be awarded twice.  In
    single player [handleHits] calls [scorePoint] for the player's hit and,
    in the same call and with no look at the phase in between, for the
    opponent's hit.  At 6-0 the first call ends the round for the player;
    the second finds the player's score still at 7 and awards the player
    the round again.  From one round to nil the match then ends with three
    rounds won, past ROUNDS_TO_WIN; from nil to nil it ends with two rounds
    won out of a single round played.  Within one call of [scorePoint] the
    claim does hold: the round is over exactly when a score has reached
    POINTS_TO_WIN and the match exactly when, besides, a side has
    ROUNDS_TO_WIN rounds; and [nextRound] zeroes both scores and keeps the
    rounds won. *)
Theorem handleHits_awards_round_twice :
  let po :=
    Orb.mk
      (OrbState.mk (vec3 0 1.7 (-27)) (vec3 0 0 (-45)) false player None 0 3000
         false 0 false 0 (vec3 0 0 0) 0)
      (Body.mk 6 (vec3 0 1.7 (-27)) (vec3 0 0 (-45)) (vec3 0 0 0) 0.01) in
  let oo :=
    Orb.mk
      (OrbState.mk (vec3 0 1.7 28) (vec3 0 0 45) false opponent None 0 3000
         false 0 false 0 (vec3 0 0 0) 0)
      (Body.mk 7 (vec3 0 1.7 28) (vec3 0 0 45) (vec3 0 0 0) 0.01) in
  let frame (rounds : Z) :=
    Hits.game
      (Hits.handleHits 5000
         (Hits.mkWorld
            (GameState.set_round (rounds + 1)%Z
               (GameState.set_playerRounds rounds
                  (GameState.set_playerScore 6%Z
                     (Main.beginPlaying Main.initialGameState))))
            GameStateRest.initial po oo OpponentState.initial
            StrikeZone.createStrikeZones false [])) in
  (GameState.playerScore (frame 1%Z) = 7%Z /\
   GameState.opponentScore (frame 1%Z) = 1%Z /\
   GameState.playerRounds (frame 1%Z) = 3%Z /\
   (CONFIG.ROUNDS_TO_WIN < GameState.playerRounds (frame 1%Z))%Z /\
   GameState.matchPhase (frame 1%Z) = matchOver) /\
  (GameState.playerRounds (frame 0%Z) = 2%Z /\
   GameState.opponentRounds (frame 0%Z) = 0%Z /\
   GameState.round (frame 0%Z) = 1%Z /\
   GameState.matchPhase (frame 0%Z) = matchOver) /\
  (forall (scorer : Team) (h : GameState.t),
     let h' := Main.scorePoint scorer h in
     (Main.roundOver h' = true <->
        (CONFIG.POINTS_TO_WIN <= GameState.playerScore h'
         \/ CONFIG.POINTS_TO_WIN <= GameState.opponentScore h')%Z) /\
     (GameState.matchPhase h' = matchOver <->
        Main.roundOver h' = true /\
        (CONFIG.ROUNDS_TO_WIN <= GameState.playerRounds h'
         \/ CONFIG.ROUNDS_TO_WIN <= GameState.opponentRounds h')%Z)) /\
  (forall w : Main.Globals,
     let n := Main.gameState (Main.nextRound w) in
     GameState.playerScore n = 0%Z /\ GameState.opponentScore n = 0%Z /\
     GameState.playerRounds n = GameState.playerRounds (Main.gameState w) /\
     GameState.opponentRounds n = GameState.opponentRounds (Main.gameState w)).
Proof.
  cbv beta zeta. rewrite (crossing_orbs_frame 1), (crossing_orbs_frame 0).
  split; [repeat split; reflexivity |]. split; [repeat split; reflexivity |]. split.
  - intros scorer h. split; [apply roundOver_scorePoint | apply matchOver_scorePoint].
  - intros w. destruct (nextRound_scores w) as (A & B & C & D & _). now repeat split.
Qed.

(** ** main.js: strike stacks *)

Lemma stacksValid_succ (n : R) :
  Hits.stacksValid n -> n < Config.STRIKE_MAX_STACKS -> Hits.stacksValid (n + 1).
Proof.
  unfold Hits.stacksValid, Config.STRIKE_MAX_STACKS.
  intros [-> | [-> | [-> | ->]]] Hlt.
  - right; left; lra.
  - right; right; left; lra.
  - right; right; right; lra.
  - lra.
Qed.

Lemma scorePoint_strikes (scorer : Team) (g : GameState.t) :
  GameState.playerStrikes (Main.scorePoint scorer g) = GameState.playerStrikes g /\
  GameState.opponentStrikes (Main.scorePoint scorer g) = GameState.opponentStrikes g.
Proof.
  unfold Main.scorePoint. cbv zeta.
  destruct scorer; cbn;
    repeat match goal with
    | |- context [if ?c then _ else _] => destruct c; cbn
    end; auto.
Qed.

Lemma playerStrike_stacks (now : R) (w : Hits.World) :
  Hits.stacksOk w ->
  Hits.stacksOk (Hits.playerStrike now w) /\
  GameState.playerStrikes (Hits.game w)
  <= GameState.playerStrikes (Hits.game (Hits.playerStrike now w))
  <= GameState.playerStrikes (Hits.game w) + 1 /\
  GameState.opponentStrikes (Hits.game (Hits.playerStrike now w))
  = GameState.opponentStrikes (Hits.game w).
Proof.
  intros (Hp & Ho & Hpo & Hoo). unfold Hits.playerStrike, Hits.stacksOk.
  destruct (Hits.inFlight (Hits.playerOrb w)); [| repeat split; auto; lra].
  cbv zeta. destruct (fst _); cbn [andb Hits.set_strikeZones Hits.game];
    [| cbn; repeat split; auto; lra].
  destruct (JS.ltb _ Config.STRIKE_MAX_STACKS) eqn:E; [apply ltb_true in E |];
    cbn; repeat split; auto using stacksValid_succ; lra.
Qed.

Lemma opponentStrike_stacks (now : R) (w : Hits.World) :
  Hits.stacksOk w ->
  Hits.stacksOk (Hits.opponentStrike now w) /\
  GameState.opponentStrikes (Hits.game w)
  <= GameState.opponentStrikes (Hits.game (Hits.opponentStrike now w))
  <= GameState.opponentStrikes (Hits.game w) + 1 /\
  GameState.playerStrikes (Hits.game (Hits.opponentStrike now w))
  = GameState.playerStrikes (Hits.game w).
Proof.
  intros (Hp & Ho & Hpo & Hoo). unfold Hits.opponentStrike, Hits.stacksOk.
  destruct (Hits.inFlight (Hits.opponentOrb w) && _); [| repeat split; auto; lra].
  cbv zeta. destruct (fst _); cbn [andb Hits.set_strikeZones Hits.game];
    [| cbn; repeat split; auto; lra].
  destruct (JS.ltb _ Config.STRIKE_MAX_STACKS) eqn:E; [apply ltb_true in E |];
    cbn; repeat split; auto using stacksValid_succ; lra.
Qed.

Lemma hit_blocks_stacks (now : R) (w : Hits.World) :
  Hits.stacksOk w ->
  Hits.stacksOk (Hits.playerOrbHit now w) /\
  Hits.stacksOk (Hits.reflectedOrbHit now w) /\
  Hits.stacksOk (Hits.opponentOrbHit now w).
Proof.
  intros (Hp & Ho & Hpo & Hoo).
  assert (Hzero : Hits.stacksValid 0) by (left; reflexivity).
  unfold Hits.playerOrbHit, Hits.reflectedOrbHit, Hits.opponentOrbHit, Hits.stacksOk.
  cbv zeta. repeat split;
    repeat match goal with
    | |- context [if ?c then _ else _] => destruct c
    end;
    cbn [Hits.game Hits.playerOrb Hits.opponentOrb Hits.clearStacks Flight.startRecall
         Orb.state OrbUpdate.set_state OrbUpdate.set_strikeStacks
         OrbUpdate.set_returnTimer OrbUpdate.set_returning OrbUpdate.set_recalling
         OrbState.strikeStacks];
    rewrite ?(proj1 (scorePoint_strikes _ _)), ?(proj2 (scorePoint_strikes _ _));
    assumption.
Qed.

(** X13. The strike counters and the stacks carried by the two orbs are
    whole numbers from 0 to [STRIKE_MAX_STACKS] and stay so through
    [handleStrikeZones] and [handleHits]; one call of [handleStrikeZones]
    raises a counter by at most one. *)
Theorem strike_stacks_stay_bounded (now : R) (w : Hits.World) :
  Hits.stacksOk w ->
  Hits.stacksOk (Hits.handleStrikeZones now w) /\
  Hits.stacksOk (Hits.handleHits now w) /\
  GameState.playerStrikes (Hits.game w)
  <= GameState.playerStrikes (Hits.game (Hits.handleStrikeZones now w))
  <= GameState.playerStrikes (Hits.game w) + 1 /\
  GameState.opponentStrikes (Hits.game w)
  <= GameState.opponentStrikes (Hits.game (Hits.handleStrikeZones now w))
  <= GameState.opponentStrikes (Hits.game w) + 1.
Proof.
  intros Hok.
  destruct (playerStrike_stacks now w Hok) as (Hok1 & Hp1 & Ho1).
  destruct (opponentStrike_stacks now (Hits.playerStrike now w) Hok1) as (Hok2 & Ho2 & Hp2).
  split; [| split].
  - unfold Hits.handleStrikeZones. cbv zeta. destruct (negb _); assumption.
  - unfold Hits.handleHits. cbv zeta.
    destruct (negb _).
    + apply hit_blocks_stacks, hit_blocks_stacks, hit_blocks_stacks, Hok.
    + apply hit_blocks_stacks, Hok.
  - unfold Hits.handleStrikeZones. cbv zeta. destruct (negb _).
    + rewrite Hp2, Ho1 in *. split; [lra |]. split; lra.
    + rewrite Ho1. split; [lra |]. split; lra.
Qed.

Lemma strike_stacks_stay_bounded_witness :
  let po :=
    Orb.mk
      (OrbState.mk (vec3 0 1 (-29)) (vec3 0 0 (-40)) false player None 0 0
         false 0 false 0 (vec3 0 0 0) 0)
      (Body.mk 6 (vec3 0 1 (-29)) (vec3 0 0 (-40)) (vec3 0 0 0) 0.01) in
  let w :=
    Hits.mkWorld (Main.beginPlaying Main.initialGameState) GameStateRest.initial
      po (createOrb opponent 7) OpponentState.initial
      StrikeZone.createStrikeZones false [] in
  Hits.stacksOk (Hits.handleStrikeZones 5000 w).
Proof.
  intros po w.
  apply (strike_stacks_stay_bounded 5000 w).
  repeat split; left; reflexivity.
Defined.

(** ** shield.js: raising the shield *)

Lemma frames_held_up (fs : list ShieldUpdate.Frame) :
  forall shield : ShieldUpdate.Placed,
  Forall (fun f => ShieldUpdate.isBlocking f && ShieldUpdate.isArmed f = true) fs ->
  Shield.active (ShieldUpdate.core shield) = true ->
  Shield.active (ShieldUpdate.core (ShieldUpdate.frames fs shield)) = true /\
  Shield.raiseTime (ShieldUpdate.core (ShieldUpdate.frames fs shield))
  = Shield.raiseTime (ShieldUpdate.core shield) /\
  Shield.reflections (ShieldUpdate.core (ShieldUpdate.frames fs shield))
  = Shield.reflections (ShieldUpdate.core shield).
Proof.
  induction fs as [| f rest IH]; intros shield Hall Hact; [auto |].
  inversion Hall as [| ? ? Hf Hrest]; subst.
  change (ShieldUpdate.frames (f :: rest) shield)
    with (ShieldUpdate.frames rest (ShieldUpdate.frame shield f)).
  assert (Hstep :
    Shield.active (ShieldUpdate.core (ShieldUpdate.frame shield f)) = true /\
    Shield.raiseTime (ShieldUpdate.core (ShieldUpdate.frame shield f))
    = Shield.raiseTime (ShieldUpdate.core shield) /\
    Shield.reflections (ShieldUpdate.core (ShieldUpdate.frame shield f))
    = Shield.reflections (ShieldUpdate.core shield)).
  { unfold ShieldUpdate.frame, ShieldUpdate.updateShield. cbv zeta.
    rewrite Hf, Hact. cbn. auto. }
  destruct Hstep as (Ha & Hr & Hq).
  destruct (IH (ShieldUpdate.frame shield f) Hrest Ha) as (Ha' & Hr' & Hq').
  rewrite Ha', Hr', Hq', Hr, Hq. auto.
Qed.

(** X14. The parry window counts from the moment the shield goes up.  When
    a lowered shield is raised in one frame and kept up through any number
    of further frames, its [raiseTime] is the clock value of the frame that
    raised it; a contact by the orb queued at time [t] is then processed as
    a parry exactly when [t] is no more than [PARRY_WINDOW_MS] past that
    moment, and as a plain reflection otherwise. *)
Theorem parry_window_counts_from_raise (shield : ShieldUpdate.Placed)
    (first : ShieldUpdate.Frame) (later : list ShieldUpdate.Frame)
    (t : R) (orbState : OrbState.t) (orbBody : Body.t) (aim : option Vector3) :
  Shield.active (ShieldUpdate.core shield) = false ->
  Shield.reflections (ShieldUpdate.core shield) = [] ->
  Forall (fun f => ShieldUpdate.isBlocking f && ShieldUpdate.isArmed f = true)
    (first :: later) ->
  let raised := ShieldUpdate.frames (first :: later) shield in
  let hit := ShieldUpdate.onCollide (Body.id orbBody) t raised in
  Shield.active (ShieldUpdate.core raised) = true /\
  Shield.raiseTime (ShieldUpdate.core raised) = ShieldUpdate.now first /\
  exists r : Shield.Result,
    fst (fst (fst (Shield.processReflection (ShieldUpdate.core hit) orbState orbBody aim)))
    = Some r /\
    (Shield.isParry r = true <-> t - ShieldUpdate.now first <= CONFIG.PARRY_WINDOW_MS) /\
    Shield.speed r
    = THREE.length (Body.velocity orbBody)
      * (if Shield.isParry r then CONFIG.PARRY_SPEED_MULT else CONFIG.REFLECT_SPEED_MULT).
Proof.
  intros Hdown Hempty Hall. cbv zeta.
  inversion Hall as [| ? ? Hf Hrest]; subst.
  change (ShieldUpdate.frames (first :: later) shield)
    with (ShieldUpdate.frames later (ShieldUpdate.frame shield first)).
  assert (Hstep :
    Shield.active (ShieldUpdate.core (ShieldUpdate.frame shield first)) = true /\
    Shield.raiseTime (ShieldUpdate.core (ShieldUpdate.frame shield first))
    = ShieldUpdate.now first /\
    Shield.reflections (ShieldUpdate.core (ShieldUpdate.frame shield first)) = []).
  { unfold ShieldUpdate.frame, ShieldUpdate.updateShield. cbv zeta.
    rewrite Hf, Hdown, Hempty. cbn. auto. }
  destruct Hstep as (Ha & Hr & Hq).
  destruct (frames_held_up later (ShieldUpdate.frame shield first) Hrest Ha)
    as (Ha' & Hr' & Hq').
  rewrite Hr in Hr'. rewrite Hq in Hq'.
  split; [exact Ha' |]. split; [exact Hr' |].
  set (raised := ShieldUpdate.frames later (ShieldUpdate.frame shield first)) in *.
  pose proof (processReflection_head
                (ShieldUpdate.core (ShieldUpdate.onCollide (Body.id orbBody) t raised))
                orbState orbBody aim (ReflectionEvent.mk (Body.id orbBody) t) []) as H.
  destruct (Shield.processReflection _ orbState orbBody aim) as [[[result sh'] st'] b'].
  destruct H as (_ & _ & _ & (r & Hres & Hparry & Hspeed & _)).
  { cbn. rewrite Hq'. reflexivity. }
  { reflexivity. }
  exists r. split; [exact Hres |]. split; [| exact Hspeed].
  rewrite Hparry. cbn. rewrite Hr'. apply leb_true.
Qed.

Lemma parry_window_counts_from_raise_witness :
  let f := ShieldUpdate.mkFrame Main.PLAYER_SPAWN 0 0 true true in
  let raised := ShieldUpdate.frames [f 1000; f 1016; f 1033] ShieldUpdate.createShield in
  Shield.raiseTime (ShieldUpdate.core raised) = 1000.
Proof.
  intros f raised.
  destruct (parry_window_counts_from_raise ShieldUpdate.createShield (f 1000)
              [f 1016; f 1033] 1100 (Orb.state (createOrb opponent 7))
              (Orb.body (createOrb opponent 7)) None) as (_ & Hr & _).
  - reflexivity.
  - reflexivity.
  - repeat constructor.
  - exact Hr.
Defined.

(** ** network.js: the state stream *)

Lemma sendState_cases (data : StateData.t) (now : R) (n : Client.Net) :
  Client.sendState data now n = n \/
  (Client.outgoing (Client.sendState data now n)
   = Client.outgoing n ++ [Server.stateMsg data] /\
   Client.lastSendTime (Client.sendState data now n) = now /\
   Client.SEND_INTERVAL_MS <= now - Client.lastSendTime n).
Proof.
  unfold Client.sendState.
  destruct (negb (Client.connected n) || negb (Client.wsOpen n)); [now left |].
  destruct (JS.ltb _ Client.SEND_INTERVAL_MS) eqn:E; [now left | right].
  apply ltb_false in E. cbn. auto.
Qed.

(** X15. The state stream is rate-limited.  Whatever the game hands to
    [sendState] and whenever, every message that actually goes out does so
    at least [SEND_INTERVAL_MS] after the one before it (and after the
    [lastSendTime] the connection started with), and nothing goes out but
    what was handed in: one state message per accepted call. *)
Theorem sendState_rate_limited (calls : list (StateData.t * R)) :
  forall n : Client.Net,
  Client.spacedFrom (Client.lastSendTime n) (Client.sendTimes calls n) /\
  List.length (Client.outgoing (Client.sendStates calls n))
  = (List.length (Client.outgoing n) + List.length (Client.sendTimes calls n))%nat.
Proof.
  induction calls as [| [data now] rest IH]; intros n.
  - simpl. split; [exact I | lia].
  - unfold Client.sendStates. cbn [fold_left Client.sendTimes fst snd].
    fold (Client.sendStates rest (Client.sendState data now n)).
    destruct (IH (Client.sendState data now n)) as [Hsp Hlen].
    destruct (sendState_cases data now n) as [E | (Hout & Hlast & Hgap)].
    + rewrite E in *. rewrite Nat.ltb_irrefl. simpl. split; [exact Hsp | exact Hlen].
    + rewrite Hlen. rewrite Hout, length_app. simpl List.length.
      replace (List.length (Client.outgoing n) <? List.length (Client.outgoing n) + 1)%nat
        with true by (symmetry; apply Nat.ltb_lt; lia).
      simpl. rewrite Hlast in Hsp. split; [split; [exact Hgap | exact Hsp] | lia].
Qed.

(** ** server.js and the client: what a message brings about at the other end *)

Lemma outbox_updateRoom (rid : nat) (f : Server.Room -> Server.Room) (s : Server.State) :
  Server.outbox (Server.updateRoom rid f s) = Server.outbox s.
Proof. reflexivity. Qed.

Lemma outbox_pushTimeout (rid : nat) (cb : Server.Callback) (d : Z) (s : Server.State) :
  Server.outbox (Server.pushTimeout rid cb d s) = Server.outbox s.
Proof. reflexivity. Qed.

Lemma openSockets_updateRoom (rid : nat) (f : Server.Room -> Server.Room)
    (s : Server.State) :
  Server.openSockets (Server.updateRoom rid f s) = Server.openSockets s.
Proof. reflexivity. Qed.

Lemma openSockets_pushTimeout (rid : nat) (cb : Server.Callback) (d : Z)
    (s : Server.State) :
  Server.openSockets (Server.pushTimeout rid cb d s) = Server.openSockets s.
Proof. reflexivity. Qed.

#[local] Hint Rewrite outbox_updateRoom outbox_pushTimeout openSockets_updateRoom
  openSockets_pushTimeout : server.

Lemma outbox_send_open (w : nat) (msg : Server.Msg) (s : Server.State) :
  w ∈ Server.openSockets s ->
  Server.outbox (Server.send (Some w) msg s) = Server.outbox s ++ [(w, msg)].
Proof.
  intros Hw. unfold Server.send, Server.isOpen.
  rewrite (bool_decide_eq_true_2 _ Hw). reflexivity.
Qed.

Lemma outbox_broadcast_open (room : Server.Room) (msg : Server.Msg) (s : Server.State)
    (a b : nat) :
  Server.players room = (Some a, Some b) ->
  a ∈ Server.openSockets s -> b ∈ Server.openSockets s ->
  Server.outbox (Server.broadcast room msg s)
  = Server.outbox s ++ [(a, msg); (b, msg)].
Proof.
  intros Hpl Ha Hb. unfold Server.broadcast. rewrite Hpl. cbn [fst snd].
  rewrite outbox_send_open by (rewrite send_openSockets; exact Hb).
  rewrite outbox_send_open by exact Ha.
  rewrite <- app_assoc. reflexivity.
Qed.

Lemma getSlot_players (room : Server.Room) (a b : nat) :
  Server.players room = (Some a, Some b) -> a <> b ->
  Server.getSlot room a = 0%Z /\ Server.getSlot room b = 1%Z.
Proof.
  intros Hpl Hab. unfold Server.getSlot. rewrite Hpl. cbn [fst snd]. split.
  - rewrite bool_decide_eq_true_2 by reflexivity. reflexivity.
  - rewrite bool_decide_eq_false_2 by congruence.
    rewrite bool_decide_eq_true_2 by reflexivity. reflexivity.
Qed.

(** X16. A deflection reaches the attacker mirrored.  When a player's client
    reports that its shield deflected the opponent's orb, the server passes
    the event on, unchanged, to the other player of the room and to nobody
    else, and touches nothing else of its state.  The receiving client turns
    it into its own frame — z component of the velocity negated — and gives
    its own orb exactly that velocity, body and state alike, the same speed
    as the deflector computed, and hands the orb's ownership to the
    opponent. *)
Theorem deflection_reaches_attacker_mirrored (s : Server.State) (rid : nat)
    (room : Server.Room) (a b sender : nat) (v : Vector3) (isParry : bool)
    (n : Client.Net) (w : Hits.World) :
  Server.rooms s !! rid = Some room ->
  Server.players room = (Some a, Some b) ->
  a <> b -> a ∈ Server.openSockets s -> b ∈ Server.openSockets s ->
  sender = a \/ sender = b ->
  Server.playerToRoom s !! sender = Some rid ->
  let e := Client.deflectionEvent v isParry in
  let receiver := if bool_decide (sender = a) then b else a in
  let s' := Server.onMessage sender (Some (Server.eventMsg (Some e))) s in
  let delivered := Client.onmessage (Server.opponent_event (Some e)) n in
  Server.outbox s' = Server.outbox s ++ [(receiver, Server.opponent_event (Some e))] /\
  Server.rooms s' = Server.rooms s /\
  Server.queue s' = Server.queue s /\
  Server.pending s' = Server.pending s /\
  fst delivered = n /\
  exists w' : Hits.World,
    (match snd delivered with
     | Client.onOpponentEvent mirrored => Client.opponentEvent mirrored w
     | _ => None
     end) = Some w' /\
    OrbState.velocity (Orb.state (Hits.playerOrb w'))
    = vec3 (THREE.x v) (THREE.y v) (- THREE.z v) /\
    Body.velocity (Orb.body (Hits.playerOrb w'))
    = vec3 (THREE.x v) (THREE.y v) (- THREE.z v) /\
    THREE.length (OrbState.velocity (Orb.state (Hits.playerOrb w'))) = THREE.length v /\
    OrbState.owner (Orb.state (Hits.playerOrb w')) = opponent /\
    OrbState.lastDeflectedBy (Orb.state (Hits.playerOrb w')) = Some opponent /\
    Hits.game w' = Hits.game w.
Proof.
  intros Hroom Hpl Hab Ha Hb Hsender Hmap. cbv zeta.
  destruct (getSlot_players room a b Hpl Hab) as [Hsa Hsb].
  assert (Hserver :
    let s' := Server.onMessage sender
                (Some (Server.eventMsg (Some (Client.deflectionEvent v isParry)))) s in
    Server.outbox s'
    = Server.outbox s
      ++ [(if bool_decide (sender = a) then b else a,
           Server.opponent_event (Some (Client.deflectionEvent v isParry)))] /\
    Server.rooms s' = Server.rooms s /\
    Server.queue s' = Server.queue s /\
    Server.pending s' = Server.pending s).
  { cbv zeta. unfold Server.onMessage. rewrite Hmap, Hroom. cbv zeta.
    destruct Hsender as [-> | ->].
    - rewrite Hsa, Hpl. cbn [Z.eqb fst snd Server.isHitReport Client.deflectionEvent
                             NetEvent.name].
      rewrite bool_decide_eq_true_2 by reflexivity.
      replace (String.eqb Client.deflectionName "i_got_hit") with false by reflexivity.
      rewrite outbox_send_open by exact Hb.
      autorewrite with server. auto.
    - rewrite Hsb, Hpl. cbn [Z.eqb fst snd Server.isHitReport Client.deflectionEvent
                             NetEvent.name].
      rewrite bool_decide_eq_false_2 by congruence.
      replace (String.eqb Client.deflectionName "i_got_hit") with false by reflexivity.
      rewrite outbox_send_open by exact Ha.
      autorewrite with server. auto. }
  cbv zeta in Hserver. destruct Hserver as (H1 & H2 & H3 & H4).
  repeat (split; [assumption || reflexivity |]).
  eexists. split; [reflexivity |].
  cbn [Hits.playerOrb Hits.set_playerOrb Orb.state Orb.body OrbState.velocity
       OrbState.set_lastDeflectedBy OrbState.set_owner OrbState.set_velocity
       OrbState.owner OrbState.lastDeflectedBy Body.set_velocity Body.velocity
       Hits.game].
  repeat split; try reflexivity.
  apply length_of_sqr; [apply length_nonneg |].
  rewrite length_sqr. cbn [THREE.x THREE.y THREE.z]. ring.
Qed.

Lemma deflection_reaches_attacker_mirrored_witness :
  let s := Server.run Server.openingEvents Server.initial in
  let e := Client.deflectionEvent (vec3 1 2 (-30)) true in
  Server.outbox (Server.onMessage 20 (Some (Server.eventMsg (Some e))) s)
  = Server.outbox s ++ [(10%nat, Server.opponent_event (Some e))].
Proof.
  intros s e.
  destruct (deflection_reaches_attacker_mirrored s 1
              (Server.mkRoom 1 (Some 10%nat, Some 20%nat) (0, 0)%Z (0, 0)%Z 1%Z
                 Server.phPlaying [1%nat; 2%nat; 3%nat])
              10 20 20 (vec3 1 2 (-30)) true Client.createNetwork
              (Hits.mkWorld Main.initialGameState GameStateRest.initial
                 (createOrb player 6) (createOrb opponent 7) OpponentState.initial
                 StrikeZone.createStrikeZones true []))
    as (Hout & _).
  - vm_compute. reflexivity.
  - reflexivity.
  - discriminate.
  - apply (bool_decide_unpack (_ ∈ _)). vm_compute. exact I.
  - apply (bool_decide_unpack (_ ∈ _)). vm_compute. exact I.
  - right. reflexivity.
  - vm_compute. reflexivity.
  - exact Hout.
Defined.

(** What a hit report sends first: the new score to both players. *)
Lemma handleHitReport_outbox (rid : nat) (slot : Z) (s : Server.State)
    (room : Server.Room) (a b : nat) :
  Server.rooms s !! rid = Some room ->
  Server.players room = (Some a, Some b) ->
  a ∈ Server.openSockets s -> b ∈ Server.openSockets s ->
  Server.phase room = Server.phPlaying ->
  let sc := Server.bump (if (slot =? 0)%Z then 1%Z else 0%Z) (Server.scores room) in
  let update :=
    Server.score_update (fst sc) (snd sc) (fst (Server.rounds room))
      (snd (Server.rounds room)) (Server.round room) in
  exists more : list (nat * Server.Msg),
    Server.outbox (Server.handleHitReport rid slot s)
    = Server.outbox s ++ (a, update) :: (b, update) :: more /\
    Server.openSockets (Server.handleHitReport rid slot s) = Server.openSockets s.
Proof.
  intros Hroom Hpl Ha Hb Hph. cbv zeta.
  unfold Server.handleHitReport. rewrite Hroom, Hph. cbv zeta.
  destruct (_ || _); [destruct (_ || _) |];
    repeat (autorewrite with server;
            rewrite (outbox_broadcast_open room _ _ a b Hpl)
              by (autorewrite with server; assumption));
    autorewrite with server; rewrite <- ?app_assoc;
    (eexists; split; [reflexivity | reflexivity]).
Qed.

(** X17. A hit report moves both scoreboards the same way.  When a player of
    a room in the playing phase reports being hit, the server's first
    message to each of the two players is the new score, and each client
    reads it for its own slot: the reporter's client shows its own score
    unchanged and its opponent's one higher, the other client shows its own
    one higher — the very numbers the server keeps for the two slots. *)
Theorem hit_report_moves_both_scoreboards (s : Server.State) (rid : nat)
    (room : Server.Room) (a b : nat) (reporterIsA : bool) (ga gb : GameState.t) :
  Server.rooms s !! rid = Some room ->
  Server.players room = (Some a, Some b) ->
  a <> b -> a ∈ Server.openSockets s -> b ∈ Server.openSockets s ->
  Server.phase room = Server.phPlaying ->
  Server.playerToRoom s !! (if reporterIsA then a else b) = Some rid ->
  let reporter := if reporterIsA then a else b in
  let s' := Server.onMessage reporter Server.hitReport s in
  let sa := fst (Server.scores room) in
  let sb := snd (Server.scores room) in
  exists (p1 p2 r1 r2 round : Z) (more : list (nat * Server.Msg)),
    Server.outbox s'
    = Server.outbox s
      ++ (a, Server.score_update p1 p2 r1 r2 round)
         :: (b, Server.score_update p1 p2 r1 r2 round) :: more /\
    (p1, p2) = (if reporterIsA then (sa, sb + 1) else (sa + 1, sb))%Z /\
    (exists room', Server.rooms s' !! rid = Some room' /\ Server.scores room' = (p1, p2)) /\
    let ga' := Client.scoreUpdate 0 p1 p2 r1 r2 round ga in
    let gb' := Client.scoreUpdate 1 p1 p2 r1 r2 round gb in
    GameState.playerScore ga' = p1 /\ GameState.opponentScore ga' = p2 /\
    GameState.playerScore gb' = p2 /\ GameState.opponentScore gb' = p1 /\
    GameState.playerScore ga' = GameState.opponentScore gb' /\
    GameState.opponentScore ga' = GameState.playerScore gb'.
Proof.
  intros Hroom Hpl Hab Ha Hb Hph Hmap. cbv zeta.
  destruct (getSlot_players room a b Hpl Hab) as [Hsa Hsb].
  set (slot := if reporterIsA then 0%Z else 1%Z).
  assert (Hslot : Server.getSlot room (if reporterIsA then a else b) = slot)
    by (destruct reporterIsA; assumption).
  destruct (handleHitReport_outbox rid slot s room a b Hroom Hpl Ha Hb Hph)
    as (more & Hout & Hopen).
  cbv zeta in Hout.
  set (sc := Server.bump (if (slot =? 0)%Z then 1%Z else 0%Z) (Server.scores room)) in *.
  exists (fst sc), (snd sc), (fst (Server.rounds room)), (snd (Server.rounds room)),
    (Server.round room).
  assert (Hrooms : exists room',
    Server.rooms (Server.handleHitReport rid slot s) !! rid = Some room' /\
    Server.scores room' = sc).
  { unfold Server.handleHitReport. rewrite Hroom, Hph. cbv zeta. fold sc.
    destruct (_ || _); [destruct (_ || _) |];
      autorewrite with server; rewrite ?lookup_alter_eq, Hroom; cbn;
      (eexists; split; [reflexivity | reflexivity]). }
  unfold Server.onMessage, Server.hitReport. rewrite Hmap, Hroom. cbv zeta.
  rewrite Hslot.
  assert (Hother : exists o,
    (if (slot =? 0)%Z then snd (Server.players room) else fst (Server.players room))
    = Some o /\ o ∈ Server.openSockets s).
  { rewrite Hpl. subst slot. destruct reporterIsA; cbn; eauto. }
  destruct Hother as (o & -> & Ho).
  replace (slot =? -1)%Z with false by (subst slot; destruct reporterIsA; reflexivity).
  cbn [Server.isHitReport NetEvent.name].
  replace (String.eqb "i_got_hit" "i_got_hit") with true by reflexivity.
  rewrite outbox_send_open by (rewrite Hopen; exact Ho).
  rewrite Hout, <- app_assoc.
  eexists. split; [reflexivity |]. split.
  { subst sc slot. unfold Server.bump.
    destruct (Server.scores room) as [x y]. destruct reporterIsA; reflexivity. }
  split.
  { rewrite send_rooms. destruct Hrooms as (room' & Hr & Hs). exists room'.
    split; [exact Hr |]. rewrite Hs. destruct sc; reflexivity. }
  cbn. repeat split; reflexivity.
Qed.

Lemma hit_report_moves_both_scoreboards_witness :
  let s := Server.run Server.openingEvents Server.initial in
  let s' := Server.onMessage 20 Server.hitReport s in
  exists room', Server.rooms s' !! 1%nat = Some room' /\ Server.scores room' = (1, 0)%Z.
Proof.
  intros s s'.
  destruct (hit_report_moves_both_scoreboards s 1
              (Server.mkRoom 1 (Some 10%nat, Some 20%nat) (0, 0)%Z (0, 0)%Z 1%Z
                 Server.phPlaying [1%nat; 2%nat; 3%nat])
              10 20 false Main.initialGameState Main.initialGameState)
    as (p1 & p2 & r1 & r2 & round & more & _ & Hp & (room' & Hr & Hs) & _).
  - vm_compute. reflexivity.
  - reflexivity.
  - discriminate.
  - apply (bool_decide_unpack (_ ∈ _)). vm_compute. exact I.
  - apply (bool_decide_unpack (_ ∈ _)). vm_compute. exact I.
  - reflexivity.
  - vm_compute. reflexivity.
  - exists room'. split; [exact Hr |]. rewrite Hs, Hp. reflexivity.
Defined.
